(** * onit cluster lifecycle controller: a shallow embedding

    The Go package [onit] drives a Kubernetes test cluster: [Setup] creates
    the objects of the cluster step by step, [AddNetwork], [RemoveNetwork]
    and their siblings provision resources and reconcile the topology
    service, [RunTests] runs a test job and [GetResources] resolves a
    resource name to pods.

    The embedding follows [pkg/onit/cluster.go] and [pkg/onit/onos-topo.go],
    with [initImageTags] of [pkg/onit/cli/create.go] and [GetFreePorts].
    The Kubernetes client, the console and the controller methods that live
    in other files are a [Gateway]: a record of reply functions that see the
    history of calls made so far, so that any behaviour of the cluster
    (errors at any point, pods that come up over time) can be scripted. *)

From Stdlib Require Import ZArith Lia DecimalString.
From Stdlib Require DecimalZ DecimalPos.
From Stdlib Require Import Sorted.
From stdpp Require Import base strings gmap list.

Open Scope Z_scope.
Open Scope string_scope.
Open Scope list_scope.

(** ** Go values *)

(** Go's [int] on the 64-bit platforms the tool is built for. *)
Definition minInt : Z := - 2 ^ 63.
Definition maxInt : Z := 2 ^ 63 - 1.

Definition wrapInt (z : Z) : Z := (z + 2 ^ 63) mod 2 ^ 64 - 2 ^ 63.

(** [a + b] on [int], with the wrap-around of the machine. *)
Definition int_add (a b : Z) : Z := wrapInt (a + b).

(** [strconv.Itoa], also what [%d] prints. *)
Definition Itoa (i : Z) : string := NilZero.string_of_int (Z.to_int i).

(** Go's [error] values, as far as the controller tells them apart:
    [k8serrors.IsAlreadyExists], [k8serrors.IsNotFound], [io.EOF], and
    everything else by its message ([errors.New]). [None] is [nil]. *)
Inductive error : Type :=
  | AlreadyExists
  | NotFound
  | EOF
  | Other (msg : string).

Definition IsAlreadyExists (e : error) : bool :=
  match e with AlreadyExists => true | _ => false end.

Definition IsNotFound (e : error) : bool :=
  match e with NotFound => true | _ => false end.

Definition isEOF (e : error) : bool :=
  match e with EOF => true | _ => false end.

(** ** Kubernetes objects, as far as the controller reads or names them *)

Inductive Kind : Type :=
  | KClusterRole | KClusterRoleBinding | KServiceAccount
  | KConfigMap | KService | KDeployment.

(** A created object: its kind and [ObjectMeta], and for a deployment the
    replica count and the image of its first container. The rules, ports,
    probes and volumes the builders fill in are not read by the controller
    and are left out. *)
Record Object : Type := {
  obj_Kind : Kind;
  obj_Name : string;
  obj_Namespace : string;
  obj_Replicas : Z;
  obj_Image : string
}.

Record ContainerStatus : Type := {
  (** [State.Running != nil] *)
  cs_Running : bool
}.

Record Pod : Type := {
  pod_Name : string;
  pod_ContainerStatuses : list ContainerStatus
}.

Record Deployment : Type := {
  dep_ReadyReplicas : Z
}.

Record ConfigMap : Type := {
  cm_Name : string;
  cm_BinaryData : gmap string string
}.

(** A value of a YAML document decoded into [map[string]interface{}]. *)
Inductive YamlValue : Type :=
  | YInt (n : Z)
  | YStr (s : string)
  | YBool (b : bool)
  | YNull.

(** An [io.ReadCloser] over a log stream: what each successive [Read]
    returns, the bytes read and the error. A reader whose script is
    exhausted never returns from [Read]. *)
Definition Reader : Type := list (string * option error).

(** ** Configuration *)

Record ClusterConfig : Type := {
  Registry : string;
  Preset : string;
  ImageTags : gmap string string;
  PullPolicy : string;
  ConfigNodes : Z;
  TopoNodes : Z;
  Partitions : Z;
  PartitionSize : Z
}.

Record NetworkConfig : Type := {
  NumDevices : Z
}.

(** Modelled from the spec: the constant [Debug] of the image tags is
    declared in a file that is not part of the sources; the spec calls it
    the "debug" sentinel. *)
Definition Debug : string := "debug".

(** Modelled from the spec: [configsPath], the directory of the manifest
    templates, is declared in a file that is not part of the sources. *)
Definition configsPath : string := "configs".

(** Go's zero value for a missing key of [map[string]string]. *)
Definition tagOf (tags : gmap string string) (k : string) : string :=
  default "" (tags !! k).

(** Modelled from the spec: [SimulatorConfig], the per-resource configuration
    of a simulator, is declared in a file that is not part of the sources;
    the controller passes it on untouched. *)
Record SimulatorConfig : Type := {
  sim_Config : string
}.

(** ** The gateway *)

(** A call that leaves the controller code of the two files: a request to
    the Kubernetes API, a file read, a sleep, or a controller method that is
    defined in another file of the package. *)
Inductive Call : Type :=
  | CCreate (o : Object)
  | CPodsGet (ns name : string)
  | CPodsList (ns selector : string)
  | CDeploymentsGet (ns name : string)
  | CConfigMapsList (ns selector : string)
  | CLogsStream (ns pod : string) (follow : bool)
  | CClose
  | CReadFile (path : string)
  | CSleep (ms : Z)
  | CExecute (pod : string) (cmd : list string)
  | CExecuteCLI (command : string)
  | CMethod (name : string) (args : list string)
  | CStartTests (testID : string) (tests : list string) (timeout : Z)
  | CGetStatus (pod : string).

(** The replies. Every reply function receives the calls made before, so a
    gateway can fail the third create, or report a deployment ready only
    after five polls. [inl] is the result, [inr] the error. *)
Record Gateway : Type := {
  gw_create : list Call -> Object -> option error;
  gw_podsGet : list Call -> string -> string -> Pod + error;
  gw_podsList : list Call -> string -> string -> list Pod + error;
  gw_deploymentsGet : list Call -> string -> string -> Deployment + error;
  (** [List] of config maps returns a list value together with the error. *)
  gw_configMapsList : list Call -> string -> string -> list ConfigMap * option error;
  gw_logsStream : list Call -> string -> string -> Reader + error;
  gw_readFile : list Call -> string -> string + error;
  gw_execute : list Call -> string -> list string -> option error;
  gw_executeCLI : list Call -> string -> option error;
  gw_method : list Call -> string -> list string -> option error;
  gw_startTests : list Call -> string -> list string -> Z -> Pod + error;
  gw_getStatus : list Call -> string -> (string * Z) + error;
  (** [yaml.Unmarshal] into a [map[string]interface{}]. *)
  yaml_Unmarshal : string -> gmap string YamlValue + error
}.

(** ** The status reporter *)

(** Modelled from the spec: what the status writer surfaces on the output
    stream as steps start, succeed and fail. *)
Inductive StatusEvent : Type :=
  | Started (label : string)
  | Succeeded (label : string)
  | StepFailed (label : string) (err : error).

(** Modelled from the spec: [console.StatusWriter] is declared in a package
    that is not part of the sources. [Start] begins a step and emits it,
    [Succeed] marks the last started step successful, [Fail] marks it failed
    and records the error; the writer accumulates a terminal error. *)
Record StatusWriter : Type := {
  sw_step : string;
  sw_err : option error;
  sw_out : list StatusEvent
}.

(** Modelled from the spec: [console.ErrorStatus], the status object that
    an operation returns. It exposes [Failed()], and carries the label of
    the step and the error it was made from. *)
Record ErrorStatus : Type := {
  Failed : bool;
  es_label : string;
  es_err : option error
}.

(** ** The world and the monad of the controller *)

Record World : Type := {
  trace : list Call;
  status : StatusWriter;
  stdout : list string
}.

(** The outcome of a Go call: a value, a run-time panic, or no return at
    all (a polling loop that ran out of the fuel it was given, a [Read]
    that blocks for ever). *)
Inductive Res (A : Type) : Type :=
  | Val (a : A)
  | Panic (msg : string)
  | Diverge.
Arguments Val {A} a.
Arguments Panic {A} msg.
Arguments Diverge {A}.

Definition M (A : Type) : Type := World -> Res A * World.

Definition ret {A} (a : A) : M A := fun w => (Val a, w).

Definition bind {A B} (m : M A) (k : A -> M B) : M B :=
  fun w =>
    match m w with
    | (Val a, w') => k a w'
    | (Panic msg, w') => (Panic msg, w')
    | (Diverge, w') => (Diverge, w')
    end.

Definition panic {A} (msg : string) : M A := fun w => (Panic msg, w).
Definition diverge {A} : M A := fun w => (Diverge, w).

Notation "'do' x <- m ; k" := (bind m (fun x => k))
  (at level 10, x name, m at level 100, k at level 200).
Notation "'do_' m ; k" := (bind m (fun _ => k))
  (at level 10, m at level 100, k at level 200).

(** One call through the gateway: the reply is computed from the history,
    then the call joins the history. *)
Definition logCall (ev : Call) (w : World) : World :=
  {| trace := trace w ++ [ev]; status := status w; stdout := stdout w |}.

Definition call {A} (ev : Call) (reply : list Call -> A) : M A :=
  fun w => (Val (reply (trace w)), logCall ev w).

(** [fmt.Print] *)
Definition Print (s : string) : M unit :=
  fun w =>
    (Val tt,
     {| trace := trace w; status := status w; stdout := stdout w ++ [s] |}).

Definition setStatus (sw : StatusWriter) (w : World) : World :=
  {| trace := trace w; status := sw; stdout := stdout w |}.

(** Modelled from the spec: [Start(label)] begins a step and emits it. *)
Definition sw_Start (label : string) (sw : StatusWriter) : StatusWriter :=
  {| sw_step := label; sw_err := sw_err sw;
     sw_out := sw_out sw ++ [Started label] |}.

(** Modelled from the spec: [Succeed()] marks the last started step
    successful. *)
Definition sw_Succeed (sw : StatusWriter) : StatusWriter :=
  {| sw_step := sw_step sw; sw_err := sw_err sw;
     sw_out := sw_out sw ++ [Succeeded (sw_step sw)] |}.

(** Modelled from the spec: [Fail(err)] marks the step failed and records
    the error. *)
Definition sw_Fail (e : error) (sw : StatusWriter) : StatusWriter :=
  {| sw_step := sw_step sw; sw_err := Some e;
     sw_out := sw_out sw ++ [StepFailed (sw_step sw) e] |}.

Definition startW (label : string) (w : World) : World :=
  setStatus (sw_Start label (status w)) w.
Definition succeedW (w : World) : World :=
  setStatus (sw_Succeed (status w)) w.
Definition failW (e : error) (w : World) : World :=
  setStatus (sw_Fail e (status w)) w.

(** Modelled from the spec: [Succeed()] returns a status object that
    represents overall success. *)
Definition successOf (sw : StatusWriter) : ErrorStatus :=
  {| Failed := false; es_label := sw_step sw; es_err := None |}.

(** Modelled from the spec: [Fail(err)] returns a status object that
    represents overall failure, with the label of the failing step and the
    underlying error. *)
Definition failureOf (e : error) (sw : StatusWriter) : ErrorStatus :=
  {| Failed := true; es_label := sw_step sw; es_err := Some e |}.

(** Modelled from the spec: the writer itself handed out as a status
    ([return c.status]); it shows the terminal error accumulated so far. *)
Definition statusOf (sw : StatusWriter) : ErrorStatus :=
  {| Failed := bool_decide (is_Some (sw_err sw));
     es_label := sw_step sw; es_err := sw_err sw |}.

Definition status_Start (label : string) : M unit :=
  fun w => (Val tt, startW label w).
Definition status_Succeed : M ErrorStatus :=
  fun w => (Val (successOf (status w)), succeedW w).
Definition status_Fail (e : error) : M ErrorStatus :=
  fun w => (Val (failureOf e (status w)), failW e w).
Definition status_Get : M ErrorStatus :=
  fun w => (Val (statusOf (status w)), w).

(** The labels of the steps started so far, oldest first. *)
Definition startedLabels (sw : StatusWriter) : list string :=
  omap (fun ev => match ev with Started l => Some l | _ => None end) (sw_out sw).

(** ** The controller *)

Record ClusterController : Type := {
  clusterID : string;
  kubeclient : Gateway;
  config : ClusterConfig
}.

(** [if err := m; err != nil { return err }], then [k]. *)
Definition orReturn (m : M (option error)) (k : M (option error)) : M (option error) :=
  do err <- m;
  match err with
  | Some e => ret (Some e)
  | None => k
  end.

(** [if err := m; err != nil { return c.status.Fail(err) }], then [k]. *)
Definition orFail (m : M (option error)) (k : M ErrorStatus) : M ErrorStatus :=
  do err <- m;
  match err with
  | Some e => status_Fail e
  | None => k
  end.

(** [if err := m; err != nil { c.status.Fail(err) }], then [k]: the failure
    is reported and the operation goes on. *)
Definition orRecord {A} (m : M (option error)) (k : M A) : M A :=
  do err <- m;
  match err with
  | Some e => do_ status_Fail e; k
  | None => k
  end.

Definition dquote : string := String (Ascii.ascii_of_nat 34) EmptyString.

Definition int32_of (z : Z) : Z := (z + 2 ^ 31) mod 2 ^ 32 - 2 ^ 31.

Definition Minute : Z := 60 * 1000000000.

Definition mkObject (k : Kind) (name ns : string) : Object :=
  {| obj_Kind := k; obj_Name := name; obj_Namespace := ns;
     obj_Replicas := 0; obj_Image := "" |}.

Definition mkDeployment (name ns : string) (replicas : Z) (image : string) : Object :=
  {| obj_Kind := KDeployment; obj_Name := name; obj_Namespace := ns;
     obj_Replicas := replicas; obj_Image := image |}.

(** The command line [addDevice] formats with [fmt.Sprintf]. *)
Definition addDeviceCommand (deviceType name : string) (port : Z) : string :=
  "onos topo add device " +:+ name +:+ " --type " +:+ deviceType
  +:+ " --address " +:+ name +:+ ":" +:+ Itoa port
  +:+ " --version 1.0.0 --plain --timeout 15s".

(** The command line [removeDevice] formats with [fmt.Sprintf]. *)
Definition removeDeviceCommand (name : string) : string :=
  "onos topo remove device " +:+ name.

Section Controller.

Variable c : ClusterController.

(** The fuel of the polling loops: how many polls a wait may make. *)
Variable fuel : nat.

(** *** Calls that leave the two files *)

Definition Create (o : Object) : M (option error) :=
  call (CCreate o) (fun tr => gw_create (kubeclient c) tr o).

Definition PodsGet (name : string) : M (Pod + error) :=
  call (CPodsGet (clusterID c) name)
       (fun tr => gw_podsGet (kubeclient c) tr (clusterID c) name).

Definition PodsList (selector : string) : M (list Pod + error) :=
  call (CPodsList (clusterID c) selector)
       (fun tr => gw_podsList (kubeclient c) tr (clusterID c) selector).

Definition DeploymentsGet (name : string) : M (Deployment + error) :=
  call (CDeploymentsGet (clusterID c) name)
       (fun tr => gw_deploymentsGet (kubeclient c) tr (clusterID c) name).

Definition ConfigMapsList (selector : string) : M (list ConfigMap * option error) :=
  call (CConfigMapsList (clusterID c) selector)
       (fun tr => gw_configMapsList (kubeclient c) tr (clusterID c) selector).

Definition ReadFile (path : string) : M (string + error) :=
  call (CReadFile path) (fun tr => gw_readFile (kubeclient c) tr path).

Definition Sleep (ms : Z) : M unit :=
  call (CSleep ms) (fun _ => tt).

Definition Close : M unit :=
  call CClose (fun _ => tt).

(** [c.execute(pod, command)], defined in another file. *)
Definition execute (pod : Pod) (command : list string) : M (option error) :=
  call (CExecute (pod_Name pod) command)
       (fun tr => gw_execute (kubeclient c) tr (pod_Name pod) command).

(** [c.executeCLI(command)], defined in another file. *)
Definition executeCLI (command : string) : M (option error) :=
  call (CExecuteCLI command) (fun tr => gw_executeCLI (kubeclient c) tr command).

(** A controller method of another file that returns an [error]. *)
Definition method (name : string) (args : list string) : M (option error) :=
  call (CMethod name args) (fun tr => gw_method (kubeclient c) tr name args).

Definition setupAtomixController : M (option error) := method "setupAtomixController" [].
Definition setupPartitions : M (option error) := method "setupPartitions" [].
Definition createOnosSecret : M (option error) := method "createOnosSecret" [].
Definition setupOnosConfig : M (option error) := method "setupOnosConfig" [].
Definition setupGUI : M (option error) := method "setupGUI" [].
Definition setupOnosCli : M (option error) := method "setupOnosCli" [].
Definition setupIngress : M (option error) := method "setupIngress" [].

Definition setupSimulator (name : string) (cfg : SimulatorConfig) : M (option error) :=
  method "setupSimulator" [name; sim_Config cfg].
Definition setupNetwork (name : string) (cfg : NetworkConfig) : M (option error) :=
  method "setupNetwork" [name; Itoa (NumDevices cfg)].
Definition teardownSimulator (name : string) : M (option error) :=
  method "teardownSimulator" [name].
Definition teardownNetwork (name : string) : M (option error) :=
  method "teardownNetwork" [name].

Definition startTests (testID : string) (tests : list string) (timeout : Z) : M (Pod + error) :=
  call (CStartTests testID tests timeout)
       (fun tr => gw_startTests (kubeclient c) tr testID tests timeout).

Definition getStatus (pod : Pod) : M ((string * Z) + error) :=
  call (CGetStatus (pod_Name pod))
       (fun tr => gw_getStatus (kubeclient c) tr (pod_Name pod)).

(** *** cluster.go *)

(** [imagePrefix] returns a prefix for images *)
Definition imagePrefix : string :=
  if negb (String.eqb (Registry (config c)) "")
  then Registry (config c) +:+ "/"
  else "".

(** [imageName] returns a fully qualified name for the given image *)
Definition imageName (image tag : string) : string :=
  ((imagePrefix +:+ image) +:+ ":") +:+ tag.

(** [createClusterRole] creates the ClusterRole if not yet created *)
Definition createClusterRole : M (option error) :=
  do err <- Create (mkObject KClusterRole (clusterID c) (clusterID c));
  match err with
  | Some e => if negb (IsAlreadyExists e) then ret (Some e) else ret None
  | None => ret None
  end.

Definition createClusterRoleBinding : M (option error) :=
  Create (mkObject KClusterRoleBinding (clusterID c) (clusterID c)).

Definition createServiceAccount : M (option error) :=
  Create (mkObject KServiceAccount (clusterID c) (clusterID c)).

(** [setupRBAC] sets up role based access controls for the cluster *)
Definition setupRBAC : M (option error) :=
  orReturn createClusterRole
  (orReturn createClusterRoleBinding
  (orReturn createServiceAccount
  (ret None))).

(** *** onos-topo.go *)

Definition createOnosTopoConfigMap : M (option error) :=
  Create (mkObject KConfigMap "onos-topo" (clusterID c)).

Definition createOnosTopoService : M (option error) :=
  Create (mkObject KService "onos-topo" (clusterID c)).

Definition createOnosTopoDeployment : M (option error) :=
  let nodes := int32_of (TopoNodes (config c)) in
  Create (mkDeployment "onos-topo" (clusterID c) nodes
            (imageName "onosproject/onos-topo" (tagOf (ImageTags (config c)) "topo"))).

(** The command that attaches the debugger and lets the process go on. *)
Definition unblockCommand : list string :=
  ["/bin/bash"; "-c";
   ("dlv --init <(echo " +:+ dquote +:+ "exit -c" +:+ dquote +:+ ") connect 127.0.0.1:40000")].

(** The loop over [pods.Items] of one poll. It returns the error of a failed
    [execute], and the map [unblocked] as the loop leaves it. *)
Fixpoint unblockPods (pods : list Pod) (unblocked : gmap string bool)
  : M (option error * gmap string bool) :=
  match pods with
  | [] => ret (None, unblocked)
  | pod :: rest =>
      if bool_decide (unblocked !! pod_Name pod = None)
         && Z.ltb 0 (Z.of_nat (length (pod_ContainerStatuses pod)))
         && match pod_ContainerStatuses pod with
            | cs :: _ => cs_Running cs
            | [] => false
            end
      then
        if String.eqb (tagOf (ImageTags (config c)) "config") Debug
        then
          do err <- execute pod unblockCommand;
          match err with
          | Some e => ret (Some e, unblocked)
          | None => unblockPods rest (<[pod_Name pod := true]> unblocked)
          end
        else unblockPods rest (<[pod_Name pod := true]> unblocked)
      else unblockPods rest unblocked
  end.

(** The [for] loop of [awaitOnosTopoDeploymentReady], with at most [n]
    polls. *)
Fixpoint awaitOnosTopoLoop (n : nat) (unblocked : gmap string bool) : M (option error) :=
  match n with
  | O => diverge
  | S n' =>
      do pods <- PodsList "app=onos,type=topo";
      match pods with
      | inr err => ret (Some err)
      | inl items =>
          do r <- unblockPods items unblocked;
          match r with
          | (Some err, _) => ret (Some err)
          | (None, unblocked') =>
              do dep <- DeploymentsGet "onos-topo";
              match dep with
              | inr err => ret (Some err)
              | inl d =>
                  if Z.eqb (dep_ReadyReplicas d) (TopoNodes (config c))
                  then ret None
                  else do_ Sleep 100; awaitOnosTopoLoop n' unblocked'
              end
          end
      end
  end.

(** [awaitOnosTopoDeploymentReady] waits for the onos-topo pods to complete
    startup *)
Definition awaitOnosTopoDeploymentReady : M (option error) :=
  awaitOnosTopoLoop fuel ∅.

Definition createOnosTopoProxyConfigMap : M (option error) :=
  let configPath := configsPath +:+ "/envoy/envoy-topo.yaml" in
  do data <- ReadFile configPath;
  match data with
  | inr err => ret (Some err)
  | inl _ => Create (mkObject KConfigMap "onos-topo-envoy" (clusterID c))
  end.

Definition createOnosTopoProxyDeployment : M (option error) :=
  Create (mkDeployment "onos-topo-envoy" (clusterID c) 1 "envoyproxy/envoy-alpine:latest").

Definition createOnosTopoProxyService : M (option error) :=
  Create (mkObject KService "onos-topo-envoy" (clusterID c)).

Fixpoint awaitOnosTopoProxyLoop (n : nat) : M (option error) :=
  match n with
  | O => diverge
  | S n' =>
      do dep <- DeploymentsGet "onos-topo-envoy";
      match dep with
      | inr err => ret (Some err)
      | inl d =>
          if Z.eqb (dep_ReadyReplicas d) 1
          then ret None
          else do_ Sleep 100; awaitOnosTopoProxyLoop n'
      end
  end.

Definition awaitOnosTopoProxyDeploymentReady : M (option error) :=
  awaitOnosTopoProxyLoop fuel.

(** [setupOnosTopo] sets up the onos-topo Deployment *)
Definition setupOnosTopo : M (option error) :=
  orReturn createOnosTopoConfigMap
  (orReturn createOnosTopoService
  (orReturn createOnosTopoDeployment
  (orReturn createOnosTopoProxyConfigMap
  (orReturn createOnosTopoProxyDeployment
  (orReturn createOnosTopoProxyService
  (orReturn awaitOnosTopoDeploymentReady
  (orReturn awaitOnosTopoProxyDeploymentReady
  (ret None)))))))).

(** [addDevice] adds the given device via the CLI *)
Definition addDevice (deviceType name : string) (port : Z) : M (option error) :=
  let command := addDeviceCommand deviceType name port in
  executeCLI command.

(** [removeDevice] removes the given device via the given pod *)
Definition removeDevice (name : string) : M (option error) :=
  let command := removeDeviceCommand name in
  executeCLI command.

(** [addSimulatorToTopo] adds a simulator to onos-topo *)
Definition addSimulatorToTopo (name : string) : M (option error) :=
  addDevice "Devicesim" name 11161.

(** The name of the [i]-th device of a network. *)
Definition deviceName (name : string) (i : Z) : string :=
  (name +:+ "-s") +:+ Itoa i.

(** The loop [for i := 0; i < config.NumDevices; i++] of [addNetworkToTopo],
    entered with [n] iterations to go, at index [i] and port [port]. *)
Fixpoint addNetworkLoop (name : string) (n : nat) (i port : Z) : M (option error) :=
  match n with
  | O => ret None
  | S n' =>
      do err <- addDevice "Stratum" (deviceName name i) port;
      match err with
      | Some e => ret (Some e)
      | None => addNetworkLoop name n' (int_add i 1) (int_add port 1)
      end
  end.

(** [addNetworkToTopo] adds a network to onos-topo *)
Definition addNetworkToTopo (name : string) (cfg : NetworkConfig) : M (option error) :=
  let port := 50001 in
  addNetworkLoop name (Z.to_nat (NumDevices cfg)) 0 port.

(** [removeSimulatorFromConfig] removes a simulator from the onos-config
    configuration *)
Definition removeSimulatorFromConfig (name : string) : M (option error) :=
  removeDevice name.

(** The loop [for i := 0; i < numDevices; i++] of [removeNetworkFromConfig]. *)
Fixpoint removeNetworkLoop (name : string) (n : nat) (i : Z) : M (option error) :=
  match n with
  | O => ret None
  | S n' =>
      do err <- removeDevice (deviceName name i);
      match err with
      | Some e => ret (Some e)
      | None => removeNetworkLoop name n' (int_add i 1)
      end
  end.

(** [removeNetworkFromConfig] removes a network from the onos-config
    configuration. [configMap.Items[0]] panics on an empty list, and the
    type assertion [m["numdevices"].(int)] panics unless the value is an
    [int]. *)
Definition removeNetworkFromConfig (name : string) (items : list ConfigMap) : M (option error) :=
  match items with
  | [] => panic "index out of range"
  | cm :: _ =>
      let dataMap := default "" (cm_BinaryData cm !! "config") in
      match yaml_Unmarshal (kubeclient c) dataMap with
      | inr err => ret (Some err)
      | inl m =>
          match m !! "numdevices" with
          | Some (YInt numDevices) =>
              removeNetworkLoop name (Z.to_nat numDevices) 0
          | _ => panic "interface conversion"
          end
      end
  end.

(** *** cluster.go: the lifecycle operations *)

(** [Setup] sets up a test cluster with the given configuration *)
Definition Setup : M ErrorStatus :=
  do_ status_Start "Setting up RBAC";
  orFail setupRBAC (
  do_ status_Succeed;
  do_ status_Start "Setting up Atomix controller";
  orFail setupAtomixController (
  do_ status_Succeed;
  do_ status_Start "Starting Raft partitions";
  orFail setupPartitions (
  do_ status_Succeed;
  do_ status_Start "Adding secrets";
  orFail createOnosSecret (
  do_ status_Succeed;
  do_ status_Start "Bootstrapping onos-topo cluster";
  orFail setupOnosTopo (
  do_ status_Succeed;
  do_ status_Start "Bootstrapping onos-config cluster";
  orFail setupOnosConfig (
  do_ status_Succeed;
  do_ status_Start "Setting up GUI";
  orFail setupGUI (
  do_ status_Succeed;
  do_ status_Start "Setting up CLI";
  orFail setupOnosCli (
  do_ status_Succeed;
  do_ status_Start "Creating ingress for services";
  orFail setupIngress
  status_Succeed)))))))).

(** [AddSimulator] adds a device simulator with the given configuration *)
Definition AddSimulator (name : string) (cfg : SimulatorConfig) : M ErrorStatus :=
  do_ status_Start "Setting up simulator";
  orFail (setupSimulator name cfg) (
  do_ status_Start "Adding simulator to topo";
  orFail (addSimulatorToTopo name)
  status_Succeed).

(** [AddNetwork] adds a stratum network with the given configuration *)
Definition AddNetwork (name : string) (cfg : NetworkConfig) : M ErrorStatus :=
  do_ status_Start "Setting up network";
  orFail (setupNetwork name cfg) (
  do_ status_Start "Adding network to topo";
  orFail (addNetworkToTopo name cfg)
  status_Succeed).

(** [streamLogs] streams the logs from the given pod to stdout *)
Definition streamLogs (pod : Pod) : M (Reader + error) :=
  call (CLogsStream (clusterID c) (pod_Name pod) true)
       (fun tr => gw_logsStream (kubeclient c) tr (clusterID c) (pod_Name pod)).

(** The loop of [RunTests] that copies the log stream to stdout. It returns
    [None] when it leaves at [io.EOF] and the error of a failed [Read]
    otherwise; the bytes that come with an error are not printed. *)
Fixpoint copyLogs (reader : Reader) : M (option error) :=
  match reader with
  | [] => diverge
  | (chunk, err) :: rest =>
      match err with
      | Some e => if isEOF e then ret None else ret (Some e)
      | None => do_ Print chunk; copyLogs rest
      end
  end.

(** [RunTests] runs the given tests on Kubernetes. The deferred
    [reader.Close()] runs on every return after the stream is open. *)
Definition RunTests (testID : string) (tests : list string) (timeout : Z)
  : M (string * Z * ErrorStatus) :=
  let timeout := if Z.eqb timeout 0 then 10 * Minute else timeout in
  do_ status_Start ("Starting test job: " +:+ testID);
  do started <- startTests testID tests timeout;
  match started with
  | inr err => do st <- status_Fail err; ret ("", 0, st)
  | inl pod =>
      do_ status_Succeed;
      do stream <- streamLogs pod;
      match stream with
      | inr _ => do st <- status_Get; ret ("", 0, st)
      | inl reader =>
          do copied <- copyLogs reader;
          match copied with
          | Some _ => do st <- status_Get; do_ Close; ret ("", 0, st)
          | None =>
              do exit <- getStatus pod;
              match exit with
              | inr _ =>
                  do st <- status_Get; do_ Close;
                  ret ("failed to retrieve exit code", 1, st)
              | inl (message, code) =>
                  do st <- status_Get; do_ Close;
                  ret (message, code, st)
              end
          end
      end
  end.

(** [GetResources] returns a list of resource IDs matching the given
    resource name *)
Definition GetResources (name : string) : M (list string + error) :=
  do got <- PodsGet name;
  match got with
  | inl pod => ret (inl [pod_Name pod])
  | inr err =>
      if negb (IsNotFound err) then ret (inr err)
      else
        do pods <- PodsList ("resource=" +:+ name);
        match pods with
        | inr err' => ret (inr err')
        | inl items =>
            if Z.eqb (Z.of_nat (length items)) 0
            then ret (inr (Other ("unknown test resource " +:+ name)))
            else ret (inl (map pod_Name items))
        end
  end.

(** [RemoveSimulator] removes a device simulator with the given name *)
Definition RemoveSimulator (name : string) : M ErrorStatus :=
  do_ status_Start "Tearing down simulator";
  orRecord (teardownSimulator name) (
  do_ status_Start "Reconfiguring topology";
  orFail (removeSimulatorFromConfig name)
  status_Succeed).

(** [RemoveNetwork] removes a stratum network with the given name. The
    error of the [List] call is dropped. *)
Definition RemoveNetwork (name : string) : M ErrorStatus :=
  do_ status_Start "Tearing down network";
  let label := "network=" +:+ name in
  do configMaps <- ConfigMapsList label;
  orRecord (teardownNetwork name) (
  do_ status_Start "Reconfiguring topology";
  orFail (removeNetworkFromConfig name (fst configMaps))
  status_Succeed).

End Controller.

(** ** A scripted gateway for running the operations *)

(** The gateway of a healthy cluster: every request succeeds, the
    deployments are ready at the first poll, no pod is listed. *)
Definition calmGateway : Gateway := {|
  gw_create := fun _ _ => None;
  gw_podsGet := fun _ _ _ => inr NotFound;
  gw_podsList := fun _ _ _ => inl [];
  gw_deploymentsGet := fun _ _ _ => inl {| dep_ReadyReplicas := 1 |};
  gw_configMapsList := fun _ _ _ => ([], None);
  gw_logsStream := fun _ _ _ => inl [("", Some EOF)];
  gw_readFile := fun _ _ => inl "";
  gw_execute := fun _ _ _ => None;
  gw_executeCLI := fun _ _ => None;
  gw_method := fun _ _ _ => None;
  gw_startTests := fun _ testID _ _ => inl {| pod_Name := testID; pod_ContainerStatuses := [] |};
  gw_getStatus := fun _ _ => inl ("", 0);
  yaml_Unmarshal := fun _ => inl ∅
|}.

Definition defaultConfig : ClusterConfig := {|
  Registry := "";
  Preset := "default";
  ImageTags := {[ "config" := Debug; "topo" := Debug ]};
  PullPolicy := "IfNotPresent";
  ConfigNodes := 1;
  TopoNodes := 1;
  Partitions := 1;
  PartitionSize := 1
|}.

Definition emptyWorld : World := {|
  trace := [];
  status := {| sw_step := ""; sw_err := None; sw_out := [] |};
  stdout := []
|}.

Definition Cluster (gw : Gateway) (cfg : ClusterConfig) : ClusterController :=
  {| clusterID := "cluster-1"; kubeclient := gw; config := cfg |}.

(** Gateways that differ from another one in the replies of one kind. *)
Definition withCreate (f : list Call -> Object -> option error) (g : Gateway) : Gateway := {|
  gw_create := f;
  gw_podsGet := gw_podsGet g; gw_podsList := gw_podsList g;
  gw_deploymentsGet := gw_deploymentsGet g;
  gw_configMapsList := gw_configMapsList g;
  gw_logsStream := gw_logsStream g; gw_readFile := gw_readFile g;
  gw_execute := gw_execute g; gw_executeCLI := gw_executeCLI g;
  gw_method := gw_method g; gw_startTests := gw_startTests g;
  gw_getStatus := gw_getStatus g; yaml_Unmarshal := yaml_Unmarshal g
|}.

Definition withPods (get : list Call -> string -> string -> Pod + error)
    (lst : list Call -> string -> string -> list Pod + error) (g : Gateway) : Gateway := {|
  gw_create := gw_create g;
  gw_podsGet := get; gw_podsList := lst;
  gw_deploymentsGet := gw_deploymentsGet g;
  gw_configMapsList := gw_configMapsList g;
  gw_logsStream := gw_logsStream g; gw_readFile := gw_readFile g;
  gw_execute := gw_execute g; gw_executeCLI := gw_executeCLI g;
  gw_method := gw_method g; gw_startTests := gw_startTests g;
  gw_getStatus := gw_getStatus g; yaml_Unmarshal := yaml_Unmarshal g
|}.

Definition withMethod (f : list Call -> string -> list string -> option error) (g : Gateway) : Gateway := {|
  gw_create := gw_create g;
  gw_podsGet := gw_podsGet g; gw_podsList := gw_podsList g;
  gw_deploymentsGet := gw_deploymentsGet g;
  gw_configMapsList := gw_configMapsList g;
  gw_logsStream := gw_logsStream g; gw_readFile := gw_readFile g;
  gw_execute := gw_execute g; gw_executeCLI := gw_executeCLI g;
  gw_method := f; gw_startTests := gw_startTests g;
  gw_getStatus := gw_getStatus g; yaml_Unmarshal := yaml_Unmarshal g
|}.

Definition withExecuteCLI (f : list Call -> string -> option error) (g : Gateway) : Gateway := {|
  gw_create := gw_create g;
  gw_podsGet := gw_podsGet g; gw_podsList := gw_podsList g;
  gw_deploymentsGet := gw_deploymentsGet g;
  gw_configMapsList := gw_configMapsList g;
  gw_logsStream := gw_logsStream g; gw_readFile := gw_readFile g;
  gw_execute := gw_execute g; gw_executeCLI := f;
  gw_method := gw_method g; gw_startTests := gw_startTests g;
  gw_getStatus := gw_getStatus g; yaml_Unmarshal := yaml_Unmarshal g
|}.

Definition withConfigMaps (f : list Call -> string -> string -> list ConfigMap * option error)
    (y : string -> gmap string YamlValue + error) (g : Gateway) : Gateway := {|
  gw_create := gw_create g;
  gw_podsGet := gw_podsGet g; gw_podsList := gw_podsList g;
  gw_deploymentsGet := gw_deploymentsGet g;
  gw_configMapsList := f;
  gw_logsStream := gw_logsStream g; gw_readFile := gw_readFile g;
  gw_execute := gw_execute g; gw_executeCLI := gw_executeCLI g;
  gw_method := gw_method g; gw_startTests := gw_startTests g;
  gw_getStatus := gw_getStatus g; yaml_Unmarshal := y
|}.

Definition withLogs (f : list Call -> string -> string -> Reader + error)
    (s : list Call -> string -> (string * Z) + error) (g : Gateway) : Gateway := {|
  gw_create := gw_create g;
  gw_podsGet := gw_podsGet g; gw_podsList := gw_podsList g;
  gw_deploymentsGet := gw_deploymentsGet g;
  gw_configMapsList := gw_configMapsList g;
  gw_logsStream := f; gw_readFile := gw_readFile g;
  gw_execute := gw_execute g; gw_executeCLI := gw_executeCLI g;
  gw_method := gw_method g; gw_startTests := gw_startTests g;
  gw_getStatus := s; yaml_Unmarshal := yaml_Unmarshal g
|}.

(** A cluster in which the controller method [name] fails with [e]. *)
Definition failingMethod (name : string) (e : error) : Gateway :=
  withMethod (fun _ n _ => if String.eqb n name then Some e else None) calmGateway.

(** A cluster in which every object to create is there already. *)
Definition existingObjects : Gateway :=
  withCreate (fun _ _ => Some AlreadyExists) calmGateway.

(** The creations of [setupRBAC] and [setupOnosTopo] that hand the object
    straight to [Create], each with the object it creates. *)
Definition plainCreates (c : ClusterController) : list (Object * M (option error)) :=
  [(mkObject KClusterRoleBinding (clusterID c) (clusterID c), createClusterRoleBinding c);
   (mkObject KServiceAccount (clusterID c) (clusterID c), createServiceAccount c);
   (mkObject KConfigMap "onos-topo" (clusterID c), createOnosTopoConfigMap c);
   (mkObject KService "onos-topo" (clusterID c), createOnosTopoService c);
   (mkDeployment "onos-topo" (clusterID c) (int32_of (TopoNodes (config c)))
      (imageName c "onosproject/onos-topo" (tagOf (ImageTags (config c)) "topo")),
    createOnosTopoDeployment c);
   (mkDeployment "onos-topo-envoy" (clusterID c) 1 "envoyproxy/envoy-alpine:latest",
    createOnosTopoProxyDeployment c);
   (mkObject KService "onos-topo-envoy" (clusterID c), createOnosTopoProxyService c)].

(** A pod of the topology service whose first container is running. *)
Definition runningPod : Pod :=
  {| pod_Name := "onos-topo-1"; pod_ContainerStatuses := [{| cs_Running := true |}] |}.

(** A cluster that lists [runningPod] under every selector. *)
Definition onePod : Gateway :=
  withPods (fun _ _ _ => inr NotFound) (fun _ _ _ => inl [runningPod]) calmGateway.

Definition configWithTags (tags : gmap string string) : ClusterConfig := {|
  Registry := "";
  Preset := "default";
  ImageTags := tags;
  PullPolicy := "IfNotPresent";
  ConfigNodes := 1;
  TopoNodes := 1;
  Partitions := 1;
  PartitionSize := 1
|}.

(** What a two-step operation returns once its second step [m] has run from
    the world [w2]: a failed status when [m] returned an error, a success
    status when it returned [nil]. *)
Definition decidedBy (m : M (option error)) (w2 : World) : Res ErrorStatus * World :=
  match m w2 with
  | (Val (Some e), w3) => (Val (failureOf e (status w3)), failW e w3)
  | (Val None, w3) => (Val (successOf (status w3)), succeedW w3)
  | (Panic msg, w3) => (Panic msg, w3)
  | (Diverge, w3) => (Diverge, w3)
  end.

(** Sending [cmds] one after the other until one fails: what the two device
    loops come down to. *)
Fixpoint executeAll (c : ClusterController) (cmds : list string) : M (option error) :=
  match cmds with
  | [] => ret None
  | cmd :: rest =>
      do err <- executeCLI c cmd;
      match err with
      | Some e => ret (Some e)
      | None => executeAll c rest
      end
  end.

(** The commands [addNetworkToTopo] is to send for [n] devices. *)
Definition addNetworkCommands (name : string) (n : nat) : list string :=
  map (fun j => addDeviceCommand "Stratum" (deviceName name (Z.of_nat j))
                  (int_add 50001 (Z.of_nat j)))
      (seq 0 n).

(** The commands [removeNetworkFromConfig] is to send for [n] devices. *)
Definition removeNetworkCommands (name : string) (n : nat) : list string :=
  map (fun j => removeDeviceCommand (deviceName name (Z.of_nat j))) (seq 0 n).

(** The reply of the gateway to the [j]-th command of [cmds], the commands
    before it having been sent after the history [tr]. *)
Definition replyTo (gw : Gateway) (tr : list Call) (cmds : list string) (j : nat) : option error :=
  gw_executeCLI gw (tr ++ map CExecuteCLI (take j cmds)) (nth j cmds "").

(** [k] commands of [cmds] were sent and the loop returned [r]: either all
    of them were sent and answered [nil], or the [k]-th is the first one
    that failed and [r] is its error. *)
Definition sentUntilError (gw : Gateway) (tr : list Call) (cmds : list string)
    (k : nat) (r : option error) : Prop :=
  match r with
  | None =>
      k = length cmds /\ forall j, (j < k)%nat -> replyTo gw tr cmds j = None
  | Some e =>
      exists j, k = S j /\ (j < length cmds)%nat
                /\ replyTo gw tr cmds j = Some e
                /\ forall j', (j' < j)%nat -> replyTo gw tr cmds j' = None
  end.

(** A stand-in for [yaml.Unmarshal] on the few documents of the examples. *)
Definition exampleYaml (data : string) : gmap string YamlValue + error :=
  if String.eqb data "numdevices: 2" then inl {[ "numdevices" := YInt 2 ]}
  else if String.eqb data "numdevices: two" then inl {[ "numdevices" := YStr "two" ]}
  else if String.eqb data "topology: linear" then inl {[ "topology" := YStr "linear" ]}
  else if String.eqb data "" then inl ∅
  else inr (Other "yaml: did not find expected node content").

(** A cluster that stores one config map for the network, with [data] as
    its configuration, and answers the remote commands with [reply]. *)
Definition storedNetwork (data : string) (reply : list Call -> string -> option error) : Gateway :=
  withExecuteCLI reply
    (withConfigMaps
       (fun _ _ _ => ([{| cm_Name := "net-1"; cm_BinaryData := {[ "config" := data ]} |}], None))
       exampleYaml calmGateway).

(** A cluster in which every name asked for is the name of a pod. *)
Definition podsByName : Gateway :=
  withPods (fun _ _ name => inl {| pod_Name := name; pod_ContainerStatuses := [] |})
           (fun _ _ _ => inl []) calmGateway.

(** A cluster with no pod of the name asked for, that lists [pods] under
    every selector. *)
Definition podsByLabel (pods : list Pod) : Gateway :=
  withPods (fun _ _ _ => inr NotFound) (fun _ _ _ => inl pods) calmGateway.

(** A reader that has not run into an error within [pre]. *)
Definition readsWell (pre : Reader) : Prop :=
  Forall (fun r => snd r = None) pre.

(** A cluster whose log stream and exit status are scripted. *)
Definition scriptedLogs (stream : Reader + error) (exit : (string * Z) + error) : Gateway :=
  withLogs (fun _ _ _ => stream) (fun _ _ => exit) calmGateway.

(** The pods in which a command was executed, in the order of the calls. *)
Definition executedPods (tr : list Call) : list string :=
  omap (fun ev => match ev with CExecute pod _ => Some pod | _ => None end) tr.

(** ** The steps of [Setup] as a list *)

Definition setupLabels : list string :=
  ["Setting up RBAC"; "Setting up Atomix controller"; "Starting Raft partitions";
   "Adding secrets"; "Bootstrapping onos-topo cluster";
   "Bootstrapping onos-config cluster"; "Setting up GUI"; "Setting up CLI";
   "Creating ingress for services"].

(** The nine steps of [Setup], each with the label it is started under. *)
Definition setupSteps (c : ClusterController) (fuel : nat) : list (string * M (option error)) :=
  [("Setting up RBAC", setupRBAC c);
   ("Setting up Atomix controller", setupAtomixController c);
   ("Starting Raft partitions", setupPartitions c);
   ("Adding secrets", createOnosSecret c);
   ("Bootstrapping onos-topo cluster", setupOnosTopo c fuel);
   ("Bootstrapping onos-config cluster", setupOnosConfig c);
   ("Setting up GUI", setupGUI c);
   ("Setting up CLI", setupOnosCli c);
   ("Creating ingress for services", setupIngress c)].

(** Start, run, and on success move on: the shape of [Setup]. *)
Fixpoint runSteps (steps : list (string * M (option error))) : M ErrorStatus :=
  match steps with
  | [] => status_Succeed
  | (label, m) :: rest =>
      do_ status_Start label;
      orFail m
        match rest with
        | [] => status_Succeed
        | _ :: _ => do_ status_Succeed; runSteps rest
        end
  end.

(** The world after all of [steps] ran one after the other and each one
    returned [nil]; [None] when one of them did not. *)
Fixpoint succeedAll (steps : list (string * M (option error))) (w : World) : option World :=
  match steps with
  | [] => Some w
  | (label, m) :: rest =>
      match m (startW label w) with
      | (Val None, w1) => succeedAll rest (succeedW w1)
      | _ => None
      end
  end.

(** A chain of [if err := m(); err != nil { return err }]. *)
Fixpoint chain (ms : list (M (option error))) : M (option error) :=
  match ms with
  | [] => ret None
  | m :: rest => orReturn m (chain rest)
  end.

(** The world after all of [ms] ran one after the other and returned [nil]. *)
Fixpoint passAll (ms : list (M (option error))) (w : World) : option World :=
  match ms with
  | [] => Some w
  | m :: rest =>
      match m w with
      | (Val None, w1) => passAll rest w1
      | _ => None
      end
  end.

Definition rbacSteps (c : ClusterController) : list (M (option error)) :=
  [createClusterRole c; createClusterRoleBinding c; createServiceAccount c].

Definition topoSteps (c : ClusterController) (fuel : nat) : list (M (option error)) :=
  [createOnosTopoConfigMap c; createOnosTopoService c; createOnosTopoDeployment c;
   createOnosTopoProxyConfigMap c; createOnosTopoProxyDeployment c;
   createOnosTopoProxyService c; awaitOnosTopoDeploymentReady c fuel;
   awaitOnosTopoProxyDeploymentReady c fuel].

(** A computation that leaves the status writer alone. *)
Definition quiet {A} (m : M A) : Prop :=
  forall w, status (snd (m w)) = status w.

(** ** More of cluster.go: logs *)

(** [corev1.PodLogOptions], as far as the gateway is told about it: whether
    the stream follows the log. *)
Record PodLogOptions : Type := {
  Follow : bool
}.

(** [bytes.Buffer.ReadFrom]: it reads until [io.EOF] and appends the bytes
    of every [Read] to the buffer, those that come together with an error
    too; [io.EOF] itself is not reported as an error. *)
Fixpoint ReadFrom (reader : Reader) (buf : string) : M (string * option error) :=
  match reader with
  | [] => diverge
  | (chunk, err) :: rest =>
      match err with
      | Some e =>
          if isEOF e then ret (buf +:+ chunk, None)
          else ret (buf +:+ chunk, Some e)
      | None => ReadFrom rest (buf +:+ chunk)
      end
  end.

(** [getLogs] gets the logs from the given pod. The deferred
    [readCloser.Close()] runs on every return after the stream is open. *)
Definition getLogs (c : ClusterController) (pod : Pod) (options : PodLogOptions)
  : M (string + error) :=
  do stream <- call (CLogsStream (clusterID c) (pod_Name pod) (Follow options))
                 (fun tr => gw_logsStream (kubeclient c) tr (clusterID c) (pod_Name pod));
  match stream with
  | inr err => ret (inr err)
  | inl readCloser =>
      do read <- ReadFrom readCloser "";
      do_ Close;
      match read with
      | (_, Some err) => ret (inr err)
      | (buf, None) => ret (inl buf)
      end
  end.

(** [GetLogs] returns the logs for a single test resource *)
Definition GetLogs (c : ClusterController) (resourceID : string) (options : PodLogOptions)
  : M (string + error) :=
  do got <- PodsGet c resourceID;
  match got with
  | inr err => ret (inr err)
  | inl pod => getLogs c pod options
  end.

(** [StreamLogs] streams the logs for the given test resources to stdout *)
Definition StreamLogs (c : ClusterController) (resourceID : string) : M (Reader + error) :=
  do got <- PodsGet c resourceID;
  match got with
  | inr err => ret (inr err)
  | inl pod => streamLogs c pod
  end.

(** ** cli/create.go: the defaults of the image tags *)

Section ImageTagDefaults.

(** The constant [Latest] of the image tags is declared in a file that is
    not part of the sources; it is a parameter here. *)
Variable Latest : string.

(** [if imageTags[key] == "" { imageTags[key] = tag }] *)
Definition defaultTag (key tag : string) (imageTags : gmap string string)
  : gmap string string :=
  if String.eqb (tagOf imageTags key) "" then <[key := tag]> imageTags else imageTags.

(** [initImageTags], on the map it updates in place. *)
Definition initImageTags (imageTags : gmap string string) : gmap string string :=
  let imageTags := defaultTag "config" Debug imageTags in
  let imageTags := defaultTag "topo" Debug imageTags in
  let imageTags := defaultTag "gui" Latest imageTags in
  let imageTags := defaultTag "cli" Latest imageTags in
  let imageTags := defaultTag "atomix" Latest imageTags in
  let imageTags := defaultTag "raft" Latest imageTags in
  let imageTags := defaultTag "simulator" Latest imageTags in
  let imageTags := defaultTag "stratum" Latest imageTags in
  let imageTags := defaultTag "test" Latest imageTags in
  imageTags.

End ImageTagDefaults.

(** The components [initImageTags] gives a tag to. *)
Definition taggedComponents : list string :=
  ["config"; "topo"; "gui"; "cli"; "atomix"; "raft"; "simulator"; "stratum"; "test"].

(** ** GetFreePorts *)

(** The network calls of [GetFreePorts]. Each reply sees the ports tried
    before. [None] is a [nil] error. *)
Record Net : Type := {
  net_ResolveTCPAddr : list Z -> string -> option error;
  net_ListenTCP : list Z -> Z -> option error
}.

Section FreePorts.

Variable net : Net.

(** The constant [DebugPort] is declared in a file that is not part of the
    sources; it is a parameter here. *)
Variable DebugPort : Z.

(** The loop [for i := 0; i < count; { ... }] of [GetFreePorts], with at
    most [n] iterations to go; [tried] are the ports tried so far. *)
Fixpoint GetFreePortsLoop (n : nat) (count i debugPort : Z) (ports tried : list Z)
  : Res (list Z + error) :=
  match n with
  | O => Diverge
  | S n' =>
      if Z.ltb i count then
        let host := "localhost:" +:+ Itoa debugPort in
        match net_ResolveTCPAddr net tried host with
        | Some err => Val (inr err)
        | None =>
            match net_ListenTCP net tried debugPort with
            | None =>
                GetFreePortsLoop n' count (int_add i 1) (int_add debugPort 1)
                  (ports ++ [debugPort]) (tried ++ [debugPort])
            | Some _ =>
                GetFreePortsLoop n' count i (int_add debugPort 1)
                  ports (tried ++ [debugPort])
            end
        end
      else Val (inl ports)
  end.

(** [GetFreePorts] asks the kernel for free open ports that are ready to
    use. *)
Definition GetFreePorts (fuel : nat) (count : Z) : Res (list Z + error) :=
  GetFreePortsLoop fuel count 0 DebugPort [] [].

End FreePorts.

(** ** Vocabulary of the further properties *)

(** The objects the controller asked the cluster to create, in the order
    of the requests. *)
Definition createRequests (tr : list Call) : list Object :=
  omap (fun ev => match ev with CCreate o => Some o | _ => None end) tr.

(** The objects [setupRBAC] creates, in its order. *)
Definition rbacObjects (c : ClusterController) : list Object :=
  [mkObject KClusterRole (clusterID c) (clusterID c);
   mkObject KClusterRoleBinding (clusterID c) (clusterID c);
   mkObject KServiceAccount (clusterID c) (clusterID c)].

(** The objects [setupOnosTopo] creates, in its order. *)
Definition topoObjects (c : ClusterController) : list Object :=
  [mkObject KConfigMap "onos-topo" (clusterID c);
   mkObject KService "onos-topo" (clusterID c);
   mkDeployment "onos-topo" (clusterID c) (int32_of (TopoNodes (config c)))
     (imageName c "onosproject/onos-topo" (tagOf (ImageTags (config c)) "topo"));
   mkObject KConfigMap "onos-topo-envoy" (clusterID c);
   mkDeployment "onos-topo-envoy" (clusterID c) 1 "envoyproxy/envoy-alpine:latest";
   mkObject KService "onos-topo-envoy" (clusterID c)].

(** The calls of [k] polls of the deployment [name] that found it not
    ready: a [Get] and a sleep of 100ms each. *)
Fixpoint unreadyPolls (c : ClusterController) (name : string) (k : nat) : list Call :=
  match k with
  | O => []
  | S k' => CDeploymentsGet (clusterID c) name :: CSleep 100 :: unreadyPolls c name k'
  end.

(** The chunks of a stream, one after the other. *)
Definition joined (chunks : list string) : string :=
  foldr String.append "" chunks.

(** The error the gateway answers the call [ev] with after the history
    [tr]; [None] when it answers without an error. *)
Definition errorReply (gw : Gateway) (tr : list Call) (ev : Call) : option error :=
  match ev with
  | CCreate o => gw_create gw tr o
  | CPodsGet ns name =>
      match gw_podsGet gw tr ns name with inr e => Some e | inl _ => None end
  | CPodsList ns selector =>
      match gw_podsList gw tr ns selector with inr e => Some e | inl _ => None end
  | CDeploymentsGet ns name =>
      match gw_deploymentsGet gw tr ns name with inr e => Some e | inl _ => None end
  | CConfigMapsList ns selector => snd (gw_configMapsList gw tr ns selector)
  | CLogsStream ns pod _ =>
      match gw_logsStream gw tr ns pod with inr e => Some e | inl _ => None end
  | CReadFile path =>
      match gw_readFile gw tr path with inr e => Some e | inl _ => None end
  | CExecute pod cmd => gw_execute gw tr pod cmd
  | CExecuteCLI command => gw_executeCLI gw tr command
  | CMethod name args => gw_method gw tr name args
  | CStartTests testID tests timeout =>
      match gw_startTests gw tr testID tests timeout with inr e => Some e | inl _ => None end
  | CGetStatus pod =>
      match gw_getStatus gw tr pod with inr e => Some e | inl _ => None end
  | CClose | CSleep _ => None
  end.

(** The error [e] is what the gateway answered to the last call of [tr]. *)
Definition lastReplyIs (gw : Gateway) (e : error) (tr : list Call) : Prop :=
  exists before ev, tr = before ++ [ev] /\ errorReply gw before ev = Some e.

(** A step returns an error only as the answer to the last call made. *)
Definition failsAtLastCall (gw : Gateway) (m : M (option error)) : Prop :=
  forall w e w', m w = (Val (Some e), w') -> lastReplyIs gw e (trace w').

(** Whatever the step [m] does, the objects it asks to create are the first
    ones of [objs], in the order of [objs], and all of them when it returns
    [nil]. *)
Definition requestsPrefixOf (m : M (option error)) (objs : list Object) : Prop :=
  forall w,
    exists k,
      (k <= length objs)%nat
      /\ createRequests (trace (snd (m w))) = createRequests (trace w) ++ take k objs
      /\ (fst (m w) = Val None -> k = length objs).

(** The tag [initImageTags] gives a component that has none: the debug tag
    for the configuration and the topology service, [latest] for the other
    components it knows, and nothing for any other key. *)
Definition imageTagDefault (latest : string) (key : string) : option string :=
  if bool_decide (key = "config") || bool_decide (key = "topo") then Some Debug
  else if bool_decide (key ∈ taggedComponents) then Some latest
  else None.

(** Only the ports 0 to 65535 resolve: for any other number
    [net.ResolveTCPAddr] returns an error. *)
Definition resolvesPortsOnly (net : Net) : Prop :=
  forall tried p,
    ~ (0 <= p <= 65535) ->
    net_ResolveTCPAddr net tried ("localhost:" +:+ Itoa p) <> None.

(** What follows the prefix [pre] in [s], when [s] starts with it. *)
Fixpoint afterPrefix (pre s : string) : option string :=
  match pre, s with
  | EmptyString, _ => Some s
  | String a pre', String b s' => if Ascii.eqb a b then afterPrefix pre' s' else None
  | String _ _, EmptyString => None
  end.

(** A network in which the ports of [busy] are taken and every other port
    from 0 to 65535 can be listened on. *)
Definition netWithBusy (busy : list Z) : Net := {|
  net_ResolveTCPAddr := fun _ host =>
    match afterPrefix "localhost:" host with
    | Some digits =>
        match NilZero.int_of_string digits with
        | Some d =>
            if Z.leb 0 (Z.of_int d) && Z.leb (Z.of_int d) 65535 then None
            else Some (Other "invalid port")
        | None => Some (Other "invalid port")
        end
    | None => Some (Other "missing port in address")
    end;
  net_ListenTCP := fun _ p =>
    if bool_decide (p ∈ busy) then Some (Other "address already in use") else None
|}.

(** A cluster that refuses or accepts the start of a test job as [f]
    says. *)
Definition withStartTests (f : list Call -> string -> list string -> Z -> Pod + error)
    (g : Gateway) : Gateway := {|
  gw_create := gw_create g;
  gw_podsGet := gw_podsGet g; gw_podsList := gw_podsList g;
  gw_deploymentsGet := gw_deploymentsGet g;
  gw_configMapsList := gw_configMapsList g;
  gw_logsStream := gw_logsStream g; gw_readFile := gw_readFile g;
  gw_execute := gw_execute g; gw_executeCLI := gw_executeCLI g;
  gw_method := gw_method g; gw_startTests := f;
  gw_getStatus := gw_getStatus g; yaml_Unmarshal := yaml_Unmarshal g
|}.

(** The sleeps in a history of calls. *)
Definition sleepsIn (tr : list Call) : nat :=
  length (omap (fun ev => match ev with CSleep _ => Some tt | _ => None end) tr).

(** A cluster whose deployments take their time: a [Get] reports no ready
    replica as long as the controller has slept fewer than [polls] times,
    and answers [last] from then on. *)
Definition slowDeployments (polls : nat) (last : Deployment + error) : Gateway := {|
  gw_create := gw_create calmGateway;
  gw_podsGet := gw_podsGet calmGateway; gw_podsList := gw_podsList calmGateway;
  gw_deploymentsGet := fun tr _ _ =>
    if bool_decide (sleepsIn tr < polls)%nat then inl {| dep_ReadyReplicas := 0 |} else last;
  gw_configMapsList := gw_configMapsList calmGateway;
  gw_logsStream := gw_logsStream calmGateway; gw_readFile := gw_readFile calmGateway;
  gw_execute := gw_execute calmGateway; gw_executeCLI := gw_executeCLI calmGateway;
  gw_method := gw_method calmGateway; gw_startTests := gw_startTests calmGateway;
  gw_getStatus := gw_getStatus calmGateway; yaml_Unmarshal := yaml_Unmarshal calmGateway
|}.

(** ** Basic facts *)

Lemma quiet_ret {A} (a : A) : quiet (ret a).
Proof. intros w. reflexivity. Qed.

Lemma quiet_diverge {A} : quiet (@diverge A).
Proof. intros w. reflexivity. Qed.

Lemma quiet_panic {A} msg : quiet (@panic A msg).
Proof. intros w. reflexivity. Qed.

Lemma quiet_call {A} ev (reply : list Call -> A) : quiet (call ev reply).
Proof. intros w. reflexivity. Qed.

Lemma quiet_bind {A B} (m : M A) (k : A -> M B) :
  quiet m -> (forall a, quiet (k a)) -> quiet (bind m k).
Proof.
  intros Hm Hk w. unfold bind. specialize (Hm w).
  destruct (m w) as [[a | msg |] w1]; simpl in *; try assumption.
  rewrite Hk. assumption.
Qed.

Lemma quiet_orReturn m k : quiet m -> quiet k -> quiet (orReturn m k).
Proof.
  intros Hm Hk. unfold orReturn. apply quiet_bind; [assumption |].
  intros [e |]; [apply quiet_ret | assumption].
Qed.

Lemma quiet_chain ms : Forall quiet ms -> quiet (chain ms).
Proof.
  induction 1 as [| m rest Hm _ IH]; simpl.
  - apply quiet_ret.
  - apply quiet_orReturn; assumption.
Qed.

Create HintDb quiet.
#[local] Hint Resolve quiet_ret quiet_diverge quiet_panic quiet_call
  quiet_orReturn : quiet.

Ltac quiet_step :=
  first
    [ apply quiet_ret | apply quiet_diverge | apply quiet_panic
    | apply quiet_call | apply quiet_orReturn
    | apply quiet_bind; [| intros ?] ].

Ltac quiet_auto :=
  repeat (quiet_step || match goal with
                        | |- quiet (match ?x with _ => _ end) => destruct x
                        | |- quiet (if ?b then _ else _) => destruct b
                        end).

Lemma quiet_createClusterRole c : quiet (createClusterRole c).
Proof. unfold createClusterRole, Create. quiet_auto. Qed.

Lemma quiet_setupRBAC c : quiet (setupRBAC c).
Proof.
  unfold setupRBAC, createClusterRoleBinding, createServiceAccount, Create.
  repeat apply quiet_orReturn; auto using quiet_createClusterRole with quiet.
Qed.

Lemma quiet_unblockPods c pods : forall unblocked, quiet (unblockPods c pods unblocked).
Proof.
  induction pods as [| pod rest IH]; intros unblocked; simpl.
  - apply quiet_ret.
  - destruct (_ && _ && _); [| apply IH].
    destruct (String.eqb _ _); [| apply IH].
    apply quiet_bind; [apply quiet_call |].
    intros [e |]; [apply quiet_ret | apply IH].
Qed.

Lemma quiet_awaitOnosTopoLoop c n : forall unblocked, quiet (awaitOnosTopoLoop c n unblocked).
Proof.
  induction n as [| n IH]; intros unblocked; simpl.
  - apply quiet_diverge.
  - apply quiet_bind; [apply quiet_call |].
    intros [items | err]; [| apply quiet_ret].
    apply quiet_bind; [apply quiet_unblockPods |].
    intros [[e |] unblocked']; [apply quiet_ret |].
    apply quiet_bind; [apply quiet_call |].
    intros [d | err]; [| apply quiet_ret].
    destruct (Z.eqb _ _); [apply quiet_ret |].
    apply quiet_bind; [apply quiet_call | intros _; apply IH].
Qed.

Lemma quiet_awaitOnosTopoProxyLoop c n : quiet (awaitOnosTopoProxyLoop c n).
Proof.
  induction n as [| n IH]; simpl.
  - apply quiet_diverge.
  - apply quiet_bind; [apply quiet_call |].
    intros [d | err]; [| apply quiet_ret].
    destruct (Z.eqb _ _); [apply quiet_ret |].
    apply quiet_bind; [apply quiet_call | intros _; apply IH].
Qed.

Lemma quiet_setupOnosTopo c fuel : quiet (setupOnosTopo c fuel).
Proof.
  unfold setupOnosTopo.
  repeat apply quiet_orReturn; try apply quiet_ret;
    try (unfold createOnosTopoConfigMap, createOnosTopoService,
           createOnosTopoDeployment, createOnosTopoProxyDeployment,
           createOnosTopoProxyService, Create; apply quiet_call).
  - unfold createOnosTopoProxyConfigMap, ReadFile, Create. quiet_auto.
  - apply quiet_awaitOnosTopoLoop.
  - apply quiet_awaitOnosTopoProxyLoop.
Qed.

Lemma quiet_setupSteps c fuel :
  Forall (fun s => quiet (snd s)) (setupSteps c fuel).
Proof.
  unfold setupSteps.
  repeat constructor; simpl;
    try (apply quiet_call); auto using quiet_setupRBAC, quiet_setupOnosTopo.
Qed.

(** *** The world *)

Lemma trace_startW label w : trace (startW label w) = trace w.
Proof. reflexivity. Qed.

Lemma trace_succeedW w : trace (succeedW w) = trace w.
Proof. reflexivity. Qed.

Lemma trace_failW e w : trace (failW e w) = trace w.
Proof. reflexivity. Qed.

Lemma trace_logCall ev w : trace (logCall ev w) = trace w ++ [ev].
Proof. reflexivity. Qed.

Lemma status_logCall ev w : status (logCall ev w) = status w.
Proof. reflexivity. Qed.

Lemma call_run {A} ev (reply : list Call -> A) w :
  call ev reply w = (Val (reply (trace w)), logCall ev w).
Proof. reflexivity. Qed.

(** *** The status writer *)

Lemma startedLabels_Start label sw :
  startedLabels (sw_Start label sw) = startedLabels sw ++ [label].
Proof. unfold startedLabels. simpl. rewrite omap_app. reflexivity. Qed.

Lemma startedLabels_Succeed sw :
  startedLabels (sw_Succeed sw) = startedLabels sw.
Proof.
  unfold startedLabels. simpl. rewrite omap_app. simpl. apply app_nil_r.
Qed.

Lemma startedLabels_Fail e sw :
  startedLabels (sw_Fail e sw) = startedLabels sw.
Proof.
  unfold startedLabels. simpl. rewrite omap_app. simpl. apply app_nil_r.
Qed.

(** *** Sequences of steps *)

Lemma runSteps_fails_at pre label m post :
  forall w wK e w1,
    succeedAll pre w = Some wK ->
    m (startW label wK) = (Val (Some e), w1) ->
    runSteps (pre ++ (label, m) :: post) w
    = (Val (failureOf e (status w1)), failW e w1).
Proof.
  induction pre as [| [l0 m0] pre IH]; intros w wK e w1 Hpre Hm; simpl in *.
  - injection Hpre as <-.
    unfold bind, orFail, bind, status_Start. rewrite Hm. reflexivity.
  - unfold bind at 1, status_Start. unfold orFail, bind at 1.
    destruct (m0 (startW l0 w)) as [[[e0 |] | msg |] w0]; try discriminate.
    specialize (IH _ _ _ _ Hpre Hm).
    destruct pre; simpl in *; exact IH.
Qed.

Lemma runSteps_succeeds steps :
  forall w w9,
    steps <> [] ->
    succeedAll steps w = Some w9 ->
    exists w8, runSteps steps w = (Val (successOf (status w8)), w9)
               /\ w9 = succeedW w8.
Proof.
  induction steps as [| [l0 m0] rest IH]; intros w w9 Hne Hall; [congruence |].
  simpl in *. unfold bind at 1, status_Start. unfold orFail, bind at 1.
  destruct (m0 (startW l0 w)) as [[[e0 |] | msg |] w0]; try discriminate.
  destruct rest as [| s rest].
  - simpl in Hall. injection Hall as <-. exists w0. split; reflexivity.
  - apply (IH (succeedW w0) w9); [discriminate | exact Hall].
Qed.

Lemma succeedAll_labels steps :
  Forall (fun s => quiet (snd s)) steps ->
  forall w w',
    succeedAll steps w = Some w' ->
    startedLabels (status w') = startedLabels (status w) ++ map fst steps.
Proof.
  induction 1 as [| [l0 m0] rest Hq _ IH]; intros w w' Hall; simpl in *.
  - injection Hall as <-. symmetry. apply app_nil_r.
  - pose proof (Hq (startW l0 w)) as Hst. simpl in Hst.
    destruct (m0 (startW l0 w)) as [[[e0 |] | msg |] w0]; try discriminate.
    simpl in Hst. rewrite (IH _ _ Hall). simpl.
    rewrite startedLabels_Succeed, Hst. simpl.
    rewrite startedLabels_Start, <- app_assoc. reflexivity.
Qed.

Lemma Setup_runSteps c fuel w :
  Setup c fuel w = runSteps (setupSteps c fuel) w.
Proof. reflexivity. Qed.

Lemma setupSteps_labels c fuel : map fst (setupSteps c fuel) = setupLabels.
Proof. reflexivity. Qed.

(** *** Chains of sub-steps *)

Lemma chain_aborts pre m post :
  forall w w1 e w2,
    passAll pre w = Some w1 ->
    m w1 = (Val (Some e), w2) ->
    chain (pre ++ m :: post) w = (Val (Some e), w2).
Proof.
  induction pre as [| m0 pre IH]; intros w w1 e w2 Hpre Hm; simpl in *.
  - injection Hpre as <-. unfold orReturn, bind. rewrite Hm. reflexivity.
  - unfold orReturn, bind at 1.
    destruct (m0 w) as [[[e0 |] | msg |] w0]; try discriminate.
    apply (IH _ _ _ _ Hpre Hm).
Qed.

Lemma chain_passes ms :
  forall w w', passAll ms w = Some w' -> chain ms w = (Val None, w').
Proof.
  induction ms as [| m0 ms IH]; intros w w' Hall; simpl in *.
  - injection Hall as <-. reflexivity.
  - unfold orReturn, bind at 1.
    destruct (m0 w) as [[[e0 |] | msg |] w0]; try discriminate.
    apply (IH _ _ Hall).
Qed.

Lemma setupRBAC_chain c w : setupRBAC c w = chain (rbacSteps c) w.
Proof. reflexivity. Qed.

Lemma setupOnosTopo_chain c fuel w :
  setupOnosTopo c fuel w = chain (topoSteps c fuel) w.
Proof. reflexivity. Qed.

(** ** Setup *)

(** C1. [Setup] runs its nine steps in order. When the steps before step
    [K] return [nil] and step [K] returns an error, [Setup] returns a failed
    status that carries the label of step [K] and that error, in the world
    step [K] left: no later step ran, and the steps started are the first
    [K+1] ones. When all nine steps return [nil], [Setup] returns a
    success status in the world the ninth step left, with all nine labels
    started in order. *)
Theorem Setup_stops_at_first_failure (c : ClusterController) (fuel : nat) (w : World) :
  (forall K label step wK e w1,
      setupSteps c fuel !! K = Some (label, step) ->
      succeedAll (take K (setupSteps c fuel)) w = Some wK ->
      step (startW label wK) = (Val (Some e), w1) ->
      exists st,
        Setup c fuel w = (Val st, failW e w1)
        /\ Failed st = true
        /\ es_label st = label
        /\ es_err st = Some e
        /\ setupLabels !! K = Some label
        /\ startedLabels (status (failW e w1))
           = startedLabels (status w) ++ take (S K) setupLabels)
  /\ (forall w9,
      succeedAll (setupSteps c fuel) w = Some w9 ->
      exists st,
        Setup c fuel w = (Val st, w9)
        /\ Failed st = false
        /\ startedLabels (status w9) = startedLabels (status w) ++ setupLabels).
Proof.
  split.
  - intros K label step wK e w1 HK Hpre Hstep.
    pose proof (take_drop_middle _ _ _ HK) as Hsplit.
    pose proof (quiet_setupSteps c fuel) as Hq.
    assert (Hqstep : quiet step).
    { rewrite Forall_lookup in Hq. apply (Hq _ _ HK). }
    assert (Hqpre : Forall (fun s => quiet (snd s)) (take K (setupSteps c fuel))).
    { apply Forall_take. exact Hq. }
    exists (failureOf e (status w1)).
    split; [| split; [reflexivity | split; [| split; [reflexivity | split]]]].
    + rewrite Setup_runSteps, <- Hsplit.
      apply (runSteps_fails_at _ _ _ _ _ _ _ _ Hpre Hstep).
    + simpl. pose proof (Hqstep (startW label wK)) as Hst.
      rewrite Hstep in Hst. simpl in Hst. rewrite Hst. reflexivity.
    + rewrite <- (setupSteps_labels c fuel), list_lookup_fmap.
      exact (f_equal (fmap fst) HK).
    + change (status (failW e w1)) with (sw_Fail e (status w1)).
      rewrite startedLabels_Fail.
      pose proof (Hqstep (startW label wK)) as Hst. rewrite Hstep in Hst.
      change (status w1 = sw_Start label (status wK)) in Hst.
      rewrite Hst, startedLabels_Start, (succeedAll_labels _ Hqpre _ _ Hpre).
      rewrite <- app_assoc. f_equal.
      rewrite <- (setupSteps_labels c fuel).
      change (map fst) with (fmap (M := list) (@fst string (M (option error)))).
      rewrite <- !fmap_take.
      rewrite (take_S_r (setupSteps c fuel) K (label, step) HK), fmap_app.
      reflexivity.
  - intros w9 Hall.
    destruct (runSteps_succeeds (setupSteps c fuel) w w9) as [w8 [Hrun _]];
      [discriminate | exact Hall |].
    exists (successOf (status w8)). split; [| split].
    + rewrite Setup_runSteps. exact Hrun.
    + reflexivity.
    + rewrite (succeedAll_labels _ (quiet_setupSteps c fuel) _ _ Hall).
      rewrite setupSteps_labels. reflexivity.
Qed.

Lemma Setup_stops_at_first_failure_witness :
  let c := Cluster (failingMethod "setupPartitions" (Other "no quorum")) defaultConfig in
  (exists st w',
      Setup c 3 emptyWorld = (Val st, w')
      /\ Failed st = true
      /\ es_label st = "Starting Raft partitions"
      /\ startedLabels (status w')
         = ["Setting up RBAC"; "Setting up Atomix controller"; "Starting Raft partitions"])
  /\ (exists st w',
      Setup (Cluster calmGateway defaultConfig) 3 emptyWorld = (Val st, w')
      /\ Failed st = false
      /\ startedLabels (status w') = setupLabels).
Proof.
  intros c. split.
  - destruct (Setup_stops_at_first_failure c 3 emptyWorld) as [Hfail _].
    edestruct (Hfail 2%nat) as [st (Hrun & Hfailed & Hlabel & _ & _ & Hstarted)];
      [reflexivity | vm_compute; reflexivity | vm_compute; reflexivity |].
    exists st. eexists.
    split; [exact Hrun |]. split; [exact Hfailed |]. split; [exact Hlabel |].
    exact Hstarted.
  - destruct (Setup_stops_at_first_failure (Cluster calmGateway defaultConfig) 3 emptyWorld)
      as [_ Hok].
    edestruct Hok as [st (Hrun & Hfailed & Hstarted)]; [vm_compute; reflexivity |].
    exists st. eexists.
    split; [exact Hrun |]. split; [exact Hfailed |]. exact Hstarted.
Defined.

(** ** Image names *)

Lemma string_app_assoc (s1 s2 s3 : string) :
  (s1 +:+ s2) +:+ s3 = s1 +:+ s2 +:+ s3.
Proof.
  induction s1 as [| a s1 IH]; [reflexivity |].
  change (String a ((s1 +:+ s2) +:+ s3) = String a (s1 +:+ s2 +:+ s3)).
  f_equal. exact IH.
Qed.

(** C9. [imageName] is [img:tag] when the registry of the configuration is
    the empty string and [registry/img:tag] otherwise. *)
Theorem imageName_qualified (c : ClusterController) (img tag : string) :
  (Registry (config c) = "" ->
     imageName c img tag = img +:+ ":" +:+ tag)
  /\ (Registry (config c) <> "" ->
     imageName c img tag = Registry (config c) +:+ "/" +:+ img +:+ ":" +:+ tag).
Proof.
  unfold imageName, imagePrefix. split; intros Hreg.
  - rewrite Hreg. change ((img +:+ ":") +:+ tag = img +:+ ":" +:+ tag).
    apply string_app_assoc.
  - apply String.eqb_neq in Hreg. rewrite Hreg.
    change negb with (fun b : bool => if b then false else true). cbv beta iota.
    rewrite !string_app_assoc. reflexivity.
Qed.

Lemma imageName_qualified_witness :
  imageName (Cluster calmGateway defaultConfig) "onosproject/onos-topo" "debug"
  = "onosproject/onos-topo:debug"
  /\ imageName
       {| clusterID := "cluster-1"; kubeclient := calmGateway;
          config := {| Registry := "localhost:5000"; Preset := "default";
                       ImageTags := ∅; PullPolicy := "Always"; ConfigNodes := 1;
                       TopoNodes := 1; Partitions := 1; PartitionSize := 1 |} |}
       "onosproject/onos-topo" "latest"
     = "localhost:5000/onosproject/onos-topo:latest".
Proof.
  split.
  - refine (eq_trans (proj1 (imageName_qualified _ "onosproject/onos-topo" "debug") _) _);
      reflexivity.
  - refine (eq_trans (proj2 (imageName_qualified _ "onosproject/onos-topo" "latest") _) _);
      [simpl; discriminate | reflexivity].
Defined.

(** ** Object creation *)

(** C2, as the spec states it, fails: in a cluster where every object
    exists already the creation of the cluster role binding returns the
    "already exists" error of its create call, [setupRBAC] returns it, and
    [Setup] fails at its first step. *)
Lemma already_exists_fails_setupRBAC :
  let c := Cluster existingObjects defaultConfig in
  gw_create (kubeclient c)
    [CCreate (mkObject KClusterRole "cluster-1" "cluster-1")]
    (mkObject KClusterRoleBinding "cluster-1" "cluster-1") = Some AlreadyExists
  /\ fst (createClusterRole c emptyWorld) = Val None
  /\ fst (setupRBAC c emptyWorld) = Val (Some AlreadyExists)
  /\ fst (Setup c 3 emptyWorld)
     = Val {| Failed := true; es_label := "Setting up RBAC";
              es_err := Some AlreadyExists |}.
Proof. vm_compute. repeat split. Qed.

(** C2, amended. The creation of the cluster role swallows an "already
    exists" error and returns any other error. The other creations of
    [setupRBAC] and [setupOnosTopo] return the error of the create call as
    it is, "already exists" included. [setupRBAC] and [setupOnosTopo]
    return the first error one of their sub-steps returns, in the world
    that sub-step left: the later sub-steps do not run. *)
Theorem creation_errors (c : ClusterController) (fuel : nat) (w : World) :
  fst (createClusterRole c w)
  = Val match gw_create (kubeclient c) (trace w)
                (mkObject KClusterRole (clusterID c) (clusterID c)) with
        | Some e => if IsAlreadyExists e then None else Some e
        | None => None
        end
  /\ (forall o m,
        In (o, m) (plainCreates c) ->
        fst (m w) = Val (gw_create (kubeclient c) (trace w) o)
        /\ trace (snd (m w)) = trace w ++ [CCreate o])
  /\ (forall data,
        gw_readFile (kubeclient c) (trace w) (configsPath +:+ "/envoy/envoy-topo.yaml")
        = inl data ->
        fst (createOnosTopoProxyConfigMap c w)
        = Val (gw_create (kubeclient c)
                 (trace w ++ [CReadFile (configsPath +:+ "/envoy/envoy-topo.yaml")])
                 (mkObject KConfigMap "onos-topo-envoy" (clusterID c))))
  /\ (forall pre m post w1 e w2,
        rbacSteps c = pre ++ m :: post ->
        passAll pre w = Some w1 ->
        m w1 = (Val (Some e), w2) ->
        setupRBAC c w = (Val (Some e), w2))
  /\ (forall pre m post w1 e w2,
        topoSteps c fuel = pre ++ m :: post ->
        passAll pre w = Some w1 ->
        m w1 = (Val (Some e), w2) ->
        setupOnosTopo c fuel w = (Val (Some e), w2)).
Proof.
  split; [| split; [| split; [| split]]].
  - unfold createClusterRole, bind, Create, call. simpl.
    destruct (gw_create _ _ _) as [[| | |] |]; reflexivity.
  - intros o m Hin. simpl in Hin.
    repeat (destruct Hin as [Heq | Hin];
            [injection Heq as <- <-; split; reflexivity |]).
    destruct Hin.
  - intros data Hread.
    unfold createOnosTopoProxyConfigMap, bind, ReadFile, call. simpl.
    rewrite Hread. reflexivity.
  - intros pre m post w1 e w2 Hsplit Hpre Hm.
    rewrite setupRBAC_chain, Hsplit. apply (chain_aborts _ _ _ _ _ _ _ Hpre Hm).
  - intros pre m post w1 e w2 Hsplit Hpre Hm.
    rewrite setupOnosTopo_chain, Hsplit. apply (chain_aborts _ _ _ _ _ _ _ Hpre Hm).
Qed.

Lemma creation_errors_witness :
  let c := Cluster existingObjects defaultConfig in
  fst (createServiceAccount c emptyWorld) = Val (Some AlreadyExists)
  /\ fst (setupRBAC c emptyWorld) = Val (Some AlreadyExists)
  /\ fst (setupOnosTopo c 3 emptyWorld) = Val (Some AlreadyExists).
Proof.
  intros c.
  destruct (creation_errors c 3 emptyWorld) as (_ & Hplain & _ & Hrbac & Htopo).
  split; [| split].
  - refine (eq_trans (proj1 (Hplain _ (createServiceAccount c) _)) _).
    + right. left. reflexivity.
    + reflexivity.
  - erewrite (Hrbac [createClusterRole c] (createClusterRoleBinding c)
                [createServiceAccount c]);
      [reflexivity | reflexivity | vm_compute; reflexivity | vm_compute; reflexivity].
  - erewrite (Htopo [] (createOnosTopoConfigMap c));
      [reflexivity | reflexivity | vm_compute; reflexivity | vm_compute; reflexivity].
Defined.

(** ** Waiting for the topology service *)

(** The wait returns [nil] only from a poll in which the deployment
    reported as many ready replicas as the configuration asks for. *)
Lemma awaitOnosTopoLoop_ready c n :
  forall unblocked w w',
    awaitOnosTopoLoop c n unblocked w = (Val None, w') ->
    exists tr d,
      trace w' = tr ++ [CDeploymentsGet (clusterID c) "onos-topo"]
      /\ gw_deploymentsGet (kubeclient c) tr (clusterID c) "onos-topo" = inl d
      /\ dep_ReadyReplicas d = TopoNodes (config c).
Proof.
  induction n as [| n IH]; intros unblocked w w' Hrun; simpl in Hrun.
  - discriminate.
  - unfold bind at 1 in Hrun. unfold PodsList, call in Hrun. simpl in Hrun.
    destruct (gw_podsList _ _ _ _) as [items | err]; [| discriminate].
    unfold bind at 1 in Hrun.
    destruct (unblockPods c items unblocked _) as [[[[e |] unblocked'] | msg |] w1];
      try discriminate.
    unfold bind at 1 in Hrun. unfold DeploymentsGet, call in Hrun. simpl in Hrun.
    destruct (gw_deploymentsGet _ _ _ _) as [d | err] eqn:Hdep; [| discriminate].
    destruct (Z.eqb _ _) eqn:Hready.
    + injection Hrun as <-. simpl.
      exists (trace w1), d. apply Z.eqb_eq in Hready. auto.
    + unfold bind at 1 in Hrun. simpl in Hrun. apply (IH _ _ _ Hrun).
Qed.

(** The loop over the pods of one poll asks the tag of the configuration
    service: when that tag is not the debug tag, no command is executed in
    any pod, whatever the tag of the topology service is. *)
Lemma unblockPods_silent c pods :
  tagOf (ImageTags (config c)) "config" <> Debug ->
  forall unblocked w,
    exists unblocked', unblockPods c pods unblocked w = (Val (None, unblocked'), w).
Proof.
  intros Htag. apply String.eqb_neq in Htag.
  induction pods as [| pod rest IH]; intros unblocked w; simpl.
  - exists unblocked. reflexivity.
  - rewrite Htag. destruct (_ && _ && _); apply IH.
Qed.

Lemma executedPods_app tr1 tr2 :
  executedPods (tr1 ++ tr2) = executedPods tr1 ++ executedPods tr2.
Proof. apply omap_app. Qed.

(** One pass over the listed pods executes the command at most once per pod
    name, and only in pods that are not in [unblocked] yet; when the pass
    returns no error, every pod it executed in is in the map it returns. *)
Lemma unblockPods_once c pods :
  forall unblocked w,
    exists new,
      executedPods (trace (snd (unblockPods c pods unblocked w)))
      = executedPods (trace w) ++ new
      /\ NoDup new
      /\ (forall p, p ∈ new -> unblocked !! p = None)
      /\ (forall unblocked',
            fst (unblockPods c pods unblocked w) = Val (None, unblocked') ->
            (forall p, is_Some (unblocked !! p) -> is_Some (unblocked' !! p))
            /\ (forall p, p ∈ new -> is_Some (unblocked' !! p))).
Proof.
  induction pods as [| pod rest IH]; intros unblocked w.
  - exists []. simpl. rewrite app_nil_r.
    split; [reflexivity |]. split; [constructor |].
    split; [intros p Hp; inversion Hp |].
    intros u' Hu'. injection Hu' as <-.
    split; [auto | intros p Hp; inversion Hp].
  - cbn [unblockPods].
    destruct (bool_decide (unblocked !! pod_Name pod = None)) eqn:Hfresh;
      [apply bool_decide_eq_true in Hfresh | apply IH].
    cbn [andb].
    destruct (Z.ltb 0 _ && _); [| apply IH].
    assert (Hnext : forall w1,
               (exists new,
                   executedPods (trace (snd (unblockPods c rest
                                               (<[pod_Name pod := true]> unblocked) w1)))
                   = executedPods (trace w1) ++ new
                   /\ NoDup new
                   /\ (forall p, p ∈ new -> unblocked !! p = None /\ p <> pod_Name pod)
                   /\ (forall unblocked',
                         fst (unblockPods c rest (<[pod_Name pod := true]> unblocked) w1)
                         = Val (None, unblocked') ->
                         (forall p, is_Some (unblocked !! p) -> is_Some (unblocked' !! p))
                         /\ is_Some (unblocked' !! pod_Name pod)
                         /\ (forall p, p ∈ new -> is_Some (unblocked' !! p))))).
    { intros w1.
      destruct (IH (<[pod_Name pod := true]> unblocked) w1)
        as (new & Htr & Hnd & Hnew & Hres).
      exists new. split; [exact Htr |]. split; [exact Hnd |]. split.
      - intros p Hp. apply Hnew in Hp. apply lookup_insert_None in Hp.
        destruct Hp as [Hp Hne]. split; [exact Hp | congruence].
      - intros u' Hu'. destruct (Hres u' Hu') as [Hkeep Hin].
        split; [| split; [| exact Hin]].
        + intros p [v Hp]. apply Hkeep.
          destruct (decide (pod_Name pod = p)) as [-> | Hne].
          * rewrite lookup_insert_eq. eauto.
          * rewrite lookup_insert_ne by exact Hne. eauto.
        + apply Hkeep. rewrite lookup_insert_eq. eauto. }
    destruct (String.eqb _ Debug).
    + unfold bind, execute. rewrite call_run.
      destruct (gw_execute _ _ _ _) as [e |].
      * exists [pod_Name pod]. simpl. rewrite executedPods_app.
        split; [reflexivity |]. split; [apply NoDup_singleton |].
        split; [intros p Hp; apply list_elem_of_singleton in Hp; subst; exact Hfresh |].
        intros u' Hu'. discriminate.
      * destruct (Hnext (logCall (CExecute (pod_Name pod) unblockCommand) w))
          as (new & Htr & Hnd & Hnew & Hres).
        exists (pod_Name pod :: new).
        rewrite Htr, trace_logCall, executedPods_app. simpl.
        rewrite <- app_assoc. split; [reflexivity |].
        split; [apply NoDup_cons; split; [| exact Hnd] |].
        { intros Hin. apply Hnew in Hin. destruct Hin as [_ Hne]. congruence. }
        split.
        { intros p Hp. apply elem_of_cons in Hp.
          destruct Hp as [-> | Hp]; [exact Hfresh | apply (Hnew p Hp)]. }
        intros u' Hu'. destruct (Hres u' Hu') as (Hkeep & Hpod & Hin).
        split; [exact Hkeep |].
        intros p Hp. apply elem_of_cons in Hp.
        destruct Hp as [-> | Hp]; [exact Hpod | apply (Hin p Hp)].
    + destruct (Hnext w) as (new & Htr & Hnd & Hnew & Hres).
      exists new. split; [exact Htr |]. split; [exact Hnd |].
      split; [intros p Hp; apply (Hnew p Hp) |].
      intros u' Hu'. destruct (Hres u' Hu') as (Hkeep & _ & Hin). auto.
Qed.

(** For each pod name the wait executes the command at most once: the pods
    it executed in, over all its polls, are pairwise different, and none of
    them was in [unblocked] when the wait was entered. *)
Lemma awaitOnosTopoLoop_once c n :
  forall unblocked w,
    exists new,
      executedPods (trace (snd (awaitOnosTopoLoop c n unblocked w)))
      = executedPods (trace w) ++ new
      /\ NoDup new
      /\ (forall p, p ∈ new -> unblocked !! p = None).
Proof.
  induction n as [| n IH]; intros unblocked w.
  - exists []. simpl. rewrite app_nil_r.
    split; [reflexivity |]. split; [constructor | intros p Hp; inversion Hp].
  - cbn [awaitOnosTopoLoop]. unfold bind at 1, PodsList. rewrite call_run.
    assert (Hlist : executedPods (trace (logCall (CPodsList (clusterID c) "app=onos,type=topo") w))
                    = executedPods (trace w)).
    { rewrite trace_logCall, executedPods_app. simpl. apply app_nil_r. }
    destruct (gw_podsList _ _ _ _) as [items | err].
    2:{ exists []. simpl snd. rewrite Hlist, app_nil_r.
        split; [reflexivity |]. split; [constructor | intros p Hp; inversion Hp]. }
    destruct (unblockPods_once c items unblocked
                (logCall (CPodsList (clusterID c) "app=onos,type=topo") w))
      as (new1 & Htr1 & Hnd1 & Hnew1 & Hres1).
    rewrite Hlist in Htr1. unfold bind at 1.
    destruct (unblockPods c items unblocked _) as [[[[e |] unblocked'] | msg |] w1];
      simpl in Htr1;
      try (exists new1; split; [exact Htr1 |]; split; [exact Hnd1 | exact Hnew1]).
    destruct (Hres1 unblocked' eq_refl) as [Hkeep Hin].
    unfold bind at 1, DeploymentsGet. rewrite call_run.
    assert (Hget : executedPods (trace (logCall (CDeploymentsGet (clusterID c) "onos-topo") w1))
                   = executedPods (trace w) ++ new1).
    { rewrite trace_logCall, executedPods_app, Htr1. simpl. apply app_nil_r. }
    destruct (gw_deploymentsGet _ _ _ _) as [d | err];
      [| exists new1; split; [exact Hget |]; split; [exact Hnd1 | exact Hnew1]].
    destruct (Z.eqb _ _);
      [exists new1; split; [exact Hget |]; split; [exact Hnd1 | exact Hnew1] |].
    unfold bind at 1, Sleep. rewrite call_run.
    destruct (IH unblocked' (logCall (CSleep 100)
                               (logCall (CDeploymentsGet (clusterID c) "onos-topo") w1)))
      as (new2 & Htr2 & Hnd2 & Hnew2).
    exists (new1 ++ new2). rewrite Htr2.
    rewrite trace_logCall, executedPods_app, Hget. simpl. rewrite app_nil_r, <- app_assoc.
    split; [reflexivity |]. split.
    + apply NoDup_app. split; [exact Hnd1 |]. split; [| exact Hnd2].
      intros p Hp1 Hp2. apply Hin in Hp1. apply Hnew2 in Hp2.
      destruct Hp1 as [v Hv]. congruence.
    + intros p Hp. apply elem_of_app in Hp. destruct Hp as [Hp | Hp].
      * apply (Hnew1 p Hp).
      * apply Hnew2 in Hp. destruct (unblocked !! p) as [v |] eqn:Hu; [| reflexivity].
        destruct (Hkeep p (ex_intro _ v Hu)) as [v' Hv']. congruence.
Qed.

(** C3, the defect. The topology service runs the debug image and the
    configuration service does not: the wait sees the running pod, executes
    no debugger command and returns. With the tags the other way round the
    wait executes the debugger command in the pod of the topology service,
    which does not run a debug image. The deployment itself takes its image
    from the tag of the topology service. *)
Theorem awaitOnosTopoDeploymentReady_reads_config_tag :
  let topoDebug := Cluster onePod (configWithTags {[ "topo" := Debug; "config" := "latest" ]}) in
  let configDebug := Cluster onePod (configWithTags {[ "topo" := "latest"; "config" := Debug ]}) in
  (fst (awaitOnosTopoDeploymentReady topoDebug 3 emptyWorld) = Val None
   /\ trace (snd (awaitOnosTopoDeploymentReady topoDebug 3 emptyWorld))
      = [CPodsList "cluster-1" "app=onos,type=topo";
         CDeploymentsGet "cluster-1" "onos-topo"]
   /\ obj_Image (mkDeployment "onos-topo" "cluster-1" 1
                   (imageName topoDebug "onosproject/onos-topo"
                      (tagOf (ImageTags (config topoDebug)) "topo")))
      = "onosproject/onos-topo:debug")
  /\ (fst (awaitOnosTopoDeploymentReady configDebug 3 emptyWorld) = Val None
      /\ trace (snd (awaitOnosTopoDeploymentReady configDebug 3 emptyWorld))
         = [CPodsList "cluster-1" "app=onos,type=topo";
            CExecute "onos-topo-1" unblockCommand;
            CDeploymentsGet "cluster-1" "onos-topo"]).
Proof. vm_compute. repeat split. Qed.

(** ** Two-step operations *)

Lemma orFail_run m k w :
  orFail m k w
  = match m w with
    | (Val (Some e), w1) => (Val (failureOf e (status w1)), failW e w1)
    | (Val None, w1) => k w1
    | (Panic msg, w1) => (Panic msg, w1)
    | (Diverge, w1) => (Diverge, w1)
    end.
Proof.
  unfold orFail, bind. destruct (m w) as [[[e |] | msg |] w1]; reflexivity.
Qed.

(** C4, as the spec states it, fails for the two add operations: when the
    provisioning step fails, [AddSimulator] and [AddNetwork] return the
    failed status at once and send nothing to the topology service. *)
Lemma add_returns_at_failed_provisioning :
  fst (AddSimulator (Cluster (failingMethod "setupSimulator" (Other "no image")) defaultConfig)
         "sim-1" {| sim_Config := "default" |} emptyWorld)
  = Val {| Failed := true; es_label := "Setting up simulator";
           es_err := Some (Other "no image") |}
  /\ trace (snd (AddSimulator
                   (Cluster (failingMethod "setupSimulator" (Other "no image")) defaultConfig)
                   "sim-1" {| sim_Config := "default" |} emptyWorld))
     = [CMethod "setupSimulator" ["sim-1"; "default"]]
  /\ fst (AddNetwork (Cluster (failingMethod "setupNetwork" (Other "no image")) defaultConfig)
            "net-1" {| NumDevices := 2 |} emptyWorld)
     = Val {| Failed := true; es_label := "Setting up network";
              es_err := Some (Other "no image") |}
  /\ trace (snd (AddNetwork
                   (Cluster (failingMethod "setupNetwork" (Other "no image")) defaultConfig)
                   "net-1" {| NumDevices := 2 |} emptyWorld))
     = [CMethod "setupNetwork" ["net-1"; "2"]].
Proof. vm_compute. repeat split. Qed.

(** C4, amended. When the teardown step of [RemoveSimulator] or
    [RemoveNetwork] fails, the failure is recorded in the status writer and
    the reconciliation step runs all the same, from the world with the
    failure recorded; what the operation returns is decided by the
    reconciliation step alone. When the provisioning step of [AddSimulator]
    or [AddNetwork] fails, the operation returns a failed status with the
    label of that step, and the topology step does not run. *)
Theorem two_step_operations (c : ClusterController) (name : string) (w : World) :
  (forall e,
      gw_method (kubeclient c) (trace w) "teardownSimulator" [name] = Some e ->
      let w1 := logCall (CMethod "teardownSimulator" [name])
                  (startW "Tearing down simulator" w) in
      let w2 := startW "Reconfiguring topology" (failW e w1) in
      In (StepFailed "Tearing down simulator" e) (sw_out (status w2))
      /\ RemoveSimulator c name w = decidedBy (removeSimulatorFromConfig c name) w2
      /\ trace (snd (RemoveSimulator c name w))
         = trace w ++ [CMethod "teardownSimulator" [name];
                       CExecuteCLI (removeDeviceCommand name)])
  /\ (forall e,
      gw_method (kubeclient c)
        (trace w ++ [CConfigMapsList (clusterID c) ("network=" +:+ name)])
        "teardownNetwork" [name] = Some e ->
      let items := fst (gw_configMapsList (kubeclient c) (trace w) (clusterID c)
                          ("network=" +:+ name)) in
      let w1 := logCall (CMethod "teardownNetwork" [name])
                  (logCall (CConfigMapsList (clusterID c) ("network=" +:+ name))
                     (startW "Tearing down network" w)) in
      let w2 := startW "Reconfiguring topology" (failW e w1) in
      In (StepFailed "Tearing down network" e) (sw_out (status w2))
      /\ RemoveNetwork c name w = decidedBy (removeNetworkFromConfig c name items) w2)
  /\ (forall cfg e,
      gw_method (kubeclient c) (trace w) "setupSimulator" [name; sim_Config cfg] = Some e ->
      exists st w',
        AddSimulator c name cfg w = (Val st, w')
        /\ Failed st = true /\ es_label st = "Setting up simulator" /\ es_err st = Some e
        /\ trace w' = trace w ++ [CMethod "setupSimulator" [name; sim_Config cfg]])
  /\ (forall cfg e,
      gw_method (kubeclient c) (trace w) "setupNetwork" [name; Itoa (NumDevices cfg)] = Some e ->
      exists st w',
        AddNetwork c name cfg w = (Val st, w')
        /\ Failed st = true /\ es_label st = "Setting up network" /\ es_err st = Some e
        /\ trace w' = trace w ++ [CMethod "setupNetwork" [name; Itoa (NumDevices cfg)]]).
Proof.
  split; [| split; [| split]].
  - intros e Hreply w1 w2.
    assert (Hrun : RemoveSimulator c name w
                   = decidedBy (removeSimulatorFromConfig c name) w2).
    { unfold RemoveSimulator, decidedBy.
      unfold bind at 1, status_Start. unfold orRecord, bind at 1.
      unfold teardownSimulator, method. rewrite call_run, trace_startW, Hreply.
      unfold bind at 1, status_Fail. unfold bind at 1, status_Start.
      rewrite orFail_run. reflexivity. }
    split; [| split; [exact Hrun |]].
    + simpl. rewrite !in_app_iff. simpl. auto.
    + rewrite Hrun. unfold decidedBy, removeSimulatorFromConfig, removeDevice, executeCLI.
      rewrite call_run.
      destruct (gw_executeCLI _ _ _); simpl; rewrite <- app_assoc; reflexivity.
  - intros e Hreply items w1 w2. split.
    + simpl. rewrite !in_app_iff. simpl. auto.
    + unfold RemoveNetwork, decidedBy.
      unfold bind at 1, status_Start. unfold bind at 1.
      unfold ConfigMapsList at 1. rewrite call_run. unfold orRecord, bind at 1.
      unfold teardownNetwork, method.
      rewrite call_run, trace_logCall, trace_startW, Hreply.
      unfold bind at 1, status_Fail. unfold bind at 1, status_Start.
      rewrite orFail_run. reflexivity.
  - intros cfg e Hreply.
    unfold AddSimulator. unfold bind at 1, status_Start. rewrite orFail_run.
    unfold setupSimulator, method. rewrite call_run, trace_startW, Hreply.
    eexists. eexists. split; [reflexivity |]. repeat split.
  - intros cfg e Hreply.
    unfold AddNetwork. unfold bind at 1, status_Start. rewrite orFail_run.
    unfold setupNetwork, method. rewrite call_run, trace_startW, Hreply.
    eexists. eexists. split; [reflexivity |]. repeat split.
Qed.

Lemma two_step_operations_witness :
  let c := Cluster (failingMethod "teardownSimulator" (Other "no such pod")) defaultConfig in
  trace (snd (RemoveSimulator c "sim-1" emptyWorld))
  = [CMethod "teardownSimulator" ["sim-1"];
     CExecuteCLI "onos topo remove device sim-1"].
Proof.
  intros c.
  destruct (two_step_operations c "sim-1" emptyWorld) as [Hremove _].
  destruct (Hremove (Other "no such pod") eq_refl) as (_ & _ & Htrace).
  exact Htrace.
Defined.

(** ** The device loops *)

Lemma wrapInt_idem_add a b : wrapInt (wrapInt a + b) = wrapInt (a + b).
Proof.
  unfold wrapInt. f_equal.
  replace ((a + 2 ^ 63) mod 2 ^ 64 - 2 ^ 63 + b + 2 ^ 63)
    with ((a + 2 ^ 63) mod 2 ^ 64 + b) by ring.
  rewrite Zplus_mod_idemp_l. f_equal. ring.
Qed.

Lemma wrapInt_small z : minInt <= z <= maxInt -> wrapInt z = z.
Proof.
  unfold wrapInt, minInt, maxInt. intros H.
  rewrite Z.mod_small; lia.
Qed.

Lemma int_add_small a b : minInt <= a + b <= maxInt -> int_add a b = a + b.
Proof. apply wrapInt_small. Qed.

Lemma addNetworkLoop_executeAll c name n :
  forall i port w,
    addNetworkLoop c name n (wrapInt i) (wrapInt port) w
    = executeAll c
        (map (fun j => addDeviceCommand "Stratum"
                         (deviceName name (wrapInt (i + Z.of_nat j)))
                         (wrapInt (port + Z.of_nat j)))
             (seq 0 n)) w.
Proof.
  induction n as [| n IH]; intros i port w; [reflexivity |].
  cbn [addNetworkLoop seq map executeAll]. unfold addDevice.
  rewrite !Z.add_0_r. unfold bind.
  destruct (executeCLI c _ w) as [[[e |] | msg |] w1]; try reflexivity.
  unfold int_add. rewrite !wrapInt_idem_add, IH.
  f_equal. rewrite <- seq_shift, map_map.
  apply map_ext. intros j. rewrite Nat2Z.inj_succ.
  replace (i + 1 + Z.of_nat j) with (i + Z.succ (Z.of_nat j)) by lia.
  replace (port + 1 + Z.of_nat j) with (port + Z.succ (Z.of_nat j)) by lia.
  reflexivity.
Qed.

Lemma removeNetworkLoop_executeAll c name n :
  forall i w,
    removeNetworkLoop c name n (wrapInt i) w
    = executeAll c
        (map (fun j => removeDeviceCommand (deviceName name (wrapInt (i + Z.of_nat j))))
             (seq 0 n)) w.
Proof.
  induction n as [| n IH]; intros i w; [reflexivity |].
  cbn [removeNetworkLoop seq map executeAll]. unfold removeDevice.
  rewrite !Z.add_0_r. unfold bind.
  destruct (executeCLI c _ w) as [[[e |] | msg |] w1]; try reflexivity.
  unfold int_add. rewrite !wrapInt_idem_add, IH.
  f_equal. rewrite <- seq_shift, map_map.
  apply map_ext. intros j. rewrite Nat2Z.inj_succ.
  replace (i + 1 + Z.of_nat j) with (i + Z.succ (Z.of_nat j)) by lia.
  reflexivity.
Qed.

Lemma replyTo_zero gw tr cmd rest :
  replyTo gw tr (cmd :: rest) 0 = gw_executeCLI gw tr cmd.
Proof. unfold replyTo. simpl. rewrite app_nil_r. reflexivity. Qed.

Lemma replyTo_succ gw tr cmd rest j :
  replyTo gw tr (cmd :: rest) (S j) = replyTo gw (tr ++ [CExecuteCLI cmd]) rest j.
Proof. unfold replyTo. simpl. rewrite <- app_assoc. reflexivity. Qed.

Lemma executeAll_sent c cmds :
  forall w,
    exists k r w',
      executeAll c cmds w = (Val r, w')
      /\ trace w' = trace w ++ map CExecuteCLI (take k cmds)
      /\ status w' = status w
      /\ stdout w' = stdout w
      /\ sentUntilError (kubeclient c) (trace w) cmds k r.
Proof.
  induction cmds as [| cmd rest IH]; intros w.
  - exists 0%nat, None, w. simpl. rewrite app_nil_r.
    repeat split; auto. intros j Hj. lia.
  - cbn [executeAll]. unfold bind, executeCLI. rewrite call_run.
    destruct (gw_executeCLI (kubeclient c) (trace w) cmd) as [e |] eqn:Hreply.
    + exists 1%nat, (Some e), (logCall (CExecuteCLI cmd) w).
      repeat split; auto.
      exists 0%nat. rewrite replyTo_zero. simpl.
      repeat split; auto; [lia | intros j' Hj'; lia].
    + destruct (IH (logCall (CExecuteCLI cmd) w)) as (k & r & w' & Hrun & Htr & Hst & Hout & Hsent).
      exists (S k), r, w'. rewrite Hrun, Htr, Hst, Hout, trace_logCall.
      simpl. rewrite <- app_assoc.
      repeat split; auto.
      rewrite trace_logCall in Hsent.
      destruct r as [e |]; simpl in *.
      * destruct Hsent as (j & -> & Hlen & Hj & Hbefore).
        exists (S j). rewrite replyTo_succ.
        repeat split; auto; [lia |].
        intros [| j'] Hj'; [rewrite replyTo_zero; exact Hreply |].
        rewrite replyTo_succ. apply Hbefore. lia.
      * destruct Hsent as [-> Hall]. split; [reflexivity |].
        intros [| j] Hj; [rewrite replyTo_zero; exact Hreply |].
        rewrite replyTo_succ. apply Hall. lia.
Qed.

Lemma sentUntilError_all gw tr cmds k r :
  sentUntilError gw tr cmds k r ->
  (forall tr' cmd, gw_executeCLI gw tr' cmd = None) ->
  k = length cmds /\ r = None.
Proof.
  intros Hsent Hcalm. destruct r as [e |]; simpl in Hsent.
  - destruct Hsent as (j & _ & _ & Hj & _). unfold replyTo in Hj.
    rewrite Hcalm in Hj. discriminate.
  - destruct Hsent as [-> _]. auto.
Qed.

Lemma addNetworkCommands_wrap name (n : nat) :
  Z.of_nat n <= maxInt ->
  map (fun j => addDeviceCommand "Stratum"
                  (deviceName name (wrapInt (0 + Z.of_nat j)))
                  (wrapInt (50001 + Z.of_nat j)))
      (seq 0 n)
  = addNetworkCommands name n.
Proof.
  intros Hn. unfold addNetworkCommands. apply map_ext_in.
  intros j Hj. apply in_seq in Hj.
  rewrite wrapInt_small; [reflexivity |]. unfold minInt, maxInt in *. lia.
Qed.

Lemma removeNetworkCommands_wrap name (n : nat) :
  Z.of_nat n <= maxInt ->
  map (fun j => removeDeviceCommand (deviceName name (wrapInt (0 + Z.of_nat j))))
      (seq 0 n)
  = removeNetworkCommands name n.
Proof.
  intros Hn. unfold removeNetworkCommands. apply map_ext_in.
  intros j Hj. apply in_seq in Hj.
  rewrite wrapInt_small; [reflexivity |]. unfold minInt, maxInt in *. lia.
Qed.

(** C8. For a configuration of [NumDevices = N] devices (any [int]; none
    are added when [N <= 0]) [addNetworkToTopo] sends the [addDevice]
    commands for the devices [<name>-s0], [<name>-s1], ... in this order,
    the [j]-th with port [50001 + j], and nothing else. It stops at the
    first command that fails and returns its error; when no command fails
    it sends exactly [N] commands and returns [nil]. The port is an [int]:
    [50001 + j] is its value as long as that fits the type. *)
Theorem addNetworkToTopo_calls (c : ClusterController) (name : string)
    (cfg : NetworkConfig) (w : World) :
  NumDevices cfg <= maxInt ->
  let n := Z.to_nat (NumDevices cfg) in
  let cmds := addNetworkCommands name n in
  (exists k r w',
      addNetworkToTopo c name cfg w = (Val r, w')
      /\ trace w' = trace w ++ map CExecuteCLI (take k cmds)
      /\ sentUntilError (kubeclient c) (trace w) cmds k r
      /\ ((forall tr cmd, gw_executeCLI (kubeclient c) tr cmd = None) ->
          k = n /\ r = None))
  /\ length cmds = n
  /\ (forall j, (j < n)%nat ->
        cmds !! j
        = Some (addDeviceCommand "Stratum" (name +:+ "-s" +:+ Itoa (Z.of_nat j))
                  (int_add 50001 (Z.of_nat j))))
  /\ (forall j, 50001 + Z.of_nat j <= maxInt ->
        int_add 50001 (Z.of_nat j) = 50001 + Z.of_nat j).
Proof.
  intros Hint n cmds.
  assert (Hn : Z.of_nat n <= maxInt).
  { unfold n. unfold maxInt in *. lia. }
  assert (Hlen : length cmds = n).
  { unfold cmds, addNetworkCommands. rewrite length_map, length_seq. reflexivity. }
  split; [| split; [exact Hlen | split]].
  - unfold addNetworkToTopo. fold n.
    change 0 with (wrapInt 0) at 1. change 50001 with (wrapInt 50001) at 1.
    rewrite addNetworkLoop_executeAll, (addNetworkCommands_wrap name n Hn).
    fold cmds.
    destruct (executeAll_sent c cmds w) as (k & r & w' & Hrun & Htr & _ & _ & Hsent).
    exists k, r, w'. repeat split; auto.
    + destruct (sentUntilError_all _ _ _ _ _ Hsent H). congruence.
    + destruct (sentUntilError_all _ _ _ _ _ Hsent H). assumption.
  - intros j Hj. unfold cmds, addNetworkCommands.
    rewrite list_lookup_fmap, lookup_seq_lt by exact Hj. simpl.
    unfold deviceName. rewrite string_app_assoc. reflexivity.
  - intros j Hj. apply int_add_small. unfold minInt, maxInt in *. lia.
Qed.

Lemma addNetworkToTopo_calls_witness :
  trace (snd (addNetworkToTopo (Cluster calmGateway defaultConfig) "net-1"
                {| NumDevices := 2 |} emptyWorld))
  = [CExecuteCLI (addDeviceCommand "Stratum" "net-1-s0" 50001);
     CExecuteCLI (addDeviceCommand "Stratum" "net-1-s1" 50002)].
Proof.
  assert (Hint : NumDevices {| NumDevices := 2 |} <= maxInt)
    by (unfold maxInt; simpl; lia).
  destruct (addNetworkToTopo_calls (Cluster calmGateway defaultConfig) "net-1"
              {| NumDevices := 2 |} emptyWorld Hint)
    as [(k & r & w' & Hrun & Htr & _ & Hall) _].
  destruct (Hall (fun _ _ => eq_refl)) as [-> ->].
  rewrite Hrun. simpl snd. rewrite Htr. vm_compute. reflexivity.
Defined.

(** C6, as the spec states it, fails: the stored configuration reports two
    devices and the first [removeDevice] command fails; [RemoveNetwork]
    sends that one command, not two. *)
Lemma RemoveNetwork_stops_at_failed_removeDevice :
  let c := Cluster (storedNetwork "numdevices: 2" (fun _ _ => Some (Other "exit code 1")))
             defaultConfig in
  yaml_Unmarshal (kubeclient c) "numdevices: 2" = inl {[ "numdevices" := YInt 2 ]}
  /\ trace (snd (RemoveNetwork c "net-1" emptyWorld))
     = [CConfigMapsList "cluster-1" "network=net-1";
        CMethod "teardownNetwork" ["net-1"];
        CExecuteCLI "onos topo remove device net-1-s0"].
Proof. vm_compute. split; reflexivity. Qed.

(** C6, amended. When the first config map labelled [network=<name>] stores
    a configuration with [numdevices = M], [RemoveNetwork] sends, after the
    list and the teardown calls and whether or not the teardown failed, the
    [removeDevice] commands for [<name>-s0], [<name>-s1], ... in this order
    and nothing else. It stops at the first command that fails and returns
    a failed status with its error; when no command fails it sends exactly
    [M] commands and returns a success status. *)
Theorem RemoveNetwork_calls (c : ClusterController) (name : string) (w : World)
    (cm : ConfigMap) (rest : list ConfigMap) (listErr : option error)
    (m : gmap string YamlValue) (numDevices : Z) :
  gw_configMapsList (kubeclient c) (trace w) (clusterID c) ("network=" +:+ name)
  = (cm :: rest, listErr) ->
  yaml_Unmarshal (kubeclient c) (default "" (cm_BinaryData cm !! "config")) = inl m ->
  m !! "numdevices" = Some (YInt numDevices) ->
  numDevices <= maxInt ->
  let n := Z.to_nat numDevices in
  let cmds := removeNetworkCommands name n in
  let tr1 := trace w ++ [CConfigMapsList (clusterID c) ("network=" +:+ name);
                         CMethod "teardownNetwork" [name]] in
  (exists k r st w',
      RemoveNetwork c name w = (Val st, w')
      /\ trace w' = tr1 ++ map CExecuteCLI (take k cmds)
      /\ sentUntilError (kubeclient c) tr1 cmds k r
      /\ es_err st = r
      /\ Failed st = bool_decide (is_Some r)
      /\ ((forall tr cmd, gw_executeCLI (kubeclient c) tr cmd = None) ->
          k = n /\ r = None))
  /\ length cmds = n
  /\ (forall j, (j < n)%nat ->
        cmds !! j = Some (removeDeviceCommand (name +:+ "-s" +:+ Itoa (Z.of_nat j)))).
Proof.
  intros Hlist Hyaml Hnum Hint n cmds tr1.
  assert (Hn : Z.of_nat n <= maxInt).
  { unfold n. unfold maxInt in *. lia. }
  split; [| split].
  - (* the world in which the reconciliation step starts *)
    assert (Hstart : exists w2,
               trace w2 = tr1
               /\ RemoveNetwork c name w
                  = orFail (removeNetworkFromConfig c name (cm :: rest)) status_Succeed w2).
    { unfold RemoveNetwork.
      unfold bind at 1, status_Start. unfold bind at 1.
      unfold ConfigMapsList at 1. rewrite call_run, trace_startW, Hlist.
      unfold orRecord, bind at 1. unfold teardownNetwork, method. rewrite call_run.
      destruct (gw_method _ _ _ _) as [e |].
      - unfold bind at 1, status_Fail. unfold bind at 1, status_Start.
        eexists. split; [| reflexivity].
        unfold tr1. simpl. rewrite <- app_assoc. reflexivity.
      - unfold bind at 1, status_Start.
        eexists. split; [| reflexivity].
        unfold tr1. simpl. rewrite <- app_assoc. reflexivity. }
    destruct Hstart as (w2 & Htr2 & Hrun).
    rewrite Hrun, orFail_run. unfold removeNetworkFromConfig.
    rewrite Hyaml, Hnum. fold n.
    change 0 with (wrapInt 0).
    rewrite removeNetworkLoop_executeAll, (removeNetworkCommands_wrap name n Hn).
    fold cmds.
    destruct (executeAll_sent c cmds w2) as (k & r & w' & Hexec & Htr & _ & _ & Hsent).
    rewrite Hexec. rewrite Htr2 in Htr, Hsent.
    assert (Hlen : length cmds = n).
    { unfold cmds, removeNetworkCommands. rewrite length_map, length_seq. reflexivity. }
    assert (Hcalm : (forall tr cmd, gw_executeCLI (kubeclient c) tr cmd = None) ->
                    k = n /\ r = None).
    { intros Hnone. rewrite <- Hlen. apply (sentUntilError_all _ _ _ _ _ Hsent Hnone). }
    destruct r as [e |].
    + exists k, (Some e). eexists. eexists.
      split; [reflexivity |]. split; [exact Htr |]. split; [exact Hsent |].
      split; [reflexivity |]. split; [reflexivity | exact Hcalm].
    + exists k, None. eexists. eexists.
      split; [reflexivity |]. split; [exact Htr |]. split; [exact Hsent |].
      split; [reflexivity |]. split; [reflexivity | exact Hcalm].
  - unfold cmds, removeNetworkCommands. rewrite length_map, length_seq. reflexivity.
  - intros j Hj. unfold cmds, removeNetworkCommands.
    rewrite list_lookup_fmap, lookup_seq_lt by exact Hj. simpl.
    unfold deviceName. rewrite string_app_assoc. reflexivity.
Qed.

Lemma RemoveNetwork_calls_witness :
  let c := Cluster (withMethod (fun _ _ _ => Some (Other "no such network"))
                      (storedNetwork "numdevices: 2" (fun _ _ => None)))
             defaultConfig in
  trace (snd (RemoveNetwork c "net-1" emptyWorld))
  = [CConfigMapsList "cluster-1" "network=net-1";
     CMethod "teardownNetwork" ["net-1"];
     CExecuteCLI "onos topo remove device net-1-s0";
     CExecuteCLI "onos topo remove device net-1-s1"].
Proof.
  intros c.
  edestruct (RemoveNetwork_calls c "net-1" emptyWorld)
    as [(k & r & st & w' & Hrun & Htr & _ & _ & _ & Hall) _];
    [ vm_compute; reflexivity | vm_compute; reflexivity | vm_compute; reflexivity
    | unfold maxInt; lia | ].
  destruct (Hall (fun _ _ => eq_refl)) as [-> ->].
  rewrite Hrun. simpl snd. rewrite Htr. vm_compute. reflexivity.
Defined.

(** ** The preconditions of RemoveNetwork *)

Lemma executeAll_returns c cmds w :
  exists r w', executeAll c cmds w = (Val r, w').
Proof.
  destruct (executeAll_sent c cmds w) as (k & r & w' & Hrun & _).
  exists r, w'. exact Hrun.
Qed.

(** The world in which [RemoveNetwork] starts its reconciliation step. *)
Lemma RemoveNetwork_reconciles c name w :
  exists w2,
    RemoveNetwork c name w
    = orFail (removeNetworkFromConfig c name
                (fst (gw_configMapsList (kubeclient c) (trace w) (clusterID c)
                        ("network=" +:+ name))))
        status_Succeed w2
    /\ sw_step (status w2) = "Reconfiguring topology".
Proof.
  unfold RemoveNetwork.
  unfold bind at 1, status_Start. unfold bind at 1.
  unfold ConfigMapsList at 1. rewrite call_run, trace_startW.
  unfold orRecord, bind at 1. unfold teardownNetwork, method. rewrite call_run.
  destruct (gw_method _ _ _ _) as [e |].
  - unfold bind at 1, status_Fail. unfold bind at 1, status_Start.
    eexists. split; reflexivity.
  - unfold bind at 1, status_Start.
    eexists. split; reflexivity.
Qed.

(** C10, as stated, fails on a stored configuration that is not a YAML
    document: [yaml.Unmarshal] returns an error, and [RemoveNetwork]
    returns a failed status although the configuration has no integer
    [numdevices] field. *)
Lemma RemoveNetwork_fails_on_unreadable_configuration :
  let c := Cluster (storedNetwork "numdevices: [" (fun _ _ => None)) defaultConfig in
  yaml_Unmarshal (kubeclient c) "numdevices: ["
  = inr (Other "yaml: did not find expected node content")
  /\ fst (RemoveNetwork c "net-1" emptyWorld)
     = Val {| Failed := true; es_label := "Reconfiguring topology";
              es_err := Some (Other "yaml: did not find expected node content") |}.
Proof. vm_compute. split; reflexivity. Qed.

(** C10, amended. [RemoveNetwork] drops the error of the list query and
    hands the list to the reconciliation step. On an empty list the step
    panics at [Items[0]]. When the configuration of the first config map
    unmarshals and has no [numdevices] entry, or one that is not an [int],
    the step panics at the type assertion. When the configuration does not
    unmarshal, the operation returns a failed status with the error of
    [yaml.Unmarshal]. When [numdevices] is an [int], the operation returns a
    status. So [RemoveNetwork] returns a status only if a config map is
    listed and its configuration either does not unmarshal or holds an
    integer [numdevices]. *)
Theorem RemoveNetwork_outcome (c : ClusterController) (name : string) (w : World) :
  let items := fst (gw_configMapsList (kubeclient c) (trace w) (clusterID c)
                      ("network=" +:+ name)) in
  let stored cm := yaml_Unmarshal (kubeclient c) (default "" (cm_BinaryData cm !! "config")) in
  (items = [] -> fst (RemoveNetwork c name w) = Panic "index out of range")
  /\ (forall cm rest m,
        items = cm :: rest -> stored cm = inl m ->
        (forall n, m !! "numdevices" <> Some (YInt n)) ->
        fst (RemoveNetwork c name w) = Panic "interface conversion")
  /\ (forall cm rest e,
        items = cm :: rest -> stored cm = inr e ->
        fst (RemoveNetwork c name w)
        = Val {| Failed := true; es_label := "Reconfiguring topology"; es_err := Some e |})
  /\ (forall cm rest m n,
        items = cm :: rest -> stored cm = inl m ->
        m !! "numdevices" = Some (YInt n) ->
        exists st, fst (RemoveNetwork c name w) = Val st)
  /\ (forall st,
        fst (RemoveNetwork c name w) = Val st ->
        exists cm rest,
          items = cm :: rest
          /\ ((exists e, stored cm = inr e)
              \/ (exists m n, stored cm = inl m /\ m !! "numdevices" = Some (YInt n)))).
Proof.
  intros items stored.
  destruct (RemoveNetwork_reconciles c name w) as (w2 & Hrun & Hstep).
  fold items in Hrun. rewrite Hrun, orFail_run. clear Hrun.
  assert (Hint : forall cm rest m n,
             items = cm :: rest -> stored cm = inl m ->
             m !! "numdevices" = Some (YInt n) ->
             exists r w3, removeNetworkFromConfig c name items w2 = (Val r, w3)).
  { intros cm rest m n Hitems Hyaml Hnum.
    unfold removeNetworkFromConfig. rewrite Hitems. fold (stored cm).
    rewrite Hyaml, Hnum. change 0 with (wrapInt 0).
    rewrite removeNetworkLoop_executeAll. apply executeAll_returns. }
  split; [| split; [| split; [| split]]].
  - intros Hitems. rewrite Hitems. reflexivity.
  - intros cm rest m Hitems Hyaml Hnum.
    unfold removeNetworkFromConfig. rewrite Hitems. fold (stored cm). rewrite Hyaml.
    destruct (m !! "numdevices") as [[n | s | b |] |] eqn:Hlook; try reflexivity.
    exfalso. apply (Hnum n). reflexivity.
  - intros cm rest e Hitems Hyaml.
    unfold removeNetworkFromConfig. rewrite Hitems. fold (stored cm). rewrite Hyaml.
    unfold ret. simpl. unfold failureOf. rewrite Hstep. reflexivity.
  - intros cm rest m n Hitems Hyaml Hnum.
    destruct (Hint _ _ _ _ Hitems Hyaml Hnum) as (r & w3 & Hrec). rewrite Hrec.
    destruct r as [e |]; eexists; reflexivity.
  - intros st Hst.
    destruct items as [| cm rest] eqn:Hitems; [discriminate |].
    exists cm, rest. split; [reflexivity |].
    destruct (stored cm) as [m | e] eqn:Hyaml; [| left; eauto].
    right. exists m.
    destruct (m !! "numdevices") as [[n | s | b |] |] eqn:Hlook;
      [exists n; auto | exfalso .. ];
      unfold removeNetworkFromConfig in Hst; fold (stored cm) in Hst;
      rewrite Hyaml, Hlook in Hst; discriminate.
Qed.

Lemma RemoveNetwork_outcome_witness :
  fst (RemoveNetwork (Cluster calmGateway defaultConfig) "net-1" emptyWorld)
  = Panic "index out of range"
  /\ fst (RemoveNetwork
            (Cluster (storedNetwork "topology: linear" (fun _ _ => None)) defaultConfig)
            "net-1" emptyWorld)
     = Panic "interface conversion"
  /\ fst (RemoveNetwork
            (Cluster (storedNetwork "numdevices: two" (fun _ _ => None)) defaultConfig)
            "net-1" emptyWorld)
     = Panic "interface conversion".
Proof.
  split; [| split].
  - apply (proj1 (RemoveNetwork_outcome (Cluster calmGateway defaultConfig) "net-1" emptyWorld)).
    reflexivity.
  - eapply (proj1 (proj2 (RemoveNetwork_outcome
                            (Cluster (storedNetwork "topology: linear" (fun _ _ => None))
                               defaultConfig) "net-1" emptyWorld)));
      [vm_compute; reflexivity | vm_compute; reflexivity |].
    intros n. vm_compute. discriminate.
  - eapply (proj1 (proj2 (RemoveNetwork_outcome
                            (Cluster (storedNetwork "numdevices: two" (fun _ _ => None))
                               defaultConfig) "net-1" emptyWorld)));
      [vm_compute; reflexivity | vm_compute; reflexivity |].
    intros n. vm_compute. discriminate.
Defined.

(** ** Resources *)

(** C7. [GetResources(name)] returns the one-element list [[name]] when the
    lookup by name in the namespace of the cluster finds a pod of that
    name. When the lookup reports not-found it returns the names of the
    pods listed under the selector [resource=<name>], and when that list is
    empty it fails with the error [unknown test resource <name>]. *)
Theorem GetResources_resolves (c : ClusterController) (name : string) (w : World) :
  (forall pod,
      gw_podsGet (kubeclient c) (trace w) (clusterID c) name = inl pod ->
      pod_Name pod = name ->
      fst (GetResources c name w) = Val (inl [name]))
  /\ (forall err pods,
      gw_podsGet (kubeclient c) (trace w) (clusterID c) name = inr err ->
      IsNotFound err = true ->
      gw_podsList (kubeclient c) (trace w ++ [CPodsGet (clusterID c) name])
        (clusterID c) ("resource=" +:+ name) = inl pods ->
      (pods <> [] -> fst (GetResources c name w) = Val (inl (map pod_Name pods)))
      /\ (pods = [] ->
          fst (GetResources c name w)
          = Val (inr (Other ("unknown test resource " +:+ name))))).
Proof.
  split.
  - intros pod Hget Hname.
    unfold GetResources. unfold bind at 1. unfold PodsGet.
    rewrite call_run, Hget, Hname. reflexivity.
  - intros err pods Hget Hnf Hlist.
    assert (Hrun : fst (GetResources c name w)
                   = Val (if Z.eqb (Z.of_nat (length pods)) 0
                          then inr (Other ("unknown test resource " +:+ name))
                          else inl (map pod_Name pods))).
    { unfold GetResources. unfold bind at 1. unfold PodsGet.
      rewrite call_run, Hget, Hnf.
      cbn [negb]. unfold bind, PodsList. rewrite call_run, trace_logCall, Hlist.
      destruct (Z.eqb _ _); reflexivity. }
    rewrite Hrun. split.
    + intros Hne. destruct pods as [| p pods]; [congruence | reflexivity].
    + intros ->. reflexivity.
Qed.

Lemma GetResources_resolves_witness :
  fst (GetResources (Cluster podsByName defaultConfig) "onos-topo-1" emptyWorld)
  = Val (inl ["onos-topo-1"])
  /\ fst (GetResources
            (Cluster (podsByLabel [{| pod_Name := "onos-topo-1"; pod_ContainerStatuses := [] |};
                                   {| pod_Name := "onos-topo-envoy-1"; pod_ContainerStatuses := [] |}])
               defaultConfig)
            "onos-topo" emptyWorld)
     = Val (inl ["onos-topo-1"; "onos-topo-envoy-1"])
  /\ fst (GetResources (Cluster (podsByLabel []) defaultConfig) "onos-topo" emptyWorld)
     = Val (inr (Other "unknown test resource onos-topo")).
Proof.
  split; [| split].
  - eapply (proj1 (GetResources_resolves (Cluster podsByName defaultConfig)
                     "onos-topo-1" emptyWorld)); reflexivity.
  - eapply (proj1 (proj2 (GetResources_resolves
                            (Cluster (podsByLabel
                                        [{| pod_Name := "onos-topo-1"; pod_ContainerStatuses := [] |};
                                         {| pod_Name := "onos-topo-envoy-1";
                                            pod_ContainerStatuses := [] |}])
                               defaultConfig)
                            "onos-topo" emptyWorld) NotFound _
                     eq_refl eq_refl eq_refl)).
    discriminate.
  - eapply (proj2 (proj2 (GetResources_resolves (Cluster (podsByLabel []) defaultConfig)
                            "onos-topo" emptyWorld) NotFound _
                     eq_refl eq_refl eq_refl)).
    reflexivity.
Defined.

(** ** Running tests *)

(** The copy loop prints the chunks read without an error and stops at the
    first [Read] that returns one: it leaves the loop at [io.EOF] and
    returns any other error. It touches neither the history of calls nor
    the status writer. *)
Lemma copyLogs_stops pre chunk e post :
  readsWell pre ->
  forall w,
    exists w',
      copyLogs (pre ++ (chunk, Some e) :: post) w
      = (Val (if isEOF e then None else Some e), w')
      /\ trace w' = trace w
      /\ status w' = status w
      /\ stdout w' = stdout w ++ map fst pre.
Proof.
  induction 1 as [| [chunk0 err0] pre Hhead _ IH]; intros w.
  - exists w. simpl. rewrite app_nil_r.
    destruct (isEOF e); repeat split; reflexivity.
  - simpl in Hhead. subst err0. cbn [app copyLogs]. unfold bind, Print.
    destruct (IH {| trace := trace w; status := status w;
                    stdout := stdout w ++ [chunk0] |})
      as (w' & Hrun & Htr & Hst & Hout).
    exists w'. rewrite Hrun. simpl in *.
    rewrite Hout, <- app_assoc. repeat split; auto.
Qed.

(** C5. What [RunTests] does with an error, path by path. When the test
    job cannot be started, it hands the error to the status writer with
    [Fail] and returns what [Fail] returns. When the job has started and the
    log stream cannot be opened, or a [Read] from it returns an error other
    than [io.EOF], it stops, with no further call but the close of an
    opened stream, and returns the empty message and the exit code 0; the
    error goes nowhere: the status it returns is the status writer itself,
    which has been told of the start of the step and of its success and of
    nothing else. When the stream ends and the exit status of the pod
    cannot be retrieved, it returns the message
    [failed to retrieve exit code] and the exit code 1, after the calls for
    the stream, the exit status and the close. A job that ran to its end
    gets the same status: when it ended with the empty message and the
    exit code 0, the three values returned are those returned after an
    error of the log stream. *)
Theorem RunTests_drops_stream_errors (c : ClusterController) (testID : string)
    (tests : list string) (timeout : Z) (w : World) :
  let timeout' := if Z.eqb timeout 0 then 10 * Minute else timeout in
  let label := "Starting test job: " +:+ testID in
  let started := trace w ++ [CStartTests testID tests timeout'] in
  let told := sw_Succeed (sw_Start label (status w)) in
  (forall e,
      gw_startTests (kubeclient c) (trace w) testID tests timeout' = inr e ->
      exists w',
        RunTests c testID tests timeout w
        = (Val ("", 0, failureOf e (sw_Start label (status w))), w')
        /\ trace w' = started
        /\ status w' = sw_Fail e (sw_Start label (status w)))
  /\ (forall pod,
      gw_startTests (kubeclient c) (trace w) testID tests timeout' = inl pod ->
      let opened := started ++ [CLogsStream (clusterID c) (pod_Name pod) true] in
      (forall e,
          gw_logsStream (kubeclient c) started (clusterID c) (pod_Name pod) = inr e ->
          exists w',
            RunTests c testID tests timeout w = (Val ("", 0, statusOf told), w')
            /\ trace w' = opened
            /\ status w' = told
            /\ stdout w' = stdout w)
      /\ (forall pre chunk e post,
          gw_logsStream (kubeclient c) started (clusterID c) (pod_Name pod)
          = inl (pre ++ (chunk, Some e) :: post) ->
          readsWell pre ->
          isEOF e = false ->
          exists w',
            RunTests c testID tests timeout w = (Val ("", 0, statusOf told), w')
            /\ trace w' = opened ++ [CClose]
            /\ status w' = told
            /\ stdout w' = stdout w ++ map fst pre)
      /\ (forall pre chunk post e,
          gw_logsStream (kubeclient c) started (clusterID c) (pod_Name pod)
          = inl (pre ++ (chunk, Some EOF) :: post) ->
          readsWell pre ->
          gw_getStatus (kubeclient c) opened (pod_Name pod) = inr e ->
          exists w',
            RunTests c testID tests timeout w
            = (Val ("failed to retrieve exit code", 1, statusOf told), w')
            /\ trace w' = opened ++ [CGetStatus (pod_Name pod); CClose]
            /\ status w' = told
            /\ stdout w' = stdout w ++ map fst pre)
      /\ (forall pre chunk post message code,
          gw_logsStream (kubeclient c) started (clusterID c) (pod_Name pod)
          = inl (pre ++ (chunk, Some EOF) :: post) ->
          readsWell pre ->
          gw_getStatus (kubeclient c) opened (pod_Name pod) = inl (message, code) ->
          exists w',
            RunTests c testID tests timeout w = (Val (message, code, statusOf told), w')
            /\ trace w' = opened ++ [CGetStatus (pod_Name pod); CClose]
            /\ status w' = told)).
Proof.
  intros timeout' label started told.
  set (w0 := logCall (CStartTests testID tests timeout') (startW label w)).
  assert (Hbegin : forall started_as,
             gw_startTests (kubeclient c) (trace w) testID tests timeout' = started_as ->
             RunTests c testID tests timeout w
             = match started_as with
               | inr err => (do st <- status_Fail err; ret ("", 0, st)) w0
               | inl pod =>
                   (do stream <- streamLogs c pod;
                    match stream with
                    | inr _ => do st <- status_Get; ret ("", 0, st)
                    | inl reader =>
                        do copied <- copyLogs reader;
                        match copied with
                        | Some _ => do st <- status_Get; do_ Close; ret ("", 0, st)
                        | None =>
                            do exit <- getStatus c pod;
                            match exit with
                            | inr _ =>
                                do st <- status_Get; do_ Close;
                                ret ("failed to retrieve exit code", 1, st)
                            | inl (message, code) =>
                                do st <- status_Get; do_ Close;
                                ret (message, code, st)
                            end
                        end
                    end) (succeedW w0)
               end).
  { intros started_as Hstart. unfold RunTests. fold timeout' label.
    unfold bind at 1, status_Start. unfold bind at 1, startTests.
    rewrite call_run, trace_startW, Hstart. fold w0.
    destruct started_as as [pod | err]; [| reflexivity].
    unfold bind at 1, status_Succeed. reflexivity. }
  split.
  - intros e Hstart. rewrite (Hbegin _ Hstart).
    eexists. split; [reflexivity |]. split; reflexivity.
  - intros pod Hstart opened. rewrite (Hbegin _ Hstart). clear Hbegin.
    assert (Htr1 : trace (succeedW w0) = started) by reflexivity.
    assert (Hst1 : status (succeedW w0) = told) by reflexivity.
    assert (Hout1 : stdout (succeedW w0) = stdout w) by reflexivity.
    generalize dependent (succeedW w0). intros w1 Htr1 Hst1 Hout1.
    split; [| split; [| split]].
    + intros e Hopen.
      unfold bind at 1, streamLogs. rewrite call_run, Htr1, Hopen.
      eexists. split; [unfold bind, status_Get, ret; cbn [status logCall]; rewrite Hst1;
                       reflexivity |].
      rewrite trace_logCall, Htr1, status_logCall. auto.
    + intros pre chunk e post Hopen Hpre Hneof.
      unfold bind at 1, streamLogs. rewrite call_run, Htr1, Hopen.
      unfold bind at 1.
      destruct (copyLogs_stops pre chunk e post Hpre
                  (logCall (CLogsStream (clusterID c) (pod_Name pod) true) w1))
        as (w' & Hcopy & Htr & Hst & Hout).
      rewrite Hcopy, Hneof. unfold bind, status_Get, Close. rewrite !call_run.
      rewrite status_logCall, Hst1 in Hst. rewrite trace_logCall, Htr1 in Htr.
      eexists. split; [unfold ret; rewrite Hst; reflexivity |].
      rewrite trace_logCall, status_logCall, Htr, Hst. cbn [stdout logCall] in *.
      rewrite Hout, Hout1. auto.
    + intros pre chunk post e Hopen Hpre Hexit.
      unfold bind at 1, streamLogs. rewrite call_run, Htr1, Hopen.
      unfold bind at 1.
      destruct (copyLogs_stops pre chunk EOF post Hpre
                  (logCall (CLogsStream (clusterID c) (pod_Name pod) true) w1))
        as (w' & Hcopy & Htr & Hst & Hout).
      rewrite status_logCall, Hst1 in Hst. rewrite trace_logCall, Htr1 in Htr.
      rewrite Hcopy. cbn [isEOF]. unfold bind at 1, getStatus.
      rewrite call_run, Htr. fold opened. rewrite Hexit.
      unfold bind, status_Get, Close. rewrite !call_run.
      eexists. split; [unfold ret; rewrite status_logCall, Hst; reflexivity |].
      rewrite !trace_logCall, !status_logCall, Htr, Hst, <- app_assoc.
      cbn [stdout logCall] in *. rewrite Hout, Hout1. auto.
    + intros pre chunk post message code Hopen Hpre Hexit.
      unfold bind at 1, streamLogs. rewrite call_run, Htr1, Hopen.
      unfold bind at 1.
      destruct (copyLogs_stops pre chunk EOF post Hpre
                  (logCall (CLogsStream (clusterID c) (pod_Name pod) true) w1))
        as (w' & Hcopy & Htr & Hst & Hout).
      rewrite status_logCall, Hst1 in Hst. rewrite trace_logCall, Htr1 in Htr.
      rewrite Hcopy. cbn [isEOF]. unfold bind at 1, getStatus.
      rewrite call_run, Htr. fold opened. rewrite Hexit.
      unfold bind, status_Get, Close. rewrite !call_run.
      eexists. split; [unfold ret; rewrite status_logCall, Hst; reflexivity |].
      rewrite !trace_logCall, !status_logCall, Htr, Hst, <- app_assoc. auto.
Qed.

(** The test [t1] is started and its pod is still waiting for its
    container, so that the request for the logs is refused: the caller of
    [RunTests] gets the three values it gets for a test that ran to its end
    with the empty message and the exit code 0, and the status writer is
    left as that run leaves it; the exit status was never asked for. A
    request to start the test that is refused leaves the status writer
    with the error. *)
Lemma RunTests_drops_stream_errors_witness :
  let waiting := Cluster (scriptedLogs (inr (Other "container is waiting to start"))
                            (inl ("", 0))) defaultConfig in
  let passing := Cluster (scriptedLogs (inl [("ok", None); ("", Some EOF)])
                            (inl ("", 0))) defaultConfig in
  let broken := Cluster (scriptedLogs (inl [("ok", None); ("", Some (Other "reset"))])
                           (inl ("", 0))) defaultConfig in
  let refused := Cluster (withStartTests (fun _ _ _ _ => inr (Other "forbidden"))
                            calmGateway) defaultConfig in
  let run c := RunTests c "t1" ["suite.A"] 0 emptyWorld in
  fst (run waiting) = fst (run passing)
  /\ fst (run broken) = fst (run passing)
  /\ status (snd (run waiting)) = status (snd (run passing))
  /\ trace (snd (run waiting))
     = [CStartTests "t1" ["suite.A"] 600000000000; CLogsStream "cluster-1" "t1" true]
  /\ trace (snd (run broken))
     = [CStartTests "t1" ["suite.A"] 600000000000; CLogsStream "cluster-1" "t1" true; CClose]
  /\ sw_err (status (snd (run refused))) = Some (Other "forbidden").
Proof.
  intros waiting passing broken refused run.
  pose (pod := {| pod_Name := "t1"; pod_ContainerStatuses := [] |}).
  destruct (proj1 (proj2 (RunTests_drops_stream_errors waiting "t1" ["suite.A"] 0 emptyWorld)
                     pod eq_refl)
              (Other "container is waiting to start") eq_refl)
    as (ww & Hwaiting & Htrw & Hstw & _).
  destruct (proj1 (proj2 (proj2 (RunTests_drops_stream_errors broken "t1" ["suite.A"] 0
                                   emptyWorld) pod eq_refl))
              [("ok", None)] "" (Other "reset") [] eq_refl
              ltac:(repeat constructor) eq_refl)
    as (wb & Hbroken & Htrb & _).
  destruct (proj2 (proj2 (proj2 (proj2 (RunTests_drops_stream_errors passing "t1" ["suite.A"]
                                          0 emptyWorld) pod eq_refl)))
              [("ok", None)] "" [] "" 0 eq_refl ltac:(repeat constructor) eq_refl)
    as (wp & Hpassing & _ & Hstp).
  destruct (proj1 (RunTests_drops_stream_errors refused "t1" ["suite.A"] 0 emptyWorld)
              (Other "forbidden") eq_refl)
    as (wr & Hrefused & _ & Hstr).
  unfold run. rewrite Hwaiting, Hbroken, Hpassing, Hrefused. cbn [fst snd].
  rewrite Hstw, Hstp, Htrw, Htrb, Hstr.
  split; [reflexivity |]. split; [reflexivity |]. split; [reflexivity |].
  split; [reflexivity |]. split; reflexivity.
Defined.

(** ** Further properties: test runs and logs *)

(** X1. A test job that starts, whose log stream ends at [io.EOF] and whose
    exit status can be retrieved: [RunTests] returns the message and the
    exit code of the job; it printed the chunks read before the end of the
    stream, in order, and not the bytes of the [Read] that returned
    [io.EOF]; it made four calls: the start with the timeout, or with ten
    minutes when the timeout is 0, the stream, the exit status and the
    close of the stream. *)
Theorem RunTests_streams_and_reports (c : ClusterController) (testID : string)
    (tests : list string) (timeout : Z) (w : World) (pod : Pod)
    (pre post : Reader) (chunk message : string) (code : Z) :
  let timeout' := if Z.eqb timeout 0 then 600000000000 else timeout in
  let started := trace w ++ [CStartTests testID tests timeout'] in
  let opened := started ++ [CLogsStream (clusterID c) (pod_Name pod) true] in
  gw_startTests (kubeclient c) (trace w) testID tests timeout' = inl pod ->
  gw_logsStream (kubeclient c) started (clusterID c) (pod_Name pod)
  = inl (pre ++ (chunk, Some EOF) :: post) ->
  readsWell pre ->
  gw_getStatus (kubeclient c) opened (pod_Name pod) = inl (message, code) ->
  exists st w',
    RunTests c testID tests timeout w = (Val (message, code, st), w')
    /\ stdout w' = stdout w ++ map fst pre
    /\ trace w' = opened ++ [CGetStatus (pod_Name pod); CClose].
Proof.
  intros timeout' started opened Hstart Hopen Hpre Hexit.
  unfold RunTests. change (10 * Minute) with 600000000000. fold timeout'.
  unfold bind at 1, status_Start. unfold bind at 1, startTests.
  rewrite call_run, trace_startW, Hstart.
  unfold bind at 1, status_Succeed.
  unfold bind at 1, streamLogs. rewrite call_run.
  rewrite trace_succeedW, trace_logCall, trace_startW. fold started. rewrite Hopen.
  unfold bind at 1.
  match goal with
  | |- context [copyLogs _ ?w0] =>
      destruct (copyLogs_stops pre chunk EOF post Hpre w0)
        as (w1 & Hcopy & Htr & Hst & Hout)
  end.
  rewrite Hcopy. cbn [isEOF]. unfold bind at 1, getStatus. rewrite call_run, Htr.
  rewrite trace_logCall, trace_succeedW, trace_logCall, trace_startW.
  fold started. fold opened. rewrite Hexit.
  unfold bind, status_Get, Close. rewrite !call_run.
  eexists. eexists. split; [reflexivity |].
  split; [exact Hout |].
  rewrite !trace_logCall, Htr.
  rewrite trace_logCall, trace_succeedW, trace_logCall, trace_startW.
  fold started. fold opened. rewrite <- app_assoc. reflexivity.
Qed.

Lemma RunTests_streams_and_reports_witness :
  exists st w',
    RunTests (Cluster (scriptedLogs (inl [("PASS suite.A", None); ("tail", Some EOF)])
                         (inl ("passed", 0))) defaultConfig)
      "t1" ["suite.A"] 0 emptyWorld
    = (Val ("passed", 0, st), w')
    /\ stdout w' = ["PASS suite.A"]
    /\ trace w' = [CStartTests "t1" ["suite.A"] 600000000000;
                   CLogsStream "cluster-1" "t1" true; CGetStatus "t1"; CClose].
Proof.
  edestruct (RunTests_streams_and_reports
               (Cluster (scriptedLogs (inl [("PASS suite.A", None); ("tail", Some EOF)])
                           (inl ("passed", 0))) defaultConfig)
               "t1" ["suite.A"] 0 emptyWorld
               {| pod_Name := "t1"; pod_ContainerStatuses := [] |}
               [("PASS suite.A", None)] [] "tail" "passed" 0)
    as (st & w' & Hrun & Hout & Htr);
    [reflexivity | reflexivity | repeat constructor | reflexivity |].
  exists st, w'. split; [exact Hrun |]. split; [exact Hout | exact Htr].
Defined.

(** X2. [GetResources] returns an error of the lookup by name other than
    not-found as it is, without listing pods; after a not-found it returns
    the error of the list as it is. *)
Theorem GetResources_failures (c : ClusterController) (name : string) (w : World) :
  (forall err,
      gw_podsGet (kubeclient c) (trace w) (clusterID c) name = inr err ->
      IsNotFound err = false ->
      GetResources c name w
      = (Val (inr err), logCall (CPodsGet (clusterID c) name) w))
  /\ (forall err err',
      gw_podsGet (kubeclient c) (trace w) (clusterID c) name = inr err ->
      IsNotFound err = true ->
      gw_podsList (kubeclient c) (trace w ++ [CPodsGet (clusterID c) name])
        (clusterID c) ("resource=" +:+ name) = inr err' ->
      fst (GetResources c name w) = Val (inr err')).
Proof.
  split.
  - intros err Hget Hnf.
    unfold GetResources. unfold bind at 1. unfold PodsGet.
    rewrite call_run, Hget, Hnf. reflexivity.
  - intros err err' Hget Hnf Hlist.
    unfold GetResources. unfold bind at 1. unfold PodsGet.
    rewrite call_run, Hget, Hnf. cbn [negb].
    unfold bind, PodsList. rewrite call_run, trace_logCall, Hlist. reflexivity.
Qed.

Lemma GetResources_failures_witness :
  GetResources (Cluster (withPods (fun _ _ _ => inr (Other "connection refused"))
                           (fun _ _ _ => inl []) calmGateway) defaultConfig)
    "onos-topo" emptyWorld
  = (Val (inr (Other "connection refused")),
     logCall (CPodsGet "cluster-1" "onos-topo") emptyWorld).
Proof.
  apply (proj1 (GetResources_failures
                  (Cluster (withPods (fun _ _ _ => inr (Other "connection refused"))
                              (fun _ _ _ => inl []) calmGateway) defaultConfig)
                  "onos-topo" emptyWorld));
    reflexivity.
Defined.

(** X3. [GetResources] always returns, and never returns an empty list of
    resources: a list it returns without an error has at least one name. *)
Theorem GetResources_never_empty (c : ClusterController) (name : string) (w : World) :
  (exists r, fst (GetResources c name w) = Val r)
  /\ (forall ids, fst (GetResources c name w) = Val (inl ids) -> ids <> []).
Proof.
  assert (Hshape : exists r, fst (GetResources c name w) = Val r
                             /\ forall ids, r = inl ids -> ids <> []).
  { unfold GetResources. unfold bind at 1. unfold PodsGet. rewrite call_run.
    destruct (gw_podsGet _ _ _ _) as [pod | err].
    - eexists. split; [reflexivity |]. intros ids Hids. injection Hids as <-. discriminate.
    - destruct (negb (IsNotFound err)).
      + eexists. split; [reflexivity |]. intros ids Hids. discriminate.
      + unfold bind, PodsList. rewrite call_run.
        destruct (gw_podsList _ _ _ _) as [[| p items] | err'].
        * eexists. split; [reflexivity |]. intros ids Hids. discriminate.
        * eexists. split; [reflexivity |]. intros ids Hids.
          injection Hids as <-. discriminate.
        * eexists. split; [reflexivity |]. intros ids Hids. discriminate. }
  destruct Hshape as (r & Hr & Hne). split; [eauto |].
  intros ids Hids. rewrite Hr in Hids. injection Hids as ->. apply Hne. reflexivity.
Qed.

Lemma GetResources_never_empty_witness :
  ["onos-topo-1"] <> [].
Proof.
  apply (proj2 (GetResources_never_empty (Cluster podsByName defaultConfig)
                  "onos-topo-1" emptyWorld)).
  reflexivity.
Defined.

Lemma string_app_nil_r (s : string) : s +:+ "" = s.
Proof.
  induction s as [| a s IH]; [reflexivity |].
  change (String a (s +:+ "") = String a s). f_equal. exact IH.
Qed.

(** [ReadFrom] keeps the bytes of every [Read] up to the first one that
    returns an error, the bytes of that one included. *)
Lemma ReadFrom_all pre chunk e post :
  readsWell pre ->
  forall buf w,
    ReadFrom (pre ++ (chunk, Some e) :: post) buf w
    = (Val (buf +:+ joined (map fst pre) +:+ chunk, if isEOF e then None else Some e), w).
Proof.
  induction 1 as [| [chunk0 err0] pre Hhead _ IH]; intros buf w.
  - simpl. destruct (isEOF e); reflexivity.
  - simpl in Hhead. subst err0. cbn [app ReadFrom map fst joined foldr].
    rewrite IH. fold (joined (map fst pre)). rewrite !string_app_assoc. reflexivity.
Qed.

(** X4. [GetLogs] of a resource whose pod is found and whose log stream
    ends at [io.EOF] returns all the bytes of the stream in order, those of
    the [Read] that returned [io.EOF] included, and closes the stream. *)
Theorem GetLogs_returns_all_bytes (c : ClusterController) (resourceID : string)
    (options : PodLogOptions) (w : World) (pod : Pod) (pre post : Reader) (chunk : string) :
  gw_podsGet (kubeclient c) (trace w) (clusterID c) resourceID = inl pod ->
  gw_logsStream (kubeclient c) (trace w ++ [CPodsGet (clusterID c) resourceID])
    (clusterID c) (pod_Name pod)
  = inl (pre ++ (chunk, Some EOF) :: post) ->
  readsWell pre ->
  exists w',
    GetLogs c resourceID options w = (Val (inl (joined (map fst pre) +:+ chunk)), w')
    /\ trace w' = trace w ++ [CPodsGet (clusterID c) resourceID;
                              CLogsStream (clusterID c) (pod_Name pod) (Follow options);
                              CClose].
Proof.
  intros Hget Hopen Hpre.
  unfold GetLogs. unfold bind at 1. unfold PodsGet. rewrite call_run, Hget.
  unfold getLogs. unfold bind at 1. rewrite call_run, trace_logCall, Hopen.
  unfold bind at 1. rewrite (ReadFrom_all pre chunk EOF post Hpre).
  cbn [isEOF]. unfold bind, Close. rewrite call_run.
  eexists. split; [reflexivity |].
  rewrite !trace_logCall, <- !app_assoc. reflexivity.
Qed.

Lemma GetLogs_returns_all_bytes_witness :
  fst (GetLogs (Cluster (withLogs (fun _ _ _ => inl [("line 1 ", None); ("line 2", Some EOF)])
                           (fun _ _ => inl ("", 0)) podsByName) defaultConfig)
         "onos-topo-1" {| Follow := false |} emptyWorld)
  = Val (inl "line 1 line 2").
Proof.
  edestruct (GetLogs_returns_all_bytes
               (Cluster (withLogs (fun _ _ _ => inl [("line 1 ", None); ("line 2", Some EOF)])
                           (fun _ _ => inl ("", 0)) podsByName) defaultConfig)
               "onos-topo-1" {| Follow := false |} emptyWorld
               {| pod_Name := "onos-topo-1"; pod_ContainerStatuses := [] |}
               [("line 1 ", None)] [] "line 2")
    as (w' & Hrun & _); [reflexivity | reflexivity | repeat constructor |].
  rewrite Hrun. reflexivity.
Defined.

(** X5. [GetLogs] returns the error of the pod lookup without asking for
    the logs, and the error of the stream request without reading; when a
    [Read] fails with an error other than [io.EOF] it returns that error
    and none of the bytes read, and the stream is closed all the same. *)
Theorem GetLogs_failures (c : ClusterController) (resourceID : string)
    (options : PodLogOptions) (w : World) :
  (forall err,
      gw_podsGet (kubeclient c) (trace w) (clusterID c) resourceID = inr err ->
      GetLogs c resourceID options w
      = (Val (inr err), logCall (CPodsGet (clusterID c) resourceID) w))
  /\ (forall pod err,
      gw_podsGet (kubeclient c) (trace w) (clusterID c) resourceID = inl pod ->
      gw_logsStream (kubeclient c) (trace w ++ [CPodsGet (clusterID c) resourceID])
        (clusterID c) (pod_Name pod) = inr err ->
      exists w',
        GetLogs c resourceID options w = (Val (inr err), w')
        /\ trace w' = trace w ++ [CPodsGet (clusterID c) resourceID;
                                  CLogsStream (clusterID c) (pod_Name pod) (Follow options)])
  /\ (forall pod pre chunk err post,
      gw_podsGet (kubeclient c) (trace w) (clusterID c) resourceID = inl pod ->
      gw_logsStream (kubeclient c) (trace w ++ [CPodsGet (clusterID c) resourceID])
        (clusterID c) (pod_Name pod)
      = inl (pre ++ (chunk, Some err) :: post) ->
      readsWell pre ->
      isEOF err = false ->
      exists w',
        GetLogs c resourceID options w = (Val (inr err), w')
        /\ trace w' = trace w ++ [CPodsGet (clusterID c) resourceID;
                                  CLogsStream (clusterID c) (pod_Name pod) (Follow options);
                                  CClose]).
Proof.
  split; [| split].
  - intros err Hget.
    unfold GetLogs. unfold bind at 1. unfold PodsGet. rewrite call_run, Hget. reflexivity.
  - intros pod err Hget Hopen.
    unfold GetLogs. unfold bind at 1. unfold PodsGet. rewrite call_run, Hget.
    unfold getLogs. unfold bind at 1. rewrite call_run, trace_logCall, Hopen.
    eexists. split; [reflexivity |].
    rewrite !trace_logCall, <- !app_assoc. reflexivity.
  - intros pod pre chunk err post Hget Hopen Hpre Hneof.
    unfold GetLogs. unfold bind at 1. unfold PodsGet. rewrite call_run, Hget.
    unfold getLogs. unfold bind at 1. rewrite call_run, trace_logCall, Hopen.
    unfold bind at 1. rewrite (ReadFrom_all pre chunk err post Hpre), Hneof.
    unfold bind, Close. rewrite call_run.
    eexists. split; [reflexivity |].
    rewrite !trace_logCall, <- !app_assoc. reflexivity.
Qed.

Lemma GetLogs_failures_witness :
  fst (GetLogs (Cluster (withLogs (fun _ _ _ => inl [("line 1", None); ("li", Some (Other "reset"))])
                           (fun _ _ => inl ("", 0)) podsByName) defaultConfig)
         "onos-topo-1" {| Follow := false |} emptyWorld)
  = Val (inr (Other "reset"))
  /\ GetLogs (Cluster calmGateway defaultConfig) "onos-topo-1" {| Follow := false |} emptyWorld
     = (Val (inr NotFound), logCall (CPodsGet "cluster-1" "onos-topo-1") emptyWorld).
Proof.
  split.
  - edestruct (proj2 (proj2 (GetLogs_failures
               (Cluster (withLogs (fun _ _ _ => inl [("line 1", None); ("li", Some (Other "reset"))])
                           (fun _ _ => inl ("", 0)) podsByName) defaultConfig)
               "onos-topo-1" {| Follow := false |} emptyWorld))
               {| pod_Name := "onos-topo-1"; pod_ContainerStatuses := [] |}
               [("line 1", None)] "li" (Other "reset") [])
      as (w' & Hrun & _);
      [reflexivity | reflexivity | repeat constructor | reflexivity |].
    rewrite Hrun. reflexivity.
  - apply (proj1 (GetLogs_failures (Cluster calmGateway defaultConfig) "onos-topo-1"
                    {| Follow := false |} emptyWorld)).
    reflexivity.
Defined.

(** ** Further properties: the waits *)

Lemma awaitOnosTopoProxyLoop_first_ready (c : ClusterController) (k : nat) :
  forall (fuel : nat) (w : World),
    (k < fuel)%nat ->
    (forall j, (j < k)%nat ->
       exists d,
         gw_deploymentsGet (kubeclient c) (trace w ++ unreadyPolls c "onos-topo-envoy" j)
           (clusterID c) "onos-topo-envoy" = inl d
         /\ dep_ReadyReplicas d <> 1) ->
    exists w',
      trace w' = (trace w ++ unreadyPolls c "onos-topo-envoy" k)
                 ++ [CDeploymentsGet (clusterID c) "onos-topo-envoy"]
      /\ status w' = status w
      /\ awaitOnosTopoProxyLoop c fuel w
         = (match gw_deploymentsGet (kubeclient c)
                    (trace w ++ unreadyPolls c "onos-topo-envoy" k)
                    (clusterID c) "onos-topo-envoy" with
            | inl d =>
                if Z.eqb (dep_ReadyReplicas d) 1 then Val None
                else fst (awaitOnosTopoProxyLoop c (fuel - S k)
                            (logCall (CSleep 100) w'))
            | inr e => Val (Some e)
            end,
            match gw_deploymentsGet (kubeclient c)
                    (trace w ++ unreadyPolls c "onos-topo-envoy" k)
                    (clusterID c) "onos-topo-envoy" with
            | inl d =>
                if Z.eqb (dep_ReadyReplicas d) 1 then w'
                else snd (awaitOnosTopoProxyLoop c (fuel - S k)
                            (logCall (CSleep 100) w'))
            | inr e => w'
            end).
Proof.
  induction k as [| k IH]; intros fuel w Hfuel Hunready.
  - destruct fuel as [| fuel]; [lia |]. simpl unreadyPolls. rewrite app_nil_r.
    exists (logCall (CDeploymentsGet (clusterID c) "onos-topo-envoy") w).
    split; [reflexivity |]. split; [reflexivity |].
    cbn [awaitOnosTopoProxyLoop]. unfold bind at 1, DeploymentsGet. rewrite call_run.
    replace (S fuel - 1)%nat with fuel by lia.
    destruct (gw_deploymentsGet _ _ _ _) as [d | e]; [| reflexivity].
    destruct (Z.eqb _ _); [reflexivity |].
    unfold bind, Sleep. rewrite call_run.
    destruct (awaitOnosTopoProxyLoop c fuel _) as [r w']. reflexivity.
  - destruct fuel as [| fuel]; [lia |].
    destruct (Hunready 0%nat) as (d0 & Hget0 & Hnot0); [lia |].
    simpl unreadyPolls in Hget0. rewrite app_nil_r in Hget0.
    apply Z.eqb_neq in Hnot0.
    set (w2 := logCall (CSleep 100)
                 (logCall (CDeploymentsGet (clusterID c) "onos-topo-envoy") w)).
    assert (Hstep : awaitOnosTopoProxyLoop c (S fuel) w = awaitOnosTopoProxyLoop c fuel w2).
    { cbn [awaitOnosTopoProxyLoop]. unfold bind at 1, DeploymentsGet.
      rewrite call_run, Hget0, Hnot0. unfold bind, Sleep. rewrite call_run.
      destruct (awaitOnosTopoProxyLoop c fuel _) as [[r | msg |] w']; reflexivity. }
    assert (Htr2 : forall j,
               trace w2 ++ unreadyPolls c "onos-topo-envoy" j
               = trace w ++ unreadyPolls c "onos-topo-envoy" (S j)).
    { intros j. unfold w2. rewrite !trace_logCall, <- !app_assoc. reflexivity. }
    destruct (IH fuel w2) as (w' & Htr & Hst & Hrun); [lia | |].
    { intros j Hj. rewrite Htr2. apply Hunready. lia. }
    exists w'. rewrite Hstep, Hrun, <- Htr2.
    split; [exact Htr |]. split; [exact Hst |].
    replace (S fuel - S (S k))%nat with (fuel - S k)%nat by lia. reflexivity.
Qed.

(** X6. The wait for the proxy of the topology service: when the first [k]
    polls find the deployment with a number of ready replicas other than 1
    and the wait may poll more than [k] times, it sleeps 100ms after each
    of them and returns at the next poll: [nil] when that poll reports one
    ready replica, and the error of the query when it fails, without a
    retry. *)
Theorem awaitOnosTopoProxy_returns_at_first_ready (c : ClusterController)
    (k fuel : nat) (w : World) :
  (k < fuel)%nat ->
  (forall j, (j < k)%nat ->
     exists d,
       gw_deploymentsGet (kubeclient c) (trace w ++ unreadyPolls c "onos-topo-envoy" j)
         (clusterID c) "onos-topo-envoy" = inl d
       /\ dep_ReadyReplicas d <> 1) ->
  let polled := trace w ++ unreadyPolls c "onos-topo-envoy" k in
  (forall d,
      gw_deploymentsGet (kubeclient c) polled (clusterID c) "onos-topo-envoy" = inl d ->
      dep_ReadyReplicas d = 1 ->
      exists w',
        awaitOnosTopoProxyDeploymentReady c fuel w = (Val None, w')
        /\ trace w' = polled ++ [CDeploymentsGet (clusterID c) "onos-topo-envoy"])
  /\ (forall e,
      gw_deploymentsGet (kubeclient c) polled (clusterID c) "onos-topo-envoy" = inr e ->
      exists w',
        awaitOnosTopoProxyDeploymentReady c fuel w = (Val (Some e), w')
        /\ trace w' = polled ++ [CDeploymentsGet (clusterID c) "onos-topo-envoy"]).
Proof.
  intros Hfuel Hunready polled.
  destruct (awaitOnosTopoProxyLoop_first_ready c k fuel w Hfuel Hunready)
    as (w' & Htr & _ & Hrun).
  fold polled in Htr, Hrun. unfold awaitOnosTopoProxyDeploymentReady.
  split.
  - intros d Hget Hready. apply Z.eqb_eq in Hready.
    rewrite Hget, Hready in Hrun. exists w'. split; assumption.
  - intros e Hget. rewrite Hget in Hrun. exists w'. split; assumption.
Qed.

Lemma awaitOnosTopoProxy_returns_at_first_ready_witness :
  let poll := CDeploymentsGet "cluster-1" "onos-topo-envoy" in
  (exists w',
      awaitOnosTopoProxyDeploymentReady
        (Cluster (slowDeployments 2 (inl {| dep_ReadyReplicas := 1 |})) defaultConfig)
        5 emptyWorld
      = (Val None, w')
      /\ trace w' = [poll; CSleep 100; poll; CSleep 100; poll])
  /\ (exists w',
      awaitOnosTopoProxyDeploymentReady
        (Cluster (slowDeployments 2 (inr (Other "connection refused"))) defaultConfig)
        5 emptyWorld
      = (Val (Some (Other "connection refused")), w')
      /\ trace w' = [poll; CSleep 100; poll; CSleep 100; poll]).
Proof.
  intros poll. split.
  - destruct (awaitOnosTopoProxy_returns_at_first_ready
                (Cluster (slowDeployments 2 (inl {| dep_ReadyReplicas := 1 |})) defaultConfig)
                2 5 emptyWorld) as [Hready _].
    + lia.
    + intros j Hj. exists {| dep_ReadyReplicas := 0 |}.
      destruct j as [| [| j]]; [split; [reflexivity | discriminate] .. | lia].
    + apply (Hready {| dep_ReadyReplicas := 1 |}); reflexivity.
  - destruct (awaitOnosTopoProxy_returns_at_first_ready
                (Cluster (slowDeployments 2 (inr (Other "connection refused"))) defaultConfig)
                2 5 emptyWorld) as [_ Hfails].
    + lia.
    + intros j Hj. exists {| dep_ReadyReplicas := 0 |}.
      destruct j as [| [| j]]; [split; [reflexivity | discriminate] .. | lia].
    + apply (Hfails (Other "connection refused")). reflexivity.
Defined.

Lemma awaitOnosTopoProxyLoop_no_panic c n :
  forall w msg, fst (awaitOnosTopoProxyLoop c n w) <> Panic msg.
Proof.
  induction n as [| n IH]; intros w msg; [discriminate |].
  cbn [awaitOnosTopoProxyLoop]. unfold bind at 1, DeploymentsGet. rewrite call_run.
  destruct (gw_deploymentsGet _ _ _ _) as [d | e]; [| discriminate].
  destruct (Z.eqb _ _); [discriminate |].
  unfold bind, Sleep. rewrite call_run.
  specialize (IH (logCall (CSleep 100)
                    (logCall (CDeploymentsGet (clusterID c) "onos-topo-envoy") w)) msg).
  destruct (awaitOnosTopoProxyLoop c n _) as [[r | msg' |] w']; simpl in *;
    [discriminate | exact IH | discriminate].
Qed.

(** The polls a wait for the proxy that returned has made. *)
Lemma awaitOnosTopoProxyLoop_outcome (c : ClusterController) (n : nat) :
  forall w r w',
    awaitOnosTopoProxyLoop c n w = (Val r, w') ->
    exists k,
      (k < n)%nat
      /\ trace w' = (trace w ++ unreadyPolls c "onos-topo-envoy" k)
                    ++ [CDeploymentsGet (clusterID c) "onos-topo-envoy"]
      /\ (forall j, (j < k)%nat ->
            exists d,
              gw_deploymentsGet (kubeclient c)
                (trace w ++ unreadyPolls c "onos-topo-envoy" j)
                (clusterID c) "onos-topo-envoy" = inl d
              /\ dep_ReadyReplicas d <> 1)
      /\ match r with
         | None =>
             exists d,
               gw_deploymentsGet (kubeclient c)
                 (trace w ++ unreadyPolls c "onos-topo-envoy" k)
                 (clusterID c) "onos-topo-envoy" = inl d
               /\ dep_ReadyReplicas d = 1
         | Some e =>
             gw_deploymentsGet (kubeclient c)
               (trace w ++ unreadyPolls c "onos-topo-envoy" k)
               (clusterID c) "onos-topo-envoy" = inr e
         end.
Proof.
  induction n as [| n IH]; intros w r w' Hrun; [discriminate |].
  cbn [awaitOnosTopoProxyLoop] in Hrun.
  unfold bind at 1, DeploymentsGet in Hrun. rewrite call_run in Hrun.
  destruct (gw_deploymentsGet (kubeclient c) (trace w) (clusterID c) "onos-topo-envoy")
    as [d | e] eqn:Hget.
  - destruct (Z.eqb (dep_ReadyReplicas d) 1) eqn:Hready.
    + injection Hrun as <- <-. exists 0%nat. simpl unreadyPolls. rewrite app_nil_r.
      split; [lia |]. split; [reflexivity |]. split; [intros j Hj; lia |].
      exists d. apply Z.eqb_eq in Hready. auto.
    + unfold bind at 1, Sleep in Hrun. rewrite call_run in Hrun.
      set (w2 := logCall (CSleep 100)
                   (logCall (CDeploymentsGet (clusterID c) "onos-topo-envoy") w)) in *.
      assert (Htr2 : forall j,
                 trace w2 ++ unreadyPolls c "onos-topo-envoy" j
                 = trace w ++ unreadyPolls c "onos-topo-envoy" (S j)).
      { intros j. unfold w2. rewrite !trace_logCall, <- !app_assoc. reflexivity. }
      destruct (IH w2 r w' Hrun) as (k & Hk & Htr & Hunready & Hlast).
      exists (S k). rewrite <- !Htr2.
      split; [lia |]. split; [exact Htr |]. split; [| exact Hlast].
      intros [| j] Hj.
      * simpl unreadyPolls. rewrite app_nil_r. exists d.
        apply Z.eqb_neq in Hready. auto.
      * rewrite <- Htr2. apply Hunready. lia.
  - injection Hrun as <- <-. exists 0%nat. simpl unreadyPolls. rewrite app_nil_r.
    split; [lia |]. split; [reflexivity |]. split; [intros j Hj; lia | exact Hget].
Qed.

(** X7. Whenever the wait for the proxy returns, it has made some polls
    that found a number of ready replicas other than 1, each followed by a
    sleep of 100ms, then one more poll, and nothing else; it returns [nil]
    only if that last poll reported exactly one ready replica, and an
    error only if it is the error of that last poll. It never panics. *)
Theorem awaitOnosTopoProxy_outcome (c : ClusterController) (fuel : nat) (w : World) :
  (forall msg, fst (awaitOnosTopoProxyDeploymentReady c fuel w) <> Panic msg)
  /\ (forall r w',
      awaitOnosTopoProxyDeploymentReady c fuel w = (Val r, w') ->
      exists k,
        (k < fuel)%nat
        /\ trace w' = (trace w ++ unreadyPolls c "onos-topo-envoy" k)
                      ++ [CDeploymentsGet (clusterID c) "onos-topo-envoy"]
        /\ (forall j, (j < k)%nat ->
              exists d,
                gw_deploymentsGet (kubeclient c)
                  (trace w ++ unreadyPolls c "onos-topo-envoy" j)
                  (clusterID c) "onos-topo-envoy" = inl d
                /\ dep_ReadyReplicas d <> 1)
        /\ match r with
           | None =>
               exists d,
                 gw_deploymentsGet (kubeclient c)
                   (trace w ++ unreadyPolls c "onos-topo-envoy" k)
                   (clusterID c) "onos-topo-envoy" = inl d
                 /\ dep_ReadyReplicas d = 1
           | Some e =>
               gw_deploymentsGet (kubeclient c)
                 (trace w ++ unreadyPolls c "onos-topo-envoy" k)
                 (clusterID c) "onos-topo-envoy" = inr e
           end).
Proof.
  unfold awaitOnosTopoProxyDeploymentReady.
  split; [intros msg; apply awaitOnosTopoProxyLoop_no_panic |].
  apply awaitOnosTopoProxyLoop_outcome.
Qed.

Lemma awaitOnosTopoProxy_outcome_witness :
  exists k,
    trace (snd (awaitOnosTopoProxyDeploymentReady (Cluster calmGateway defaultConfig) 2
                  emptyWorld))
    = ([] ++ unreadyPolls (Cluster calmGateway defaultConfig) "onos-topo-envoy" k)
      ++ [CDeploymentsGet "cluster-1" "onos-topo-envoy"].
Proof.
  destruct (proj2 (awaitOnosTopoProxy_outcome (Cluster calmGateway defaultConfig) 2 emptyWorld)
              None _ eq_refl) as (k & _ & Htr & _).
  exists k. exact Htr.
Defined.

(** *** The end of setupOnosTopo *)

Lemma chain_nil_passes ms :
  forall w w', chain ms w = (Val None, w') -> passAll ms w = Some w'.
Proof.
  induction ms as [| m ms IH]; intros w w' Hrun; simpl in *.
  - injection Hrun as <-. reflexivity.
  - unfold orReturn, bind at 1 in Hrun.
    destruct (m w) as [[[e |] | msg |] w1]; try discriminate.
    apply (IH _ _ Hrun).
Qed.

Lemma passAll_cons_inv m ms w w' :
  passAll (m :: ms) w = Some w' ->
  exists w1, m w = (Val None, w1) /\ passAll ms w1 = Some w'.
Proof.
  simpl. destruct (m w) as [[[e |] | msg |] w1]; try discriminate.
  intros Hrest. exists w1. auto.
Qed.

(** X20. [setupOnosTopo] returns [nil] only after both deployments were
    reported ready: its calls end with a poll in which [onos-topo] reported
    as many ready replicas as [TopoNodes], followed by nothing but the polls
    of [onos-topo-envoy], of which the last reported one ready replica. *)
Theorem setupOnosTopo_nil_means_ready (c : ClusterController) (fuel : nat) (w w' : World) :
  setupOnosTopo c fuel w = (Val None, w') ->
  exists tr d k d',
    gw_deploymentsGet (kubeclient c) tr (clusterID c) "onos-topo" = inl d
    /\ dep_ReadyReplicas d = TopoNodes (config c)
    /\ gw_deploymentsGet (kubeclient c)
         ((tr ++ [CDeploymentsGet (clusterID c) "onos-topo"])
            ++ unreadyPolls c "onos-topo-envoy" k)
         (clusterID c) "onos-topo-envoy" = inl d'
    /\ dep_ReadyReplicas d' = 1
    /\ trace w'
       = ((tr ++ [CDeploymentsGet (clusterID c) "onos-topo"])
            ++ unreadyPolls c "onos-topo-envoy" k)
         ++ [CDeploymentsGet (clusterID c) "onos-topo-envoy"].
Proof.
  intros Hrun. rewrite setupOnosTopo_chain in Hrun.
  apply chain_nil_passes in Hrun. unfold topoSteps in Hrun.
  do 6 (apply passAll_cons_inv in Hrun; destruct Hrun as (? & _ & Hrun)).
  apply passAll_cons_inv in Hrun. destruct Hrun as (w7 & Hwait & Hrun).
  apply passAll_cons_inv in Hrun. destruct Hrun as (w8 & Hproxy & Hrun).
  injection Hrun as <-.
  destruct (awaitOnosTopoLoop_ready _ _ _ _ _ Hwait) as (tr & d & Htr & Hget & Hready).
  destruct (awaitOnosTopoProxyLoop_outcome _ _ _ _ _ Hproxy)
    as (k & _ & Htr8 & _ & d' & Hget' & Hready').
  rewrite Htr in Htr8, Hget'.
  exists tr, d, k, d'. auto.
Qed.

Lemma setupOnosTopo_nil_means_ready_witness :
  exists tr d k d',
    gw_deploymentsGet calmGateway tr "cluster-1" "onos-topo" = inl d
    /\ dep_ReadyReplicas d = 1
    /\ gw_deploymentsGet calmGateway
         ((tr ++ [CDeploymentsGet "cluster-1" "onos-topo"])
            ++ unreadyPolls (Cluster calmGateway defaultConfig) "onos-topo-envoy" k)
         "cluster-1" "onos-topo-envoy" = inl d'
    /\ dep_ReadyReplicas d' = 1
    /\ trace (snd (setupOnosTopo (Cluster calmGateway defaultConfig) 3 emptyWorld))
       = ((tr ++ [CDeploymentsGet "cluster-1" "onos-topo"])
            ++ unreadyPolls (Cluster calmGateway defaultConfig) "onos-topo-envoy" k)
         ++ [CDeploymentsGet "cluster-1" "onos-topo-envoy"].
Proof.
  apply (setupOnosTopo_nil_means_ready (Cluster calmGateway defaultConfig) 3 emptyWorld).
  vm_compute. reflexivity.
Defined.

(** X8. The wait for the topology service returns [nil] only from a poll in
    which the deployment [onos-topo] reported as many ready replicas as the
    configuration asks for in [TopoNodes]; that poll is the last call of
    the wait. *)
Theorem awaitOnosTopoDeploymentReady_nil_only_when_ready (c : ClusterController)
    (fuel : nat) (w w' : World) :
  awaitOnosTopoDeploymentReady c fuel w = (Val None, w') ->
  exists tr d,
    trace w' = tr ++ [CDeploymentsGet (clusterID c) "onos-topo"]
    /\ gw_deploymentsGet (kubeclient c) tr (clusterID c) "onos-topo" = inl d
    /\ dep_ReadyReplicas d = TopoNodes (config c).
Proof. apply awaitOnosTopoLoop_ready. Qed.

Lemma awaitOnosTopoDeploymentReady_nil_only_when_ready_witness :
  exists tr d,
    trace (snd (awaitOnosTopoDeploymentReady (Cluster onePod defaultConfig) 3 emptyWorld))
    = tr ++ [CDeploymentsGet "cluster-1" "onos-topo"]
    /\ gw_deploymentsGet onePod tr "cluster-1" "onos-topo" = inl d
    /\ dep_ReadyReplicas d = 1.
Proof.
  apply (awaitOnosTopoDeploymentReady_nil_only_when_ready (Cluster onePod defaultConfig) 3
           emptyWorld _ eq_refl).
Defined.

(** X9. During one wait for the topology service no pod name gets the
    debugger command twice: the pods the wait executed a command in, over
    all its polls, are pairwise different. *)
Theorem awaitOnosTopoDeploymentReady_unblocks_once (c : ClusterController)
    (fuel : nat) (w : World) :
  exists new,
    executedPods (trace (snd (awaitOnosTopoDeploymentReady c fuel w)))
    = executedPods (trace w) ++ new
    /\ NoDup new.
Proof.
  destruct (awaitOnosTopoLoop_once c fuel ∅ w) as (new & Htr & Hnd & _).
  exists new. split; assumption.
Qed.

(** *** Errors are answers *)

Lemma failsAtLastCall_call gw ev (reply : list Call -> option error) :
  (forall tr, errorReply gw tr ev = reply tr) ->
  failsAtLastCall gw (call ev reply).
Proof.
  intros Hreply w e w' Hrun. rewrite call_run in Hrun. injection Hrun as Hrun <-.
  exists (trace w), ev. split; [reflexivity |]. rewrite Hreply. exact Hrun.
Qed.

Lemma failsAtLastCall_orReturn gw m k :
  failsAtLastCall gw m -> failsAtLastCall gw k -> failsAtLastCall gw (orReturn m k).
Proof.
  intros Hm Hk w e w' Hrun. unfold orReturn, bind in Hrun.
  destruct (m w) as [[[e0 |] | msg |] w1] eqn:Hmw; try discriminate.
  - injection Hrun as <- <-. apply (Hm _ _ _ Hmw).
  - apply (Hk _ _ _ Hrun).
Qed.

Lemma failsAtLastCall_ret gw : failsAtLastCall gw (ret None).
Proof. intros w e w' Hrun. discriminate. Qed.

Lemma failsAtLastCall_createClusterRole c :
  failsAtLastCall (kubeclient c) (createClusterRole c).
Proof.
  intros w e w' Hrun. unfold createClusterRole, bind, Create in Hrun.
  rewrite call_run in Hrun.
  destruct (gw_create _ _ _) as [e0 |] eqn:Hreply; [| discriminate].
  destruct (negb (IsAlreadyExists e0)); [| discriminate].
  injection Hrun as <- <-.
  exists (trace w). eexists. split; [reflexivity | exact Hreply].
Qed.

Lemma failsAtLastCall_createOnosTopoProxyConfigMap c :
  failsAtLastCall (kubeclient c) (createOnosTopoProxyConfigMap c).
Proof.
  intros w e w' Hrun. unfold createOnosTopoProxyConfigMap, bind, ReadFile in Hrun.
  rewrite call_run in Hrun.
  destruct (gw_readFile _ _ _) as [data | err] eqn:Hread.
  - unfold Create in Hrun. rewrite call_run in Hrun. injection Hrun as Hrun <-.
    eexists. eexists. split; [reflexivity | exact Hrun].
  - injection Hrun as <- <-.
    exists (trace w). eexists. split; [reflexivity |]. simpl. rewrite Hread. reflexivity.
Qed.

Lemma unblockPods_fails_at_last_call c pods :
  forall unblocked w e unblocked' w',
    unblockPods c pods unblocked w = (Val (Some e, unblocked'), w') ->
    lastReplyIs (kubeclient c) e (trace w').
Proof.
  induction pods as [| pod rest IH]; intros unblocked w e unblocked' w' Hrun.
  - discriminate.
  - cbn [unblockPods] in Hrun.
    destruct (_ && _ && _); [| apply (IH _ _ _ _ _ Hrun)].
    destruct (String.eqb _ Debug); [| apply (IH _ _ _ _ _ Hrun)].
    unfold bind, execute in Hrun. rewrite call_run in Hrun.
    destruct (gw_execute _ _ _ _) as [e0 |] eqn:Hreply.
    + injection Hrun as <- _ <-.
      exists (trace w). eexists. split; [reflexivity | exact Hreply].
    + apply (IH _ _ _ _ _ Hrun).
Qed.

Lemma awaitOnosTopoLoop_fails_at_last_call c n :
  forall unblocked, failsAtLastCall (kubeclient c) (awaitOnosTopoLoop c n unblocked).
Proof.
  induction n as [| n IH]; intros unblocked w e w' Hrun; [discriminate |].
  cbn [awaitOnosTopoLoop] in Hrun. unfold bind at 1, PodsList in Hrun.
  rewrite call_run in Hrun.
  destruct (gw_podsList _ _ _ _) as [items | err] eqn:Hlist.
  - unfold bind at 1 in Hrun.
    destruct (unblockPods c items unblocked _) as [[[[e0 |] unblocked'] | msg |] w1] eqn:Hub;
      try discriminate.
    + injection Hrun as <- <-. apply (unblockPods_fails_at_last_call _ _ _ _ _ _ _ Hub).
    + unfold bind at 1, DeploymentsGet in Hrun. rewrite call_run in Hrun.
      destruct (gw_deploymentsGet _ _ _ _) as [d | err] eqn:Hget.
      * destruct (Z.eqb _ _); [discriminate |].
        unfold bind at 1, Sleep in Hrun. rewrite call_run in Hrun.
        apply (IH _ _ _ _ Hrun).
      * injection Hrun as <- <-.
        exists (trace w1). eexists. split; [reflexivity |]. simpl. rewrite Hget. reflexivity.
  - injection Hrun as <- <-.
    exists (trace w). eexists. split; [reflexivity |]. simpl. rewrite Hlist. reflexivity.
Qed.

Lemma awaitOnosTopoProxyLoop_fails_at_last_call c n :
  failsAtLastCall (kubeclient c) (awaitOnosTopoProxyLoop c n).
Proof.
  induction n as [| n IH]; intros w e w' Hrun; [discriminate |].
  cbn [awaitOnosTopoProxyLoop] in Hrun. unfold bind at 1, DeploymentsGet in Hrun.
  rewrite call_run in Hrun.
  destruct (gw_deploymentsGet _ _ _ _) as [d | err] eqn:Hget.
  - destruct (Z.eqb _ _); [discriminate |].
    unfold bind at 1, Sleep in Hrun. rewrite call_run in Hrun.
    apply (IH _ _ _ Hrun).
  - injection Hrun as <- <-.
    exists (trace w). eexists. split; [reflexivity |]. simpl. rewrite Hget. reflexivity.
Qed.

(** X10. An error that [setupRBAC], [setupOnosTopo] or the wait for the
    topology service returns is the error the cluster answered to the last
    call made: the step stops at the call that fails and hands its error
    on unchanged. *)
Theorem setup_steps_fail_at_last_call (c : ClusterController) (fuel : nat)
    (w : World) (e : error) (w' : World) :
  (setupRBAC c w = (Val (Some e), w') -> lastReplyIs (kubeclient c) e (trace w'))
  /\ (setupOnosTopo c fuel w = (Val (Some e), w') -> lastReplyIs (kubeclient c) e (trace w'))
  /\ (awaitOnosTopoDeploymentReady c fuel w = (Val (Some e), w') ->
      lastReplyIs (kubeclient c) e (trace w')).
Proof.
  assert (Hcreate : forall o, failsAtLastCall (kubeclient c) (Create c o)).
  { intros o. apply failsAtLastCall_call. reflexivity. }
  split; [| split].
  - apply (failsAtLastCall_orReturn _ _ _ (failsAtLastCall_createClusterRole c)).
    apply failsAtLastCall_orReturn; [apply Hcreate |].
    apply failsAtLastCall_orReturn; [apply Hcreate | apply failsAtLastCall_ret].
  - unfold setupOnosTopo.
    repeat (apply failsAtLastCall_orReturn;
            [first [ apply Hcreate
                   | apply failsAtLastCall_createOnosTopoProxyConfigMap
                   | apply awaitOnosTopoLoop_fails_at_last_call
                   | apply awaitOnosTopoProxyLoop_fails_at_last_call ] |]).
    apply failsAtLastCall_ret.
  - apply awaitOnosTopoLoop_fails_at_last_call.
Qed.

Lemma setup_steps_fail_at_last_call_witness :
  lastReplyIs existingObjects AlreadyExists
    (trace (snd (setupRBAC (Cluster existingObjects defaultConfig) emptyWorld))).
Proof.
  apply (proj1 (setup_steps_fail_at_last_call (Cluster existingObjects defaultConfig) 3
                  emptyWorld AlreadyExists _)).
  reflexivity.
Defined.

(** *** The order of the objects *)

Lemma createRequests_app tr1 tr2 :
  createRequests (tr1 ++ tr2) = createRequests tr1 ++ createRequests tr2.
Proof. apply omap_app. Qed.

(** A computation that asks for no object. *)
Lemma requestsPrefixOf_nil (m : M (option error)) :
  (forall w, createRequests (trace (snd (m w))) = createRequests (trace w)) ->
  requestsPrefixOf m [].
Proof.
  intros Hm w. exists 0%nat. simpl. rewrite app_nil_r. auto.
Qed.

Lemma requestsPrefixOf_Create c o : requestsPrefixOf (Create c o) [o].
Proof.
  intros w. exists 1%nat. unfold Create. rewrite call_run. simpl.
  rewrite createRequests_app. auto.
Qed.

Lemma requestsPrefixOf_orReturn m k objs1 objs2 :
  requestsPrefixOf m objs1 -> requestsPrefixOf k objs2 ->
  requestsPrefixOf (orReturn m k) (objs1 ++ objs2).
Proof.
  intros Hm Hk w. unfold orReturn, bind.
  destruct (Hm w) as (k1 & Hk1 & Htr1 & Hnil1).
  destruct (m w) as [[[e |] | msg |] w1]; simpl in *.
  - exists k1. rewrite length_app. split; [lia |].
    split; [| discriminate]. rewrite Htr1, take_app_le by exact Hk1. reflexivity.
  - specialize (Hnil1 eq_refl). subst k1. rewrite firstn_all in Htr1.
    destruct (Hk w1) as (k2 & Hk2 & Htr2 & Hnil2).
    exists (length objs1 + k2)%nat. rewrite length_app. split; [lia |].
    split.
    + rewrite Htr2, Htr1, <- app_assoc, take_app_add'; reflexivity.
    + intros Hnil. rewrite (Hnil2 Hnil). reflexivity.
  - exists k1. rewrite length_app. split; [lia |].
    split; [| discriminate]. rewrite Htr1, take_app_le by exact Hk1. reflexivity.
  - exists k1. rewrite length_app. split; [lia |].
    split; [| discriminate]. rewrite Htr1, take_app_le by exact Hk1. reflexivity.
Qed.

Lemma unblockPods_no_request c pods :
  forall unblocked w,
    createRequests (trace (snd (unblockPods c pods unblocked w)))
    = createRequests (trace w).
Proof.
  induction pods as [| pod rest IH]; intros unblocked w; [reflexivity |].
  cbn [unblockPods].
  destruct (_ && _ && _); [| apply IH].
  destruct (String.eqb _ Debug); [| apply IH].
  unfold bind, execute. rewrite call_run.
  destruct (gw_execute _ _ _ _) as [e |].
  - simpl. rewrite createRequests_app. apply app_nil_r.
  - rewrite IH, trace_logCall, createRequests_app. apply app_nil_r.
Qed.

Lemma awaitOnosTopoLoop_no_request c n :
  forall unblocked w,
    createRequests (trace (snd (awaitOnosTopoLoop c n unblocked w)))
    = createRequests (trace w).
Proof.
  induction n as [| n IH]; intros unblocked w; [reflexivity |].
  cbn [awaitOnosTopoLoop]. unfold bind at 1, PodsList. rewrite call_run.
  assert (Hlist : createRequests (trace (logCall (CPodsList (clusterID c) "app=onos,type=topo") w))
                  = createRequests (trace w)).
  { rewrite trace_logCall, createRequests_app. apply app_nil_r. }
  destruct (gw_podsList _ _ _ _) as [items | err]; [| exact Hlist].
  unfold bind at 1.
  pose proof (unblockPods_no_request c items unblocked
                (logCall (CPodsList (clusterID c) "app=onos,type=topo") w)) as Hub.
  rewrite Hlist in Hub.
  destruct (unblockPods c items unblocked _) as [[[[e |] unblocked'] | msg |] w1];
    simpl in Hub; try exact Hub.
  unfold bind at 1, DeploymentsGet. rewrite call_run.
  assert (Hget : createRequests (trace (logCall (CDeploymentsGet (clusterID c) "onos-topo") w1))
                 = createRequests (trace w)).
  { rewrite trace_logCall, createRequests_app, Hub. apply app_nil_r. }
  destruct (gw_deploymentsGet _ _ _ _) as [d | err]; [| exact Hget].
  destruct (Z.eqb _ _); [exact Hget |].
  unfold bind at 1, Sleep. rewrite call_run.
  rewrite IH, trace_logCall, createRequests_app, Hget. apply app_nil_r.
Qed.

Lemma awaitOnosTopoProxyLoop_no_request c n :
  forall w,
    createRequests (trace (snd (awaitOnosTopoProxyLoop c n w)))
    = createRequests (trace w).
Proof.
  induction n as [| n IH]; intros w; [reflexivity |].
  cbn [awaitOnosTopoProxyLoop]. unfold bind at 1, DeploymentsGet. rewrite call_run.
  assert (Hget : createRequests
                   (trace (logCall (CDeploymentsGet (clusterID c) "onos-topo-envoy") w))
                 = createRequests (trace w)).
  { rewrite trace_logCall, createRequests_app. apply app_nil_r. }
  destruct (gw_deploymentsGet _ _ _ _) as [d | err]; [| exact Hget].
  destruct (Z.eqb _ _); [exact Hget |].
  unfold bind at 1, Sleep. rewrite call_run.
  rewrite IH, trace_logCall, createRequests_app, Hget. apply app_nil_r.
Qed.

Lemma requestsPrefixOf_createClusterRole c :
  requestsPrefixOf (createClusterRole c)
    [mkObject KClusterRole (clusterID c) (clusterID c)].
Proof.
  intros w. exists 1%nat. unfold createClusterRole, bind, Create. rewrite call_run.
  split; [simpl; lia |]. split; [| reflexivity].
  destruct (gw_create _ _ _) as [e |]; [destruct (negb _) |];
    simpl; rewrite createRequests_app; reflexivity.
Qed.

Lemma requestsPrefixOf_createOnosTopoProxyConfigMap c :
  requestsPrefixOf (createOnosTopoProxyConfigMap c)
    [mkObject KConfigMap "onos-topo-envoy" (clusterID c)].
Proof.
  intros w. unfold createOnosTopoProxyConfigMap, bind, ReadFile. rewrite call_run.
  destruct (gw_readFile _ _ _) as [data | err].
  - exists 1%nat. unfold Create. rewrite call_run. simpl.
    rewrite !createRequests_app. simpl. rewrite app_nil_r. auto.
  - exists 0%nat. simpl. rewrite createRequests_app. simpl.
    split; [lia |]. split; [reflexivity | discriminate].
Qed.

(** X11. [setupRBAC] and [setupOnosTopo] ask for their objects in a fixed
    order. Whatever the cluster answers, the objects [setupRBAC] has asked
    to create are the first ones of: cluster role, cluster role binding,
    service account; and those of [setupOnosTopo] the first ones of: config
    map, service and deployment [onos-topo], then config map, deployment
    and service [onos-topo-envoy]. When the step returns [nil] it has
    asked for all of them, once each. *)
Theorem setup_steps_request_in_order (c : ClusterController) (fuel : nat) :
  requestsPrefixOf (setupRBAC c) (rbacObjects c)
  /\ requestsPrefixOf (setupOnosTopo c fuel) (topoObjects c).
Proof.
  split.
  - unfold setupRBAC, rbacObjects.
    apply (requestsPrefixOf_orReturn _ _ [_] [_; _]);
      [apply requestsPrefixOf_createClusterRole |].
    apply (requestsPrefixOf_orReturn _ _ [_] [_]); [apply requestsPrefixOf_Create |].
    apply (requestsPrefixOf_orReturn _ _ [_] []); [apply requestsPrefixOf_Create |].
    apply requestsPrefixOf_nil. reflexivity.
  - unfold setupOnosTopo, topoObjects.
    apply (requestsPrefixOf_orReturn _ _ [_] [_; _; _; _; _]);
      [apply requestsPrefixOf_Create |].
    apply (requestsPrefixOf_orReturn _ _ [_] [_; _; _; _]);
      [apply requestsPrefixOf_Create |].
    apply (requestsPrefixOf_orReturn _ _ [_] [_; _; _]);
      [apply requestsPrefixOf_Create |].
    apply (requestsPrefixOf_orReturn _ _ [_] [_; _]);
      [apply requestsPrefixOf_createOnosTopoProxyConfigMap |].
    apply (requestsPrefixOf_orReturn _ _ [_] [_]); [apply requestsPrefixOf_Create |].
    apply (requestsPrefixOf_orReturn _ _ [_] []); [apply requestsPrefixOf_Create |].
    apply (requestsPrefixOf_orReturn _ _ [] []);
      [apply requestsPrefixOf_nil, awaitOnosTopoLoop_no_request |].
    apply (requestsPrefixOf_orReturn _ _ [] []);
      [apply requestsPrefixOf_nil, awaitOnosTopoProxyLoop_no_request |].
    apply requestsPrefixOf_nil. reflexivity.
Qed.

Lemma setup_steps_request_in_order_witness :
  createRequests (trace (snd (setupOnosTopo (Cluster calmGateway defaultConfig) 3 emptyWorld)))
  = topoObjects (Cluster calmGateway defaultConfig).
Proof.
  destruct (proj2 (setup_steps_request_in_order (Cluster calmGateway defaultConfig) 3)
              emptyWorld) as (k & _ & Htr & Hall).
  rewrite Htr, (Hall ltac:(vm_compute; reflexivity)). apply firstn_all.
Defined.

(** ** Further properties: devices *)






Lemma RemoveNetwork_reconciles_from c name w :
  exists w2,
    RemoveNetwork c name w
    = orFail (removeNetworkFromConfig c name
                (fst (gw_configMapsList (kubeclient c) (trace w) (clusterID c)
                        ("network=" +:+ name))))
        status_Succeed w2
    /\ trace w2 = trace w ++ [CConfigMapsList (clusterID c) ("network=" +:+ name);
                              CMethod "teardownNetwork" [name]].
Proof.
  unfold RemoveNetwork.
  unfold bind at 1, status_Start. unfold bind at 1.
  unfold ConfigMapsList at 1. rewrite call_run, trace_startW.
  unfold orRecord, bind at 1. unfold teardownNetwork, method. rewrite call_run.
  destruct (gw_method _ _ _ _) as [e |].
  - unfold bind at 1, status_Fail. unfold bind at 1, status_Start.
    eexists. split; [reflexivity |]. simpl. rewrite <- app_assoc. reflexivity.
  - unfold bind at 1, status_Start.
    eexists. split; [reflexivity |]. simpl. rewrite <- app_assoc. reflexivity.
Qed.

(** X13. What [AddNetwork] adds, [RemoveNetwork] removes. In a cluster that
    answers every remote command with success, [AddNetwork] of a network of
    [N] devices registers the devices [<name>-s0], ..., [<name>-s(N-1)]
    after the provisioning step; [RemoveNetwork], when the stored
    configuration reports [numdevices = N], removes the devices of the same
    names in the same order, after the list and the teardown calls, whether
    or not the teardown failed. *)
Theorem network_added_devices_are_removed (c : ClusterController) (name : string)
    (cfg : NetworkConfig) (w1 w2 : World) (cm : ConfigMap) (rest : list ConfigMap)
    (listErr : option error) (m : gmap string YamlValue) :
  NumDevices cfg <= maxInt ->
  (forall tr cmd, gw_executeCLI (kubeclient c) tr cmd = None) ->
  gw_method (kubeclient c) (trace w1) "setupNetwork" [name; Itoa (NumDevices cfg)] = None ->
  gw_configMapsList (kubeclient c) (trace w2) (clusterID c) ("network=" +:+ name)
  = (cm :: rest, listErr) ->
  yaml_Unmarshal (kubeclient c) (default "" (cm_BinaryData cm !! "config")) = inl m ->
  m !! "numdevices" = Some (YInt (NumDevices cfg)) ->
  let indices := seq 0 (Z.to_nat (NumDevices cfg)) in
  (exists st w',
      AddNetwork c name cfg w1 = (Val st, w')
      /\ trace w'
         = trace w1
           ++ CMethod "setupNetwork" [name; Itoa (NumDevices cfg)]
              :: map (fun j => CExecuteCLI
                                 (addDeviceCommand "Stratum" (deviceName name (Z.of_nat j))
                                    (int_add 50001 (Z.of_nat j))))
                     indices)
  /\ (exists st w',
      RemoveNetwork c name w2 = (Val st, w')
      /\ trace w'
         = trace w2
           ++ CConfigMapsList (clusterID c) ("network=" +:+ name)
              :: CMethod "teardownNetwork" [name]
              :: map (fun j => CExecuteCLI
                                 (removeDeviceCommand (deviceName name (Z.of_nat j))))
                     indices).
Proof.
  intros Hint Hcalm Hsetup Hlist Hyaml Hnum indices.
  assert (Hn : Z.of_nat (Z.to_nat (NumDevices cfg)) <= maxInt).
  { unfold maxInt in *. lia. }
  split.
  - unfold AddNetwork. unfold bind at 1, status_Start. rewrite orFail_run.
    unfold setupNetwork, method. rewrite call_run, trace_startW, Hsetup.
    unfold bind at 1, status_Start. rewrite orFail_run.
    unfold addNetworkToTopo.
    change 0 with (wrapInt 0) at 1. change 50001 with (wrapInt 50001) at 1.
    rewrite addNetworkLoop_executeAll, (addNetworkCommands_wrap name _ Hn).
    match goal with
    | |- context [executeAll c ?cmds ?w0] =>
        destruct (executeAll_sent c cmds w0) as (k & r & w' & Hrun & Htr & _ & _ & Hsent)
    end.
    destruct (sentUntilError_all _ _ _ _ _ Hsent Hcalm) as [-> ->].
    rewrite Hrun. eexists. eexists. split; [reflexivity |].
    rewrite trace_succeedW, Htr, trace_startW, trace_logCall, trace_startW.
    rewrite firstn_all, <- app_assoc. simpl. f_equal. f_equal.
    unfold addNetworkCommands. rewrite map_map. reflexivity.
  - destruct (RemoveNetwork_reconciles_from c name w2) as (w3 & Hrun & Htr3).
    rewrite Hrun, orFail_run, Hlist. cbn [fst]. unfold removeNetworkFromConfig.
    rewrite Hyaml, Hnum. change 0 with (wrapInt 0).
    rewrite removeNetworkLoop_executeAll, (removeNetworkCommands_wrap name _ Hn).
    destruct (executeAll_sent c (removeNetworkCommands name (Z.to_nat (NumDevices cfg))) w3)
      as (k & r & w' & Hexec & Htr & _ & _ & Hsent).
    destruct (sentUntilError_all _ _ _ _ _ Hsent Hcalm) as [-> ->].
    rewrite Hexec. eexists. eexists. split; [reflexivity |].
    rewrite trace_succeedW, Htr, Htr3, firstn_all, <- app_assoc. simpl. f_equal. f_equal. f_equal.
    unfold removeNetworkCommands. rewrite map_map. reflexivity.
Qed.

Lemma network_added_devices_are_removed_witness :
  let c := Cluster (storedNetwork "numdevices: 2" (fun _ _ => None)) defaultConfig in
  trace (snd (AddNetwork c "net-1" {| NumDevices := 2 |} emptyWorld))
  = [CMethod "setupNetwork" ["net-1"; "2"];
     CExecuteCLI (addDeviceCommand "Stratum" "net-1-s0" 50001);
     CExecuteCLI (addDeviceCommand "Stratum" "net-1-s1" 50002)]
  /\ trace (snd (RemoveNetwork c "net-1" emptyWorld))
     = [CConfigMapsList "cluster-1" "network=net-1";
        CMethod "teardownNetwork" ["net-1"];
        CExecuteCLI (removeDeviceCommand "net-1-s0");
        CExecuteCLI (removeDeviceCommand "net-1-s1")].
Proof.
  intros c.
  assert (Hint : NumDevices {| NumDevices := 2 |} <= maxInt)
    by (unfold maxInt; simpl; lia).
  edestruct (network_added_devices_are_removed c "net-1" {| NumDevices := 2 |}
               emptyWorld emptyWorld)
    as [(st1 & w1' & Hadd & Htr1) (st2 & w2' & Hrem & Htr2)];
    [ exact Hint | intros tr cmd; reflexivity | reflexivity
    | vm_compute; reflexivity | vm_compute; reflexivity | vm_compute; reflexivity | ].
  rewrite Hadd, Hrem. simpl snd. rewrite Htr1, Htr2. vm_compute. split; reflexivity.
Defined.

(** X14. What [AddSimulator] adds, [RemoveSimulator] removes. After a
    provisioning step that succeeds, [AddSimulator] sends one command, which
    registers the device [<name>] of type [Devicesim] at port 11161, and
    returns. [RemoveSimulator] always returns, and always sends, after the
    teardown call and whether or not it failed, one command, which removes
    the device [<name>]. *)
Theorem simulator_added_device_is_removed (c : ClusterController) (name : string) :
  (forall cfg w,
      gw_method (kubeclient c) (trace w) "setupSimulator" [name; sim_Config cfg] = None ->
      exists st w',
        AddSimulator c name cfg w = (Val st, w')
        /\ trace w' = trace w ++ [CMethod "setupSimulator" [name; sim_Config cfg];
                                  CExecuteCLI (addDeviceCommand "Devicesim" name 11161)])
  /\ (forall w,
      exists st w',
        RemoveSimulator c name w = (Val st, w')
        /\ trace w' = trace w ++ [CMethod "teardownSimulator" [name];
                                  CExecuteCLI (removeDeviceCommand name)]).
Proof.
  split.
  - intros cfg w Hsetup.
    unfold AddSimulator. unfold bind at 1, status_Start. rewrite orFail_run.
    unfold setupSimulator, method. rewrite call_run, trace_startW, Hsetup.
    unfold bind at 1, status_Start. rewrite orFail_run.
    unfold addSimulatorToTopo, addDevice, executeCLI. rewrite call_run.
    destruct (gw_executeCLI _ _ _); eexists; eexists;
      (split; [reflexivity |]); simpl; rewrite <- app_assoc; reflexivity.
  - intros w.
    unfold RemoveSimulator. unfold bind at 1, status_Start. unfold orRecord, bind at 1.
    unfold teardownSimulator, method. rewrite call_run.
    destruct (gw_method _ _ _ _) as [e |].
    + unfold bind at 1, status_Fail. unfold bind at 1, status_Start. rewrite orFail_run.
      unfold removeSimulatorFromConfig, removeDevice, executeCLI. rewrite call_run.
      destruct (gw_executeCLI _ _ _); eexists; eexists;
        (split; [reflexivity |]); simpl; rewrite <- app_assoc; reflexivity.
    + unfold bind at 1, status_Start. rewrite orFail_run.
      unfold removeSimulatorFromConfig, removeDevice, executeCLI. rewrite call_run.
      destruct (gw_executeCLI _ _ _); eexists; eexists;
        (split; [reflexivity |]); simpl; rewrite <- app_assoc; reflexivity.
Qed.

Lemma simulator_added_device_is_removed_witness :
  exists st w',
    AddSimulator (Cluster calmGateway defaultConfig) "sim-1" {| sim_Config := "default" |}
      emptyWorld = (Val st, w')
    /\ trace w' = [CMethod "setupSimulator" ["sim-1"; "default"];
                   CExecuteCLI (addDeviceCommand "Devicesim" "sim-1" 11161)].
Proof.
  apply (proj1 (simulator_added_device_is_removed (Cluster calmGateway defaultConfig) "sim-1")
           {| sim_Config := "default" |} emptyWorld).
  reflexivity.
Defined.

(** ** Further properties: the defaults of the image tags *)

Lemma defaultTag_lookup key tag (tags : gmap string string) k :
  defaultTag key tag tags !! k
  = if bool_decide (k = key) && String.eqb (tagOf tags key) ""
    then Some tag else tags !! k.
Proof.
  unfold defaultTag. destruct (String.eqb (tagOf tags key) "").
  - destruct (bool_decide (k = key)) eqn:Hk; simpl.
    + apply bool_decide_eq_true in Hk. subst k. apply lookup_insert_eq.
    + apply bool_decide_eq_false in Hk. apply lookup_insert_ne. congruence.
  - rewrite andb_false_r. reflexivity.
Qed.

Lemma defaultTag_tagOf_ne key tag (tags : gmap string string) k :
  k <> key -> tagOf (defaultTag key tag tags) k = tagOf tags k.
Proof.
  intros Hne. unfold tagOf. rewrite defaultTag_lookup.
  rewrite (bool_decide_eq_false_2 _ Hne). reflexivity.
Qed.

(** What [initImageTags] leaves under a key: the default of the key when
    the key has one and its tag was missing or empty, and what was there
    otherwise. *)
Lemma initImageTags_lookup latest (tags : gmap string string) k :
  initImageTags latest tags !! k
  = match imageTagDefault latest k with
    | Some tag => if String.eqb (tagOf tags k) "" then Some tag else tags !! k
    | None => tags !! k
    end.
Proof.
  unfold initImageTags. cbv zeta.
  rewrite !defaultTag_lookup.
  rewrite !defaultTag_tagOf_ne by discriminate.
  unfold imageTagDefault, taggedComponents.
  repeat match goal with
         | |- context [bool_decide (k = ?s)] =>
             destruct (bool_decide (k = s)) eqn:?;
             [ match goal with
               | H : bool_decide (k = s) = true |- _ =>
                   apply bool_decide_eq_true in H; subst k
               end
             | ]
         end;
    try (vm_compute bool_decide; cbn [andb orb];
         destruct (String.eqb _ ""); reflexivity).
  cbn [andb orb].
  rewrite bool_decide_eq_false_2; [reflexivity |].
  rewrite !elem_of_cons, elem_of_nil.
  repeat match goal with
         | H : bool_decide (k = _) = false |- _ => apply bool_decide_eq_false in H
         end.
  tauto.
Qed.

Lemma imageTagDefault_components latest k :
  is_Some (imageTagDefault latest k) <-> k ∈ taggedComponents.
Proof.
  unfold imageTagDefault.
  destruct (bool_decide (k = "config")) eqn:Hc.
  { apply bool_decide_eq_true in Hc. subst k. simpl. split; [intros _ | eauto].
    unfold taggedComponents. set_solver. }
  destruct (bool_decide (k = "topo")) eqn:Ht.
  { apply bool_decide_eq_true in Ht. subst k. simpl. split; [intros _ | eauto].
    unfold taggedComponents. set_solver. }
  simpl. destruct (bool_decide (k ∈ taggedComponents)) eqn:Hin.
  - apply bool_decide_eq_true in Hin. split; eauto.
  - apply bool_decide_eq_false in Hin. split; [intros [x Hx]; discriminate | tauto].
Qed.

(** X15. [initImageTags] never replaces a tag that was given: a key with a
    non-empty tag keeps it, whatever the key is, and a key that is not one
    of the nine components keeps what it had, an empty tag or none at all
    included. *)
Theorem initImageTags_keeps_given (latest : string) (tags : gmap string string) :
  (forall k v, tags !! k = Some v -> v <> "" -> initImageTags latest tags !! k = Some v)
  /\ (forall k, k ∉ taggedComponents -> initImageTags latest tags !! k = tags !! k).
Proof.
  split.
  - intros k v Hk Hv. rewrite initImageTags_lookup.
    destruct (imageTagDefault latest k) as [tag |]; [| exact Hk].
    unfold tagOf. rewrite Hk. simpl.
    apply String.eqb_neq in Hv. rewrite Hv. reflexivity.
  - intros k Hk. rewrite initImageTags_lookup.
    destruct (imageTagDefault latest k) as [tag |] eqn:Hdef; [| reflexivity].
    exfalso. apply Hk. apply (imageTagDefault_components latest). eauto.
Qed.

Lemma initImageTags_keeps_given_witness :
  initImageTags "latest" {[ "topo" := "v0.3"; "extra" := "" ]} !! "topo" = Some "v0.3"
  /\ initImageTags "latest" {[ "topo" := "v0.3"; "extra" := "" ]} !! "extra" = Some "".
Proof.
  destruct (initImageTags_keeps_given "latest" {[ "topo" := "v0.3"; "extra" := "" ]})
    as [Hkeep Hother].
  split.
  - apply Hkeep; [vm_compute; reflexivity | discriminate].
  - rewrite Hother; [vm_compute; reflexivity |].
    unfold taggedComponents. rewrite !elem_of_cons, elem_of_nil.
    intros H. repeat destruct H as [H | H]; try discriminate. exact H.
Defined.

(** X16. After [initImageTags] each of the nine components has a tag: a
    component whose tag was missing or empty has the debug tag if it is the
    configuration or the topology service and [latest] otherwise; so no
    component is left with an empty tag, provided [latest] is not the
    empty string. *)
Theorem initImageTags_fills_defaults (latest : string) (tags : gmap string string) :
  (forall k,
      k ∈ taggedComponents -> tagOf tags k = "" ->
      initImageTags latest tags !! k
      = Some (if bool_decide (k = "config") || bool_decide (k = "topo")
              then Debug else latest))
  /\ (latest <> "" ->
      forall k, k ∈ taggedComponents -> tagOf (initImageTags latest tags) k <> "").
Proof.
  assert (Hdef : forall k, k ∈ taggedComponents ->
                   imageTagDefault latest k
                   = Some (if bool_decide (k = "config") || bool_decide (k = "topo")
                           then Debug else latest)).
  { intros k Hk. unfold imageTagDefault.
    destruct (bool_decide (k = "config") || bool_decide (k = "topo")); [reflexivity |].
    rewrite (bool_decide_eq_true_2 _ Hk). reflexivity. }
  split.
  - intros k Hk Hempty. rewrite initImageTags_lookup, (Hdef k Hk), Hempty. reflexivity.
  - intros Hlatest k Hk. unfold tagOf at 1. rewrite initImageTags_lookup, (Hdef k Hk).
    destruct (String.eqb (tagOf tags k) "") eqn:Hempty.
    + simpl. destruct (_ || _); [discriminate | exact Hlatest].
    + apply String.eqb_neq in Hempty. exact Hempty.
Qed.

Lemma initImageTags_fills_defaults_witness :
  initImageTags "latest" {[ "gui" := "" ]} !! "gui" = Some "latest"
  /\ tagOf (initImageTags "latest" ∅) "topo" <> "".
Proof.
  destruct (initImageTags_fills_defaults "latest" {[ "gui" := "" ]}) as [Hfill _].
  destruct (initImageTags_fills_defaults "latest" ∅) as [_ Hfull].
  split.
  - apply (Hfill "gui"); [unfold taggedComponents; set_solver | vm_compute; reflexivity].
  - apply Hfull; [discriminate | unfold taggedComponents; set_solver].
Defined.

(** X17. [initImageTags] is idempotent: run on its own result it changes
    nothing. *)
Theorem initImageTags_idempotent (latest : string) (tags : gmap string string) :
  initImageTags latest (initImageTags latest tags) = initImageTags latest tags.
Proof.
  apply map_eq. intros k. rewrite (initImageTags_lookup latest (initImageTags latest tags)).
  destruct (imageTagDefault latest k) as [tag |] eqn:Hdef; [| reflexivity].
  unfold tagOf at 1. rewrite !initImageTags_lookup, Hdef.
  destruct (String.eqb (tagOf tags k) "") eqn:Hempty.
  - simpl. destruct (String.eqb tag ""); reflexivity.
  - unfold tagOf in Hempty. rewrite Hempty. reflexivity.
Qed.

(** ** Further properties: free ports *)

Lemma resolved_port_valid net tried p :
  resolvesPortsOnly net ->
  net_ResolveTCPAddr net tried ("localhost:" +:+ Itoa p) = None ->
  0 <= p <= 65535.
Proof.
  intros Hnet Hres.
  destruct (decide (0 <= p <= 65535)) as [Hp | Hp]; [exact Hp |].
  exfalso. apply (Hnet tried p Hp Hres).
Qed.

(** The ports the loop finds from the index [i] and the port [p] on: as
    many as are still asked for, in strictly increasing order, none below
    [p], each one a port that resolved and could be listened on. *)
Lemma GetFreePortsLoop_result net n count :
  count <= maxInt ->
  resolvesPortsOnly net ->
  forall i p ports tried res,
    0 <= i ->
    GetFreePortsLoop net n count i p ports tried = Val (inl res) ->
    exists new,
      res = ports ++ new
      /\ Z.of_nat (length new) = Z.max 0 (count - i)
      /\ StronglySorted Z.lt new
      /\ Forall (fun x => p <= x <= 65535
                          /\ exists tr, net_ListenTCP net tr x = None) new.
Proof.
  intros Hcount Hnet.
  induction n as [| n IH]; intros i p ports tried res Hi Hrun; [discriminate |].
  cbn [GetFreePortsLoop] in Hrun.
  destruct (Z.ltb i count) eqn:Hlt.
  - apply Z.ltb_lt in Hlt.
    destruct (net_ResolveTCPAddr net tried _) as [err |] eqn:Hres; [discriminate |].
    pose proof (resolved_port_valid _ _ _ Hnet Hres) as Hp.
    assert (Hp1 : int_add p 1 = p + 1).
    { apply int_add_small. unfold minInt, maxInt. lia. }
    rewrite Hp1 in Hrun.
    destruct (net_ListenTCP net tried p) as [err |] eqn:Hlisten.
    + destruct (IH _ _ _ _ _ Hi Hrun) as (new & Hnew & Hlen & Hsorted & Hall).
      exists new. split; [exact Hnew |]. split; [exact Hlen |]. split; [exact Hsorted |].
      eapply Forall_impl; [exact Hall |]. intros x [Hx Hfree]. split; [lia | exact Hfree].
    + assert (Hi1 : int_add i 1 = i + 1).
      { apply int_add_small. unfold minInt, maxInt in *. lia. }
      rewrite Hi1 in Hrun.
      assert (Hi' : 0 <= i + 1) by lia.
      destruct (IH _ _ _ _ _ Hi' Hrun) as (new & Hnew & Hlen & Hsorted & Hall).
      exists (p :: new). rewrite Hnew, <- app_assoc. split; [reflexivity |].
      split; [simpl length; lia |]. split.
      * constructor; [exact Hsorted |].
        eapply Forall_impl; [exact Hall |]. intros x [Hx _]. lia.
      * constructor; [split; [lia | eauto] |].
        eapply Forall_impl; [exact Hall |]. intros x [Hx Hfree]. split; [lia | exact Hfree].
  - apply Z.ltb_ge in Hlt. injection Hrun as <-.
    exists []. rewrite app_nil_r. split; [reflexivity |].
    split; [simpl; lia |]. split; constructor.
Qed.

(** X18. When [GetFreePorts] returns ports, it returns exactly [count] of
    them (none for a [count] of 0 or less), in strictly increasing order,
    none below [DebugPort] and none above 65535, and each one is a port on
    which [net.ListenTCP] succeeded. *)
Theorem GetFreePorts_result (net : Net) (DebugPort : Z) (fuel : nat) (count : Z)
    (ports : list Z) :
  count <= maxInt ->
  resolvesPortsOnly net ->
  GetFreePorts net DebugPort fuel count = Val (inl ports) ->
  Z.of_nat (length ports) = Z.max 0 count
  /\ StronglySorted Z.lt ports
  /\ Forall (fun x => DebugPort <= x <= 65535
                      /\ exists tr, net_ListenTCP net tr x = None) ports.
Proof.
  intros Hcount Hnet Hrun. unfold GetFreePorts in Hrun.
  destruct (GetFreePortsLoop_result net fuel count Hcount Hnet _ _ _ _ _ (Z.le_refl 0) Hrun)
    as (new & -> & Hlen & Hsorted & Hall).
  simpl. rewrite Z.sub_0_r in Hlen. auto.
Qed.

Lemma afterPrefix_app pre s : afterPrefix pre (pre +:+ s) = Some s.
Proof.
  induction pre as [| a pre IH]; [destruct s; reflexivity |].
  change (afterPrefix (String a pre) (String a (pre +:+ s)) = Some s).
  cbn [afterPrefix]. rewrite Ascii.eqb_refl. exact IH.
Qed.

Lemma netWithBusy_resolvesPortsOnly busy : resolvesPortsOnly (netWithBusy busy).
Proof.
  intros tried p Hp. cbn [netWithBusy net_ResolveTCPAddr].
  rewrite afterPrefix_app. unfold Itoa.
  assert (Hnonnil : Z.to_int p <> Decimal.Pos Decimal.Nil
                    /\ Z.to_int p <> Decimal.Neg Decimal.Nil).
  { destruct p as [| q | q]; simpl; split; try discriminate;
      intros H; injection H as H; apply (DecimalPos.Unsigned.to_uint_nonnil _ H). }
  rewrite NilZero.isi by apply Hnonnil. rewrite DecimalZ.of_to.
  destruct (Z.leb 0 p) eqn:H0; [| discriminate].
  destruct (Z.leb p 65535) eqn:H1; [| discriminate].
  apply Z.leb_le in H0. apply Z.leb_le in H1. lia.
Qed.

Lemma GetFreePorts_result_witness :
  GetFreePorts (netWithBusy [65531]) 65530 10 2 = Val (inl [65530; 65532])
  /\ Z.of_nat (length [65530; 65532]) = Z.max 0 2
  /\ StronglySorted Z.lt [65530; 65532].
Proof.
  assert (Hrun : GetFreePorts (netWithBusy [65531]) 65530 10 2 = Val (inl [65530; 65532]))
    by (vm_compute; reflexivity).
  split; [exact Hrun |].
  destruct (GetFreePorts_result (netWithBusy [65531]) 65530 10 2 [65530; 65532])
    as (Hlen & Hsorted & _);
    [unfold maxInt; lia | apply netWithBusy_resolvesPortsOnly | exact Hrun |].
  split; [exact Hlen | exact Hsorted].
Defined.

Lemma GetFreePortsLoop_terminates net n count :
  resolvesPortsOnly net ->
  forall i p ports tried,
    65536 - p < Z.of_nat n ->
    (0 < n)%nat ->
    exists r, GetFreePortsLoop net n count i p ports tried = Val r.
Proof.
  intros Hnet. induction n as [| n IH]; intros i p ports tried Hfuel Hpos; [lia |].
  cbn [GetFreePortsLoop].
  destruct (Z.ltb i count); [| eauto].
  destruct (net_ResolveTCPAddr net tried _) as [err |] eqn:Hres; [eauto |].
  pose proof (resolved_port_valid _ _ _ Hnet Hres) as Hp.
  assert (Hp1 : int_add p 1 = p + 1).
  { apply int_add_small. unfold minInt, maxInt. lia. }
  rewrite Hp1.
  destruct (net_ListenTCP net tried p); apply IH; lia.
Qed.

(** X19. [GetFreePorts] always returns: as only the ports up to 65535
    resolve, it has found [count] free ports or returned the error of
    [net.ResolveTCPAddr] after at most [65537 - DebugPort] attempts. With
    the property before: when fewer than [count] ports are free, it returns
    an error and never a shorter list. *)
Theorem GetFreePorts_terminates (net : Net) (DebugPort : Z) (fuel : nat) (count : Z) :
  resolvesPortsOnly net ->
  65536 - DebugPort < Z.of_nat fuel ->
  (0 < fuel)%nat ->
  exists r, GetFreePorts net DebugPort fuel count = Val r.
Proof.
  intros Hnet Hfuel Hpos. apply GetFreePortsLoop_terminates; assumption.
Qed.

Lemma GetFreePorts_terminates_witness :
  exists r, GetFreePorts (netWithBusy [65534; 65535]) 65533 4 2 = Val r.
Proof.
  apply GetFreePorts_terminates; [apply netWithBusy_resolvesPortsOnly | lia | lia].
Defined.
